(** * Epoch-transition accounting of the beacon chain (Altair)

    A shallow embedding of
      - beacon-chain/core/altair/epoch_precompute.go
      - beacon-chain/core/altair/epoch_spec.go
      - beacon-chain/core/epoch/precompute/slashing.go
    together with the properties of the epoch-accounting pipeline that the
    specification states about them.

    Go's [uint64] is an integer [Z] with the wrap-around of every
    arithmetic operation written out; slices are lists read with [!!] and
    written with [<[i:=x]>]; a Go function that can return an error or stop
    with a run-time panic returns a [result]. *)

From Stdlib Require Import ZArith Lia.
From stdpp Require Import base tactics option numbers list.

Local Open Scope Z_scope.

(** ** Outcomes of a Go call *)

(** The errors the pipeline itself constructs, and the one the state
    container reports for a balance index outside the balance list. *)
Inductive error : Type :=
| ErrInactivityScoresLength   (* "num of validators can't be greater than length of inactivity scores" *)
| ErrRegistryLength           (* "validator registries not the same length as state's validator registries" *)
| ErrBalanceIndex (idx : nat) (* the container has no balance at that index *)
| ErrExternal.                (* an error of an external collaborator *)

(** Run-time panics of Go: a slice index out of range, and an integer
    division (or remainder) by zero. *)
Inductive panic : Type :=
| IndexOutOfRange
| DivideByZero.

Inductive result (A : Type) : Type :=
| Ok (a : A)
| Err (e : error)
| Panic (p : panic).
Arguments Ok {A} a.
Arguments Err {A} e.
Arguments Panic {A} p.

#[export] Instance result_ret : MRet result := fun _ a => Ok a.
#[export] Instance result_bind : MBind result := fun _ _ f m =>
  match m with
  | Ok a => f a
  | Err e => Err e
  | Panic p => Panic p
  end.

(** A call that came back to its caller, with a value or with an error. *)
Definition returns {A} (r : result A) : Prop :=
  match r with Panic _ => False | _ => True end.

(** ** uint64 arithmetic *)

Module uint64.
Definition modulus : Z := 2 ^ 64.
Definition wrap (z : Z) : Z := z mod modulus.
Definition add (a b : Z) : Z := wrap (a + b).
Definition sub (a b : Z) : Z := wrap (a - b).
Definition mul (a b : Z) : Z := wrap (a * b).
(** [a / b] panics when [b] is zero. *)
Definition div (a b : Z) : result Z :=
  if b =? 0 then Panic DivideByZero else Ok (a / b).
(** [a % b] panics when [b] is zero. *)
Definition rem (a b : Z) : result Z :=
  if b =? 0 then Panic DivideByZero else Ok (a mod b).
(** The values a [uint64] can hold. *)
Definition inRange (z : Z) : Prop := 0 <= z < modulus.
End uint64.

(** ** Slices *)

(** [l[i]] as a read: panics out of range. *)
Definition index {A} (l : list A) (i : nat) : result A :=
  match l !! i with
  | Some x => Ok x
  | None => Panic IndexOutOfRange
  end.

(** [l[i] = x]: panics out of range. *)
Definition store {A} (l : list A) (i : nat) (x : A) : result (list A) :=
  if decide (i < length l)%nat then Ok (<[i:=x]> l) else Panic IndexOutOfRange.

(** [for i, x := range l { acc = f(i, x, acc) }], starting at index [i]
    and stopping at the first error or panic. *)
Fixpoint forRange {A St} (f : nat -> A -> St -> result St)
    (i : nat) (l : list A) (acc : St) : result St :=
  match l with
  | [] => Ok acc
  | x :: l' => acc' ← f i x acc; forRange f (S i) l' acc'
  end.

(** [for i := lo; i < lo + n; i++ { acc = f(i, acc) }]. *)
Fixpoint forLoop {St} (f : nat -> St -> result St)
    (lo n : nat) (acc : St) : result St :=
  match n with
  | O => Ok acc
  | S n' => acc' ← f lo acc; forLoop f (S lo) n' acc'
  end.

(** ** Protocol configuration (params.BeaconConfig) *)

(** The constants the three source files read from the configuration
    object. The params package is not part of the sources at hand, so the
    constants are fields of a record every entry point takes. *)
Record BeaconChainConfig : Type := {
  MinEpochsToInactivityPenalty : Z;
  EffectiveBalanceIncrement : Z;
  BaseRewardFactor : Z;
  EpochsPerSlashingsVector : Z;
  ProportionalSlashingMultiplier : Z;
  InactivityScoreBias : Z;
  InactivityScoreRecoveryRate : Z;
  InactivityPenaltyQuotientAltair : Z;
  EpochsPerSyncCommitteePeriod : Z;
  TimelySourceFlagIndex : Z;
  TimelyTargetFlagIndex : Z;
  TimelyHeadFlagIndex : Z;
  TimelySourceWeight : Z;
  TimelyTargetWeight : Z;
  TimelyHeadWeight : Z;
  WeightDenominator : Z
}.

(** The first epoch of the chain. ProcessRewardsAndPenaltiesPrecompute
    tests the current epoch against the literal 0 under the comment
    "Don't process rewards and penalties in genesis epoch";
    ProcessInactivityScores tests it against cfg.GenesisEpoch. *)
Definition GenesisEpoch : Z := 0.

(** ** Protobuf types (ethpb) *)

Module ethpb.
(** A validator of the registry; the fields the pipeline reads. *)
Record Validator : Type := {
  EffectiveBalance : Z;
  Slashed : bool;
  ActivationEpoch : Z;
  ExitEpoch : Z;
  WithdrawableEpoch : Z
}.

(** A sync committee: the members' public keys and their aggregate. *)
Record SyncCommittee : Type := {
  Pubkeys : list (list Z);
  AggregatePubkey : list Z
}.
End ethpb.

(** ** The state container (state.BeaconStateAltair) *)

(** Modelled from the spec: the state container is an external
    collaborator; its Read/Write contract lists the validator registry, the
    persisted balance list, the persisted inactivity-score list, the
    current/previous-epoch participation-flag byte arrays, the persisted
    slashings vector, the finalized-checkpoint epoch, the current epoch
    number (derived outside the pipeline from the slot), and the
    current/next sync-committee records.
    The accessors below are those of an initialised container: a getter
    returns its field, a setter replaces it. *)
Module state.
(** Modelled from the spec: the fields the container's Read/Write contract
    names; the container itself is not part of the sources at hand. *)
Record BeaconState : Type := {
  Epoch : Z;
  Validators : list ethpb.Validator;
  Balances : list Z;
  InactivityScores : list Z;
  CurrentEpochParticipation : list Z;
  PreviousEpochParticipation : list Z;
  Slashings : list Z;
  FinalizedCheckpointEpoch : Z;
  CurrentSyncCommittee : ethpb.SyncCommittee;
  NextSyncCommittee : ethpb.SyncCommittee
}.

Definition NumValidators (s : BeaconState) : nat := length (Validators s).
Definition BalancesLength (s : BeaconState) : nat := length (Balances s).

Definition SetBalances (s : BeaconState) (b : list Z) : BeaconState :=
  {| Epoch := Epoch s; Validators := Validators s; Balances := b;
     InactivityScores := InactivityScores s;
     CurrentEpochParticipation := CurrentEpochParticipation s;
     PreviousEpochParticipation := PreviousEpochParticipation s;
     Slashings := Slashings s;
     FinalizedCheckpointEpoch := FinalizedCheckpointEpoch s;
     CurrentSyncCommittee := CurrentSyncCommittee s;
     NextSyncCommittee := NextSyncCommittee s |}.

Definition SetValidators (s : BeaconState) (v : list ethpb.Validator) : BeaconState :=
  {| Epoch := Epoch s; Validators := v; Balances := Balances s;
     InactivityScores := InactivityScores s;
     CurrentEpochParticipation := CurrentEpochParticipation s;
     PreviousEpochParticipation := PreviousEpochParticipation s;
     Slashings := Slashings s;
     FinalizedCheckpointEpoch := FinalizedCheckpointEpoch s;
     CurrentSyncCommittee := CurrentSyncCommittee s;
     NextSyncCommittee := NextSyncCommittee s |}.

Definition SetInactivityScores (s : BeaconState) (l : list Z) : BeaconState :=
  {| Epoch := Epoch s; Validators := Validators s; Balances := Balances s;
     InactivityScores := l;
     CurrentEpochParticipation := CurrentEpochParticipation s;
     PreviousEpochParticipation := PreviousEpochParticipation s;
     Slashings := Slashings s;
     FinalizedCheckpointEpoch := FinalizedCheckpointEpoch s;
     CurrentSyncCommittee := CurrentSyncCommittee s;
     NextSyncCommittee := NextSyncCommittee s |}.

Definition SetCurrentParticipationBits (s : BeaconState) (l : list Z) : BeaconState :=
  {| Epoch := Epoch s; Validators := Validators s; Balances := Balances s;
     InactivityScores := InactivityScores s;
     CurrentEpochParticipation := l;
     PreviousEpochParticipation := PreviousEpochParticipation s;
     Slashings := Slashings s;
     FinalizedCheckpointEpoch := FinalizedCheckpointEpoch s;
     CurrentSyncCommittee := CurrentSyncCommittee s;
     NextSyncCommittee := NextSyncCommittee s |}.

Definition SetPreviousParticipationBits (s : BeaconState) (l : list Z) : BeaconState :=
  {| Epoch := Epoch s; Validators := Validators s; Balances := Balances s;
     InactivityScores := InactivityScores s;
     CurrentEpochParticipation := CurrentEpochParticipation s;
     PreviousEpochParticipation := l;
     Slashings := Slashings s;
     FinalizedCheckpointEpoch := FinalizedCheckpointEpoch s;
     CurrentSyncCommittee := CurrentSyncCommittee s;
     NextSyncCommittee := NextSyncCommittee s |}.

Definition SetCurrentSyncCommittee (s : BeaconState) (c : ethpb.SyncCommittee) : BeaconState :=
  {| Epoch := Epoch s; Validators := Validators s; Balances := Balances s;
     InactivityScores := InactivityScores s;
     CurrentEpochParticipation := CurrentEpochParticipation s;
     PreviousEpochParticipation := PreviousEpochParticipation s;
     Slashings := Slashings s;
     FinalizedCheckpointEpoch := FinalizedCheckpointEpoch s;
     CurrentSyncCommittee := c;
     NextSyncCommittee := NextSyncCommittee s |}.

Definition SetNextSyncCommittee (s : BeaconState) (c : ethpb.SyncCommittee) : BeaconState :=
  {| Epoch := Epoch s; Validators := Validators s; Balances := Balances s;
     InactivityScores := InactivityScores s;
     CurrentEpochParticipation := CurrentEpochParticipation s;
     PreviousEpochParticipation := PreviousEpochParticipation s;
     Slashings := Slashings s;
     FinalizedCheckpointEpoch := FinalizedCheckpointEpoch s;
     CurrentSyncCommittee := CurrentSyncCommittee s;
     NextSyncCommittee := c |}.

(** BalanceAtIndex: the balance at [idx], or the container's error for an
    index outside the balance list. *)
Definition BalanceAtIndex (s : BeaconState) (idx : nat) : result Z :=
  match Balances s !! idx with
  | Some b => Ok b
  | None => Err (ErrBalanceIndex idx)
  end.

(** UpdateBalancesAtIndex: replaces the balance at [idx], with the same
    error out of range. *)
Definition UpdateBalancesAtIndex (s : BeaconState) (idx : nat) (val : Z)
    : result BeaconState :=
  if decide (idx < length (Balances s))%nat
  then Ok (SetBalances s (<[idx:=val]> (Balances s)))
  else Err (ErrBalanceIndex idx).

(** ReadFromEveryValidator: calls [f] on every validator of the registry
    in index order; what the callback writes to the variables it closes
    over is the accumulator [acc]. *)
Definition ReadFromEveryValidator {St} (s : BeaconState)
    (f : nat -> ethpb.Validator -> St -> result St) (acc : St) : result St :=
  forRange f 0%nat (Validators s) acc.

(** ApplyToEveryValidator: calls [f] on every validator of the registry
    in index order and stores the validator [f] returns when [f] reports
    a change. The callback closes over the state itself, so the state is
    threaded through the calls. *)
Definition applyToValidator
    (f : nat -> ethpb.Validator -> BeaconState ->
         result (bool * ethpb.Validator * BeaconState))
    (idx : nat) (val : ethpb.Validator) (s : BeaconState) : result BeaconState :=
  '(changed, newVal, s') ← f idx val s;
  if (changed : bool)
  then Ok (SetValidators s' (<[idx:=newVal]> (Validators s')))
  else Ok s'.

Definition ApplyToEveryValidator (s : BeaconState)
    (f : nat -> ethpb.Validator -> BeaconState ->
         result (bool * ethpb.Validator * BeaconState)) : result BeaconState :=
  forRange (applyToValidator f) 0%nat (Validators s) s.
End state.

(** ** shared/mathutil *)

Module mathutil.
(** Modelled from the spec: IntegerSquareRoot is the integer square
    root, floored ("floorSqrt"); the mathutil package is not part of the
    sources at hand. *)
Definition IntegerSquareRoot (n : Z) : Z := Z.sqrt n.

(** Modelled from the spec: Min is the smaller of two uint64 values. *)
Definition Min (a b : Z) : Z := if a <? b then a else b.
End mathutil.

(** ** beacon-chain/core: epochs of a state *)

Module core.
(** Modelled from the spec: the current epoch number is read from the
    container. *)
Definition CurrentEpoch (s : state.BeaconState) : Z := state.Epoch s.

(** Modelled from the spec: the previous epoch is the epoch before the
    current one, and the genesis epoch at genesis. *)
Definition PrevEpoch (s : state.BeaconState) : Z :=
  let currentEpoch := CurrentEpoch s in
  if currentEpoch =? 0 then 0 else uint64.sub currentEpoch 1.

(** Modelled from the spec: the next epoch is the current one plus 1. *)
Definition NextEpoch (s : state.BeaconState) : Z :=
  uint64.add (CurrentEpoch s) 1.
End core.

(** ** beacon-chain/core/helpers *)

Module helpers.
Section WithConfig.
Variable cfg : BeaconChainConfig.

(** Modelled from the spec: the activation/exit-epoch bracket test. *)
Definition IsActiveValidatorUsingTrie (val : ethpb.Validator) (epoch : Z) : bool :=
  (ethpb.ActivationEpoch val <=? epoch) && (epoch <? ethpb.ExitEpoch val).

(** Modelled from the spec: the chain is not in an inactivity leak when
    previous epoch minus last-finalized-checkpoint epoch is within the
    protocol's leak threshold. *)
Definition IsInInactivityLeak (prevEpoch finalizedEpoch : Z) : bool :=
  uint64.sub prevEpoch finalizedEpoch >? MinEpochsToInactivityPenalty cfg.
End WithConfig.

(** Modelled from the spec: a balance increase adds the delta. *)
Definition IncreaseBalanceWithVal (currBalance delta : Z) : Z :=
  uint64.add currBalance delta.

(** Modelled from the spec: a balance decrease saturates at zero rather
    than underflowing. *)
Definition DecreaseBalanceWithVal (currBalance delta : Z) : Z :=
  if delta >? currBalance then 0 else uint64.sub currBalance delta.

(** Modelled from the spec: DecreaseBalance applies the saturating
    decrease to the balance the container holds at [idx], and hands on
    the container's error. *)
Definition DecreaseBalance (s : state.BeaconState) (idx : nat) (delta : Z)
    : result state.BeaconState :=
  balAtIdx ← state.BalanceAtIndex s idx;
  state.UpdateBalancesAtIndex s idx (DecreaseBalanceWithVal balAtIdx delta).
End helpers.

(** ** beacon-chain/core/epoch/precompute *)

Module precompute.
(** Modelled from the spec: ValidatorPrecompute, the per-validator record
    of one epoch transition. The type declaration is not part of the
    sources at hand; the fields are those of the specification's data
    model, with the names the three source files use. *)
Record Validator : Type := {
  IsSlashed : bool;
  IsWithdrawableCurrentEpoch : bool;
  IsActiveCurrentEpoch : bool;
  IsActivePrevEpoch : bool;
  IsCurrentEpochTargetAttester : bool;
  IsPrevEpochAttester : bool;
  IsPrevEpochTargetAttester : bool;
  IsPrevEpochHeadAttester : bool;
  CurrentEpochEffectiveBalance : Z;
  InactivityScore : Z;
  BeforeEpochTransitionBalance : Z;
  AfterEpochTransitionBalance : Z
}.

(** Modelled from the spec: BalanceAccumulator, the per-epoch totals of
    effective balance. *)
Record Balance : Type := {
  ActiveCurrentEpoch : Z;
  ActivePrevEpoch : Z;
  PrevEpochAttested : Z;
  PrevEpochTargetAttested : Z;
  PrevEpochHeadAttested : Z
}.

(** Field assignments [v.F = x]. *)
Definition set_IsActiveCurrentEpoch (v : Validator) (x : bool) : Validator :=
  {| IsSlashed := IsSlashed v;
     IsWithdrawableCurrentEpoch := IsWithdrawableCurrentEpoch v;
     IsActiveCurrentEpoch := x; IsActivePrevEpoch := IsActivePrevEpoch v;
     IsCurrentEpochTargetAttester := IsCurrentEpochTargetAttester v;
     IsPrevEpochAttester := IsPrevEpochAttester v;
     IsPrevEpochTargetAttester := IsPrevEpochTargetAttester v;
     IsPrevEpochHeadAttester := IsPrevEpochHeadAttester v;
     CurrentEpochEffectiveBalance := CurrentEpochEffectiveBalance v;
     InactivityScore := InactivityScore v;
     BeforeEpochTransitionBalance := BeforeEpochTransitionBalance v;
     AfterEpochTransitionBalance := AfterEpochTransitionBalance v |}.

Definition set_IsActivePrevEpoch (v : Validator) (x : bool) : Validator :=
  {| IsSlashed := IsSlashed v;
     IsWithdrawableCurrentEpoch := IsWithdrawableCurrentEpoch v;
     IsActiveCurrentEpoch := IsActiveCurrentEpoch v;
     IsActivePrevEpoch := x;
     IsCurrentEpochTargetAttester := IsCurrentEpochTargetAttester v;
     IsPrevEpochAttester := IsPrevEpochAttester v;
     IsPrevEpochTargetAttester := IsPrevEpochTargetAttester v;
     IsPrevEpochHeadAttester := IsPrevEpochHeadAttester v;
     CurrentEpochEffectiveBalance := CurrentEpochEffectiveBalance v;
     InactivityScore := InactivityScore v;
     BeforeEpochTransitionBalance := BeforeEpochTransitionBalance v;
     AfterEpochTransitionBalance := AfterEpochTransitionBalance v |}.

Definition set_IsCurrentEpochTargetAttester (v : Validator) (x : bool) : Validator :=
  {| IsSlashed := IsSlashed v;
     IsWithdrawableCurrentEpoch := IsWithdrawableCurrentEpoch v;
     IsActiveCurrentEpoch := IsActiveCurrentEpoch v;
     IsActivePrevEpoch := IsActivePrevEpoch v;
     IsCurrentEpochTargetAttester := x;
     IsPrevEpochAttester := IsPrevEpochAttester v;
     IsPrevEpochTargetAttester := IsPrevEpochTargetAttester v;
     IsPrevEpochHeadAttester := IsPrevEpochHeadAttester v;
     CurrentEpochEffectiveBalance := CurrentEpochEffectiveBalance v;
     InactivityScore := InactivityScore v;
     BeforeEpochTransitionBalance := BeforeEpochTransitionBalance v;
     AfterEpochTransitionBalance := AfterEpochTransitionBalance v |}.

Definition set_IsPrevEpochAttester (v : Validator) (x : bool) : Validator :=
  {| IsSlashed := IsSlashed v;
     IsWithdrawableCurrentEpoch := IsWithdrawableCurrentEpoch v;
     IsActiveCurrentEpoch := IsActiveCurrentEpoch v;
     IsActivePrevEpoch := IsActivePrevEpoch v;
     IsCurrentEpochTargetAttester := IsCurrentEpochTargetAttester v;
     IsPrevEpochAttester := x;
     IsPrevEpochTargetAttester := IsPrevEpochTargetAttester v;
     IsPrevEpochHeadAttester := IsPrevEpochHeadAttester v;
     CurrentEpochEffectiveBalance := CurrentEpochEffectiveBalance v;
     InactivityScore := InactivityScore v;
     BeforeEpochTransitionBalance := BeforeEpochTransitionBalance v;
     AfterEpochTransitionBalance := AfterEpochTransitionBalance v |}.

Definition set_IsPrevEpochTargetAttester (v : Validator) (x : bool) : Validator :=
  {| IsSlashed := IsSlashed v;
     IsWithdrawableCurrentEpoch := IsWithdrawableCurrentEpoch v;
     IsActiveCurrentEpoch := IsActiveCurrentEpoch v;
     IsActivePrevEpoch := IsActivePrevEpoch v;
     IsCurrentEpochTargetAttester := IsCurrentEpochTargetAttester v;
     IsPrevEpochAttester := IsPrevEpochAttester v;
     IsPrevEpochTargetAttester := x;
     IsPrevEpochHeadAttester := IsPrevEpochHeadAttester v;
     CurrentEpochEffectiveBalance := CurrentEpochEffectiveBalance v;
     InactivityScore := InactivityScore v;
     BeforeEpochTransitionBalance := BeforeEpochTransitionBalance v;
     AfterEpochTransitionBalance := AfterEpochTransitionBalance v |}.

Definition set_IsPrevEpochHeadAttester (v : Validator) (x : bool) : Validator :=
  {| IsSlashed := IsSlashed v;
     IsWithdrawableCurrentEpoch := IsWithdrawableCurrentEpoch v;
     IsActiveCurrentEpoch := IsActiveCurrentEpoch v;
     IsActivePrevEpoch := IsActivePrevEpoch v;
     IsCurrentEpochTargetAttester := IsCurrentEpochTargetAttester v;
     IsPrevEpochAttester := IsPrevEpochAttester v;
     IsPrevEpochTargetAttester := IsPrevEpochTargetAttester v;
     IsPrevEpochHeadAttester := x;
     CurrentEpochEffectiveBalance := CurrentEpochEffectiveBalance v;
     InactivityScore := InactivityScore v;
     BeforeEpochTransitionBalance := BeforeEpochTransitionBalance v;
     AfterEpochTransitionBalance := AfterEpochTransitionBalance v |}.

Definition set_InactivityScore (v : Validator) (x : Z) : Validator :=
  {| IsSlashed := IsSlashed v;
     IsWithdrawableCurrentEpoch := IsWithdrawableCurrentEpoch v;
     IsActiveCurrentEpoch := IsActiveCurrentEpoch v;
     IsActivePrevEpoch := IsActivePrevEpoch v;
     IsCurrentEpochTargetAttester := IsCurrentEpochTargetAttester v;
     IsPrevEpochAttester := IsPrevEpochAttester v;
     IsPrevEpochTargetAttester := IsPrevEpochTargetAttester v;
     IsPrevEpochHeadAttester := IsPrevEpochHeadAttester v;
     CurrentEpochEffectiveBalance := CurrentEpochEffectiveBalance v;
     InactivityScore := x;
     BeforeEpochTransitionBalance := BeforeEpochTransitionBalance v;
     AfterEpochTransitionBalance := AfterEpochTransitionBalance v |}.

Definition set_BeforeEpochTransitionBalance (v : Validator) (x : Z) : Validator :=
  {| IsSlashed := IsSlashed v;
     IsWithdrawableCurrentEpoch := IsWithdrawableCurrentEpoch v;
     IsActiveCurrentEpoch := IsActiveCurrentEpoch v;
     IsActivePrevEpoch := IsActivePrevEpoch v;
     IsCurrentEpochTargetAttester := IsCurrentEpochTargetAttester v;
     IsPrevEpochAttester := IsPrevEpochAttester v;
     IsPrevEpochTargetAttester := IsPrevEpochTargetAttester v;
     IsPrevEpochHeadAttester := IsPrevEpochHeadAttester v;
     CurrentEpochEffectiveBalance := CurrentEpochEffectiveBalance v;
     InactivityScore := InactivityScore v;
     BeforeEpochTransitionBalance := x;
     AfterEpochTransitionBalance := AfterEpochTransitionBalance v |}.

Definition set_AfterEpochTransitionBalance (v : Validator) (x : Z) : Validator :=
  {| IsSlashed := IsSlashed v;
     IsWithdrawableCurrentEpoch := IsWithdrawableCurrentEpoch v;
     IsActiveCurrentEpoch := IsActiveCurrentEpoch v;
     IsActivePrevEpoch := IsActivePrevEpoch v;
     IsCurrentEpochTargetAttester := IsCurrentEpochTargetAttester v;
     IsPrevEpochAttester := IsPrevEpochAttester v;
     IsPrevEpochTargetAttester := IsPrevEpochTargetAttester v;
     IsPrevEpochHeadAttester := IsPrevEpochHeadAttester v;
     CurrentEpochEffectiveBalance := CurrentEpochEffectiveBalance v;
     InactivityScore := InactivityScore v;
     BeforeEpochTransitionBalance := BeforeEpochTransitionBalance v;
     AfterEpochTransitionBalance := x |}.

Definition set_ActiveCurrentEpoch (b : Balance) (x : Z) : Balance :=
  {| ActiveCurrentEpoch := x; ActivePrevEpoch := ActivePrevEpoch b;
     PrevEpochAttested := PrevEpochAttested b;
     PrevEpochTargetAttested := PrevEpochTargetAttested b;
     PrevEpochHeadAttested := PrevEpochHeadAttested b |}.

Definition set_ActivePrevEpoch (b : Balance) (x : Z) : Balance :=
  {| ActiveCurrentEpoch := ActiveCurrentEpoch b; ActivePrevEpoch := x;
     PrevEpochAttested := PrevEpochAttested b;
     PrevEpochTargetAttested := PrevEpochTargetAttested b;
     PrevEpochHeadAttested := PrevEpochHeadAttested b |}.

(** Modelled from the spec: eligibility for the inactivity-score update
    is isActivePrevEpoch OR (isSlashed AND NOT
    isWithdrawableCurrentEpoch). *)
Definition EligibleForRewards (v : Validator) : bool :=
  IsActivePrevEpoch v || (IsSlashed v && negb (IsWithdrawableCurrentEpoch v)).

(** The sum of the effective balances of the validators [flag] holds
    of, in uint64 arithmetic. *)
Definition attestedBalance (flag : Validator -> bool) (vp : list Validator) : Z :=
  foldl (fun acc v =>
           if flag v then uint64.add acc (CurrentEpochEffectiveBalance v) else acc)
        0 vp.

(** Modelled from the spec: UpdateBalance recomputes the accumulator's
    prevEpochAttested / prevEpochTargetAttested / prevEpochHeadAttested
    fields as the sum of effective balances of validators with the
    corresponding flag set; a slashed validator is not excluded here. *)
Definition UpdateBalance (vp : list Validator) (bBal : Balance) : Balance :=
  {| ActiveCurrentEpoch := ActiveCurrentEpoch bBal;
     ActivePrevEpoch := ActivePrevEpoch bBal;
     PrevEpochAttested := attestedBalance IsPrevEpochAttester vp;
     PrevEpochTargetAttested := attestedBalance IsPrevEpochTargetAttester vp;
     PrevEpochHeadAttested := attestedBalance IsPrevEpochHeadAttester vp |}.

Section WithConfig.
Variable cfg : BeaconChainConfig.

(** The closure [validatorFunc] of ProcessSlashingsPrecompute, with
    the variables it captures as its first arguments. *)
Definition validatorFunc (epochToWithdraw minSlashing increment : Z)
    (pBal : Balance) (idx : nat) (val : ethpb.Validator) (s : state.BeaconState)
    : result (bool * ethpb.Validator * state.BeaconState) :=
  let correctEpoch := epochToWithdraw =? ethpb.WithdrawableEpoch val in
  if ethpb.Slashed val && correctEpoch then
    q ← uint64.div (ethpb.EffectiveBalance val) increment;
    let penaltyNumerator := uint64.mul q minSlashing in
    q' ← uint64.div penaltyNumerator (ActiveCurrentEpoch pBal);
    let penalty := uint64.mul q' increment in
    s' ← helpers.DecreaseBalance s idx penalty;
    Ok (true, val, s')
  else Ok (false, val, s).

(** The callback of the pre-scan of ProcessSlashingsPrecompute; it
    writes the captured [hasSlashing]. *)
Definition findSlashing (epochToWithdraw : Z)
    (idx : nat) (val : ethpb.Validator) (hasSlashing : bool) : result bool :=
  let correctEpoch := epochToWithdraw =? ethpb.WithdrawableEpoch val in
  if ethpb.Slashed val && correctEpoch then Ok true else Ok hasSlashing.

(** slashing.go, ProcessSlashingsPrecompute. *)
Definition ProcessSlashingsPrecompute (s : state.BeaconState) (pBal : Balance)
    : result state.BeaconState :=
  let currentEpoch := core.CurrentEpoch s in
  let exitLength := EpochsPerSlashingsVector cfg in
  let slashings := state.Slashings s in
  let totalSlashing :=
    foldl (fun totalSlashing slashing => uint64.add totalSlashing slashing)
          0 slashings in
  let minSlashing :=
    mathutil.Min (uint64.mul totalSlashing (ProportionalSlashingMultiplier cfg))
                 (ActiveCurrentEpoch pBal) in
  let epochToWithdraw := uint64.add currentEpoch (exitLength / 2) in
  hasSlashing ← state.ReadFromEveryValidator s (findSlashing epochToWithdraw) false;
  if negb hasSlashing then Ok s
  else
    let increment := EffectiveBalanceIncrement cfg in
    state.ApplyToEveryValidator s
      (validatorFunc epochToWithdraw minSlashing increment pBal).
End WithConfig.
End precompute.

(** ** beacon-chain/core/altair *)

Module altair.
Import precompute.

(** Modelled from the spec: a participation byte holds the flag at
    position [flagPosition] when that bit is set. *)
Definition HasValidatorFlag (flag flagPosition : Z) : bool :=
  Z.testbit flag flagPosition.

(** The zero value of the record: what its fields hold before the code
    assigns them. *)
Definition zeroValidator : Validator :=
  {| IsSlashed := false; IsWithdrawableCurrentEpoch := false;
     IsActiveCurrentEpoch := false; IsActivePrevEpoch := false;
     IsCurrentEpochTargetAttester := false; IsPrevEpochAttester := false;
     IsPrevEpochTargetAttester := false; IsPrevEpochHeadAttester := false;
     CurrentEpochEffectiveBalance := 0; InactivityScore := 0;
     BeforeEpochTransitionBalance := 0; AfterEpochTransitionBalance := 0 |}.

Definition zeroBalance : Balance :=
  {| ActiveCurrentEpoch := 0; ActivePrevEpoch := 0; PrevEpochAttested := 0;
     PrevEpochTargetAttested := 0; PrevEpochHeadAttested := 0 |}.

Section WithConfig.
Variable cfg : BeaconChainConfig.

(** The callback InitializeEpochValidators hands to
    ReadFromEveryValidator; it writes [pValidators] and [bal]. *)
Definition initializeValidator (currentEpoch prevEpoch : Z)
    (inactivityScores : list Z) (idx : nat) (val : ethpb.Validator)
    (acc : list Validator * Balance) : result (list Validator * Balance) :=
  let '(pValidators, bal) := acc in
  let withdrawable := currentEpoch >=? ethpb.WithdrawableEpoch val in
  score ← index inactivityScores idx;
  let pVal :=
    {| IsSlashed := ethpb.Slashed val;
       IsWithdrawableCurrentEpoch := withdrawable;
       IsActiveCurrentEpoch := false; IsActivePrevEpoch := false;
       IsCurrentEpochTargetAttester := false; IsPrevEpochAttester := false;
       IsPrevEpochTargetAttester := false; IsPrevEpochHeadAttester := false;
       CurrentEpochEffectiveBalance := ethpb.EffectiveBalance val;
       InactivityScore := score;
       BeforeEpochTransitionBalance := 0; AfterEpochTransitionBalance := 0 |} in
  let '(pVal, bal) :=
    if helpers.IsActiveValidatorUsingTrie val currentEpoch
    then (set_IsActiveCurrentEpoch pVal true,
          set_ActiveCurrentEpoch bal
            (uint64.add (ActiveCurrentEpoch bal) (ethpb.EffectiveBalance val)))
    else (pVal, bal) in
  let '(pVal, bal) :=
    if helpers.IsActiveValidatorUsingTrie val prevEpoch
    then (set_IsActivePrevEpoch pVal true,
          set_ActivePrevEpoch bal
            (uint64.add (ActivePrevEpoch bal) (ethpb.EffectiveBalance val)))
    else (pVal, bal) in
  pValidators' ← store pValidators idx pVal;
  Ok (pValidators', bal).

(** epoch_precompute.go, InitializeEpochValidators. *)
Definition InitializeEpochValidators (st : state.BeaconState)
    : result (list Validator * Balance) :=
  let pValidators := replicate (state.NumValidators st) zeroValidator in
  let bal := zeroBalance in
  let prevEpoch := core.PrevEpoch st in
  let currentEpoch := core.CurrentEpoch st in
  let inactivityScores := state.InactivityScores st in
  if decide (length inactivityScores < state.NumValidators st)%nat
  then Err ErrInactivityScoresLength
  else
    state.ReadFromEveryValidator st
      (initializeValidator currentEpoch prevEpoch inactivityScores)
      (pValidators, bal).

(** Lines 99-115 of ProcessInactivityScores: the record of an eligible
    validator after the two updates of its score. *)
Definition updateInactivityScore (bias recoveryRate : Z) (leak : bool)
    (v : Validator) : Validator :=
  let v :=
    if IsPrevEpochTargetAttester v && negb (IsSlashed v) then
      if InactivityScore v >? 0
      then set_InactivityScore v (uint64.sub (InactivityScore v) 1)
      else v
    else set_InactivityScore v (uint64.add (InactivityScore v) bias) in
  if negb leak then
    let score := recoveryRate in
    let score := if score >? InactivityScore v then InactivityScore v else score in
    set_InactivityScore v (uint64.sub (InactivityScore v) score)
  else v.

(** The body of the loop of ProcessInactivityScores. The records of
    [vals] are shared with the caller, so the loop hands back the
    list of updated records next to the score list. *)
Definition inactivityScoresBody (bias recoveryRate : Z) (leak : bool)
    (i : nat) (v : Validator) (acc : list Validator * list Z)
    : result (list Validator * list Z) :=
  let '(vals, inactivityScores) := acc in
  if negb (EligibleForRewards v) then Ok (vals, inactivityScores)
  else
    let v := updateInactivityScore bias recoveryRate leak v in
    inactivityScores' ← store inactivityScores i (InactivityScore v);
    Ok (<[i:=v]> vals, inactivityScores').

(** epoch_precompute.go, ProcessInactivityScores. *)
Definition ProcessInactivityScores (s : state.BeaconState) (vals : list Validator)
    : result (state.BeaconState * list Validator) :=
  if core.CurrentEpoch s =? GenesisEpoch then Ok (s, vals)
  else
    let inactivityScores := state.InactivityScores s in
    let bias := InactivityScoreBias cfg in
    let recoveryRate := InactivityScoreRecoveryRate cfg in
    let prevEpoch := core.PrevEpoch s in
    let finalizedEpoch := state.FinalizedCheckpointEpoch s in
    '(vals', inactivityScores') ←
      forRange (inactivityScoresBody bias recoveryRate
                  (helpers.IsInInactivityLeak cfg prevEpoch finalizedEpoch))
               0%nat vals (vals, inactivityScores);
    Ok (state.SetInactivityScores s inactivityScores', vals').

(** [if HasValidatorFlag(b, flagIdx) && active(vals[i]) { vals[i].F = true }]:
    the right operand of [&&], and with it the read of [vals[i]], is
    evaluated only when the flag is set. *)
Definition markAttester (flagIdx : Z) (active : Validator -> bool)
    (setF : Validator -> bool -> Validator)
    (i : nat) (b : Z) (vals : list Validator) : result (list Validator) :=
  if HasValidatorFlag b flagIdx then
    v ← index vals i;
    if active v then store vals i (setF v true) else Ok vals
  else Ok vals.

(** epoch_precompute.go, ProcessEpochParticipation. *)
Definition ProcessEpochParticipation (s : state.BeaconState) (bal : Balance)
    (vals : list Validator) : result (list Validator * Balance) :=
  let cp := state.CurrentEpochParticipation s in
  let targetIdx := TimelyTargetFlagIndex cfg in
  let sourceIdx := TimelySourceFlagIndex cfg in
  let headIdx := TimelyHeadFlagIndex cfg in
  vals ← forRange
    (markAttester targetIdx IsActiveCurrentEpoch set_IsCurrentEpochTargetAttester)
    0%nat cp vals;
  let pp := state.PreviousEpochParticipation s in
  vals ← forRange
    (fun i b vals =>
       vals ← markAttester sourceIdx IsActivePrevEpoch set_IsPrevEpochAttester i b vals;
       vals ← markAttester targetIdx IsActivePrevEpoch set_IsPrevEpochTargetAttester i b vals;
       markAttester headIdx IsActivePrevEpoch set_IsPrevEpochHeadAttester i b vals)
    0%nat pp vals;
  let bal := UpdateBalance vals bal in
  Ok (vals, bal).

(** epoch_precompute.go, attestationDelta. *)
Definition attestationDelta (bal : Balance) (v : Validator)
    (baseRewardMultiplier inactivityDenominator : Z) (inactivityLeak : bool)
    : result (Z * Z) :=
  let eligible :=
    IsActivePrevEpoch v || (IsSlashed v && negb (IsWithdrawableCurrentEpoch v)) in
  if negb eligible || (ActiveCurrentEpoch bal =? 0) then Ok (0, 0)
  else
    let increment := EffectiveBalanceIncrement cfg in
    let effectiveBalance := CurrentEpochEffectiveBalance v in
    q ← uint64.div effectiveBalance increment;
    let baseReward := uint64.mul q baseRewardMultiplier in
    activeIncrement ← uint64.div (ActiveCurrentEpoch bal) increment;
    let weightDenominator := WeightDenominator cfg in
    let srcWeight := TimelySourceWeight cfg in
    let tgtWeight := TimelyTargetWeight cfg in
    let headWeight := TimelyHeadWeight cfg in
    let reward := 0 in
    let penalty := 0 in
    (* Process source reward / penalty *)
    '(reward, penalty) ←
      (if IsPrevEpochAttester v && negb (IsSlashed v) then
         if negb inactivityLeak then
           a ← uint64.div (PrevEpochAttested bal) increment;
           let n := uint64.mul (uint64.mul baseReward srcWeight) a in
           d ← uint64.div n (uint64.mul activeIncrement weightDenominator);
           Ok (uint64.add reward d, penalty)
         else Ok (reward, penalty)
       else
         d ← uint64.div (uint64.mul baseReward srcWeight) weightDenominator;
         Ok (reward, uint64.add penalty d));
    (* Process target reward / penalty *)
    '(reward, penalty) ←
      (if IsPrevEpochTargetAttester v && negb (IsSlashed v) then
         if negb inactivityLeak then
           a ← uint64.div (PrevEpochTargetAttested bal) increment;
           let n := uint64.mul (uint64.mul baseReward tgtWeight) a in
           d ← uint64.div n (uint64.mul activeIncrement weightDenominator);
           Ok (uint64.add reward d, penalty)
         else Ok (reward, penalty)
       else
         d ← uint64.div (uint64.mul baseReward tgtWeight) weightDenominator;
         Ok (reward, uint64.add penalty d));
    (* Process head reward / penalty *)
    reward ←
      (if IsPrevEpochHeadAttester v && negb (IsSlashed v) then
         if negb inactivityLeak then
           a ← uint64.div (PrevEpochHeadAttested bal) increment;
           let n := uint64.mul (uint64.mul baseReward headWeight) a in
           d ← uint64.div n (uint64.mul activeIncrement weightDenominator);
           Ok (uint64.add reward d)
         else Ok reward
       else Ok reward);
    (* Process finality delay penalty *)
    penalty ←
      (if negb (IsPrevEpochTargetAttester v) || IsSlashed v then
         let n := uint64.mul effectiveBalance (InactivityScore v) in
         d ← uint64.div n inactivityDenominator;
         Ok (uint64.add penalty d)
       else Ok penalty);
    Ok (reward, penalty).

(** epoch_precompute.go, AttestationsDelta. *)
Definition AttestationsDelta (s : state.BeaconState) (bal : Balance)
    (vals : list Validator) : result (list Z * list Z) :=
  let numOfVals := state.NumValidators s in
  let rewards := replicate numOfVals 0 in
  let penalties := replicate numOfVals 0 in
  let prevEpoch := core.PrevEpoch s in
  let finalizedEpoch := state.FinalizedCheckpointEpoch s in
  let increment := EffectiveBalanceIncrement cfg in
  let factor := BaseRewardFactor cfg in
  baseRewardMultiplier ←
    uint64.div (uint64.mul increment factor)
               (mathutil.IntegerSquareRoot (ActiveCurrentEpoch bal));
  let leak := helpers.IsInInactivityLeak cfg prevEpoch finalizedEpoch in
  let inactivityDenominator :=
    uint64.mul (InactivityScoreBias cfg) (InactivityPenaltyQuotientAltair cfg) in
  forRange
    (fun i v '(rewards, penalties) =>
       '(r, p) ← attestationDelta bal v baseRewardMultiplier inactivityDenominator leak;
       rewards' ← store rewards i r;
       penalties' ← store penalties i p;
       Ok (rewards', penalties'))
    0%nat vals (rewards, penalties).

(** The body of the balance loop of
    ProcessRewardsAndPenaltiesPrecompute. *)
Definition applyDelta (attsRewards attsPenalties : list Z) (i : nat)
    (acc : list Validator * list Z) : result (list Validator * list Z) :=
  let '(vals, balances) := acc in
  v ← index vals i;
  b ← index balances i;
  vals ← store vals i (set_BeforeEpochTransitionBalance v b);
  r ← index attsRewards i;
  balances ← store balances i (helpers.IncreaseBalanceWithVal b r);
  b ← index balances i;
  p ← index attsPenalties i;
  balances ← store balances i (helpers.DecreaseBalanceWithVal b p);
  v ← index vals i;
  b ← index balances i;
  vals ← store vals i (set_AfterEpochTransitionBalance v b);
  Ok (vals, balances).

(** epoch_precompute.go, ProcessRewardsAndPenaltiesPrecompute. The Go
    function writes the before/after balances into the records [vals]
    points to; the model hands the updated records back next to the
    state. *)
Definition ProcessRewardsAndPenaltiesPrecompute (s : state.BeaconState)
    (bal : Balance) (vals : list Validator)
    : result (state.BeaconState * list Validator) :=
  if core.CurrentEpoch s =? 0 then Ok (s, vals)
  else
    let numOfVals := state.NumValidators s in
    if decide (length vals ≠ numOfVals ∨ length vals ≠ state.BalancesLength s)
    then Err ErrRegistryLength
    else
      '(attsRewards, attsPenalties) ← AttestationsDelta s bal vals;
      let balances := state.Balances s in
      '(vals', balances') ←
        forLoop (applyDelta attsRewards attsPenalties) 0%nat numOfVals
                (vals, balances);
      Ok (state.SetBalances s balances', vals').

(** epoch_spec.go, ProcessParticipationFlagUpdates. *)
Definition ProcessParticipationFlagUpdates (beaconState : state.BeaconState)
    : result state.BeaconState :=
  let c := state.CurrentEpochParticipation beaconState in
  let beaconState := state.SetPreviousParticipationBits beaconState c in
  let beaconState :=
    state.SetCurrentParticipationBits beaconState
      (replicate (state.NumValidators beaconState) 0) in
  Ok beaconState.

Section WithCollaborators.
(** The sync-committee selection function and the committee cache
    are external collaborators. *)
Variable NextSyncCommittee : state.BeaconState -> result ethpb.SyncCommittee.
Variable UpdateSyncCommitteeCache : state.BeaconState -> result unit.

(** epoch_spec.go, ProcessSyncCommitteeUpdates. *)
Definition ProcessSyncCommitteeUpdates (beaconState : state.BeaconState)
    : result state.BeaconState :=
  let nextEpoch := core.NextEpoch beaconState in
  r ← uint64.rem nextEpoch (EpochsPerSyncCommitteePeriod cfg);
  if r =? 0 then
    let nextSyncCommittee := state.NextSyncCommittee beaconState in
    let beaconState := state.SetCurrentSyncCommittee beaconState nextSyncCommittee in
    nextSyncCommittee ← NextSyncCommittee beaconState;
    let beaconState := state.SetNextSyncCommittee beaconState nextSyncCommittee in
    _ ← UpdateSyncCommitteeCache beaconState;
    Ok beaconState
  else Ok beaconState.
End WithCollaborators.
End WithConfig.
End altair.

(** ** Statements of the specification, and example inputs *)

Module spec.
Import precompute.

(** Eligibility for rewards and penalties in the words of the
    specification's Reward/Penalty Calculator: isPrevEpochAttester OR
    (isSlashed AND NOT isWithdrawableCurrentEpoch). *)
Definition eligibleForDelta (v : Validator) : bool :=
  IsPrevEpochAttester v || (IsSlashed v && negb (IsWithdrawableCurrentEpoch v)).

(** The penalty of a validator in the words of the specification: a
    term [baseReward * W / D] for a source vote that is missed or cast by
    a slashed validator, the same for the target vote, and the inactivity
    term [effectiveBalance * inactivityScore / inactivityDenominator]
    for a missed target vote or a slashed validator; nothing for the head
    vote. Sums and products are those of uint64. *)
Definition attestationPenalty (cfg : BeaconChainConfig) (bal : Balance)
    (v : Validator) (baseRewardMultiplier inactivityDenominator : Z) : Z :=
  if negb (IsActivePrevEpoch v || (IsSlashed v && negb (IsWithdrawableCurrentEpoch v)))
     || (ActiveCurrentEpoch bal =? 0)
  then 0
  else
    let baseReward :=
      uint64.mul (CurrentEpochEffectiveBalance v / EffectiveBalanceIncrement cfg)
                 baseRewardMultiplier in
    let source :=
      if IsPrevEpochAttester v && negb (IsSlashed v) then 0
      else uint64.add 0
             (uint64.mul baseReward (TimelySourceWeight cfg) / WeightDenominator cfg) in
    let target :=
      if IsPrevEpochTargetAttester v && negb (IsSlashed v) then source
      else uint64.add source
             (uint64.mul baseReward (TimelyTargetWeight cfg) / WeightDenominator cfg) in
    if negb (IsPrevEpochTargetAttester v) || IsSlashed v
    then uint64.add target
           (uint64.mul (CurrentEpochEffectiveBalance v) (InactivityScore v)
            / inactivityDenominator)
    else target.

(** The divisors attestationDelta can meet are not zero. *)
Definition deltaDivisorsNonZero (cfg : BeaconChainConfig) (bal : Balance)
    (inactivityDenominator : Z) : Prop :=
  EffectiveBalanceIncrement cfg <> 0 /\
  WeightDenominator cfg <> 0 /\
  inactivityDenominator <> 0 /\
  uint64.mul (ActiveCurrentEpoch bal / EffectiveBalanceIncrement cfg)
             (WeightDenominator cfg) <> 0.

(** The inactivity score of an eligible validator after the update, in
    the words of the specification: with a correct target vote and no
    slashing the score decreases by 1 but never below 0, otherwise it
    increases by the bias (a uint64 sum); then, only when the chain is
    not in an inactivity leak, it decreases by min(score, recoveryRate). *)
Definition inactivityScore (bias recoveryRate : Z) (leak : bool) (v : Validator) : Z :=
  let score :=
    if IsPrevEpochTargetAttester v && negb (IsSlashed v)
    then Z.max 0 (InactivityScore v - 1)
    else uint64.add (InactivityScore v) bias in
  if leak then score else score - Z.min score recoveryRate.

(** The epoch whose slashed validators are charged now:
    currentEpoch + epochsPerSlashingsVector/2. *)
Definition epochToWithdraw (cfg : BeaconChainConfig) (s : state.BeaconState) : Z :=
  uint64.add (core.CurrentEpoch s) (EpochsPerSlashingsVector cfg / 2).

(** The validator is slashed and its withdrawable epoch is [epoch]. *)
Definition slashedAt (epoch : Z) (val : ethpb.Validator) : bool :=
  ethpb.Slashed val && (epoch =? ethpb.WithdrawableEpoch val).

(** The sum of the persisted slashings vector. *)
Definition totalSlashings (s : state.BeaconState) : Z :=
  foldl uint64.add 0 (state.Slashings s).

(** minSlashing = min(totalSlashings * proportionalSlashingMultiplier,
    activeCurrentEpoch). *)
Definition minSlashing (multiplier totalSlashings activeCurrentEpoch : Z) : Z :=
  Z.min (uint64.mul totalSlashings multiplier) activeCurrentEpoch.

(** penalty = (effectiveBalance / increment * minSlashing)
              / activeCurrentEpoch * increment,
    floor divisions, products of uint64, in that order. *)
Definition slashingPenalty
    (increment multiplier totalSlashings activeCurrentEpoch effectiveBalance : Z) : Z :=
  uint64.mul
    (uint64.mul (effectiveBalance / increment)
                (minSlashing multiplier totalSlashings activeCurrentEpoch)
     / activeCurrentEpoch)
    increment.

(** The balance of a validator after the slashing applicator. *)
Definition slashedBalance (cfg : BeaconChainConfig) (s : state.BeaconState)
    (pBal : Balance) (val : ethpb.Validator) (balance : Z) : Z :=
  if slashedAt (epochToWithdraw cfg s) val
  then helpers.DecreaseBalanceWithVal balance
         (slashingPenalty (EffectiveBalanceIncrement cfg)
            (ProportionalSlashingMultiplier cfg) (totalSlashings s)
            (ActiveCurrentEpoch pBal) (ethpb.EffectiveBalance val))
  else balance.
End spec.

Module examples.
Import precompute.

(** The constants of the main network, with the slashing multiplier and
    the length of the sync-committee period left open. *)
Definition mainnetWith (multiplier period : Z) : BeaconChainConfig :=
  {| MinEpochsToInactivityPenalty := 4;
     EffectiveBalanceIncrement := 1000000000;
     BaseRewardFactor := 64;
     EpochsPerSlashingsVector := 8192;
     ProportionalSlashingMultiplier := multiplier;
     InactivityScoreBias := 4;
     InactivityScoreRecoveryRate := 16;
     InactivityPenaltyQuotientAltair := 50331648;
     EpochsPerSyncCommitteePeriod := period;
     TimelySourceFlagIndex := 0;
     TimelyTargetFlagIndex := 1;
     TimelyHeadFlagIndex := 2;
     TimelySourceWeight := 14;
     TimelyTargetWeight := 26;
     TimelyHeadWeight := 14;
     WeightDenominator := 64 |}.

Definition mainnet : BeaconChainConfig := mainnetWith 1 256.

(** A validator of 32 units that was active in the previous epoch and
    cast no vote. *)
Definition idleValidator : Validator :=
  {| IsSlashed := false; IsWithdrawableCurrentEpoch := false;
     IsActiveCurrentEpoch := true; IsActivePrevEpoch := true;
     IsCurrentEpochTargetAttester := false; IsPrevEpochAttester := false;
     IsPrevEpochTargetAttester := false; IsPrevEpochHeadAttester := false;
     CurrentEpochEffectiveBalance := 32000000000; InactivityScore := 0;
     BeforeEpochTransitionBalance := 0; AfterEpochTransitionBalance := 0 |}.

(** The same validator, slashed, with every vote of the previous epoch
    recorded. *)
Definition slashedVoter : Validator :=
  {| IsSlashed := true; IsWithdrawableCurrentEpoch := false;
     IsActiveCurrentEpoch := true; IsActivePrevEpoch := true;
     IsCurrentEpochTargetAttester := true; IsPrevEpochAttester := true;
     IsPrevEpochTargetAttester := true; IsPrevEpochHeadAttester := true;
     CurrentEpochEffectiveBalance := 32000000000; InactivityScore := 8;
     BeforeEpochTransitionBalance := 0; AfterEpochTransitionBalance := 0 |}.

(** A validator that is neither active in the previous epoch nor
    slashed. *)
Definition exitedValidator : Validator :=
  {| IsSlashed := false; IsWithdrawableCurrentEpoch := true;
     IsActiveCurrentEpoch := false; IsActivePrevEpoch := false;
     IsCurrentEpochTargetAttester := false; IsPrevEpochAttester := false;
     IsPrevEpochTargetAttester := false; IsPrevEpochHeadAttester := false;
     CurrentEpochEffectiveBalance := 32000000000; InactivityScore := 0;
     BeforeEpochTransitionBalance := 0; AfterEpochTransitionBalance := 0 |}.

(** Two active validators of 32 units, one of which voted. *)
Definition twoActive : Balance :=
  {| ActiveCurrentEpoch := 64000000000; ActivePrevEpoch := 64000000000;
     PrevEpochAttested := 32000000000; PrevEpochTargetAttested := 32000000000;
     PrevEpochHeadAttested := 32000000000 |}.

Definition committeeA : ethpb.SyncCommittee :=
  {| ethpb.Pubkeys := [[1]; [2]]; ethpb.AggregatePubkey := [3] |}.
Definition committeeB : ethpb.SyncCommittee :=
  {| ethpb.Pubkeys := [[4]; [5]]; ethpb.AggregatePubkey := [9] |}.
Definition committeeC : ethpb.SyncCommittee :=
  {| ethpb.Pubkeys := [[6]; [7]]; ethpb.AggregatePubkey := [13] |}.

(** A selection function that always elects [committeeC], and a cache
    update that succeeds. *)
Definition electC (_ : state.BeaconState) : result ethpb.SyncCommittee :=
  Ok committeeC.
Definition cacheOk (_ : state.BeaconState) : result unit := Ok tt.

(** A validator of 32 units, slashed, to be charged at [withdrawable]. *)
Definition slashedValidator (withdrawable : Z) : ethpb.Validator :=
  {| ethpb.EffectiveBalance := 32000000000; ethpb.Slashed := true;
     ethpb.ActivationEpoch := 0; ethpb.ExitEpoch := 10;
     ethpb.WithdrawableEpoch := withdrawable |}.

(** A validator of 32 units in good standing. *)
Definition honestValidator : ethpb.Validator :=
  {| ethpb.EffectiveBalance := 32000000000; ethpb.Slashed := false;
     ethpb.ActivationEpoch := 0; ethpb.ExitEpoch := 18446744073709551615;
     ethpb.WithdrawableEpoch := 18446744073709551615 |}.

(** A state at [epoch] with the given registry, balances, scores and
    participation bytes; three units of slashings are on record and the
    last finalized epoch is [finalized]. *)
Definition stateAt (epoch finalized : Z) (validators : list ethpb.Validator)
    (balances scores current previous : list Z) : state.BeaconState :=
  {| state.Epoch := epoch; state.Validators := validators;
     state.Balances := balances; state.InactivityScores := scores;
     state.CurrentEpochParticipation := current;
     state.PreviousEpochParticipation := previous;
     state.Slashings := [1000000000; 0; 2000000000];
     state.FinalizedCheckpointEpoch := finalized;
     state.CurrentSyncCommittee := committeeA;
     state.NextSyncCommittee := committeeB |}.

(** Epoch 10 with a registry of two: a validator slashed and due at
    epoch 10 + 8192/2, and one in good standing. *)
Definition slashingState : state.BeaconState :=
  stateAt 10 9 [slashedValidator 4106; honestValidator]
    [32000000000; 32000000000] [0; 0] [0; 7] [0; 7].

(** The same epoch with nobody due. *)
Definition quietState : state.BeaconState :=
  stateAt 10 9 [slashedValidator 4107; honestValidator]
    [32000000000; 32000000000] [0; 0] [0; 7] [0; 7].

(** The constants of the main network with a slashing multiplier of 3. *)
Definition tripleSlashing : BeaconChainConfig := mainnetWith 3 256.

(** A hundred units of active balance, and none. *)
Definition hundredActive : Balance :=
  {| ActiveCurrentEpoch := 100000000000; ActivePrevEpoch := 100000000000;
     PrevEpochAttested := 0; PrevEpochTargetAttested := 0;
     PrevEpochHeadAttested := 0 |}.
Definition noneActive : Balance :=
  {| ActiveCurrentEpoch := 0; ActivePrevEpoch := 0; PrevEpochAttested := 0;
     PrevEpochTargetAttested := 0; PrevEpochHeadAttested := 0 |}.

(** Epoch 10 with the last finalized epoch 2: previous epoch 9 is more
    than 4 epochs past it, the chain is in an inactivity leak. The
    persisted scores are 8 and 0. *)
Definition leakState : state.BeaconState :=
  stateAt 10 2 [honestValidator; honestValidator]
    [32000000000; 32000000000] [8; 0] [0; 7] [0; 7].

(** The record of a validator with a score of 8 that cast no vote, and
    of one that is not eligible. *)
Definition idleScored : Validator := set_InactivityScore idleValidator 8.

(** A registry of one validator with no inactivity score on record. *)
Definition shortScoresState : state.BeaconState :=
  stateAt 10 9 [honestValidator] [32000000000] [] [0] [0].

(** A registry of one validator with two current-epoch participation
    bytes, the second with the timely-target bit set. *)
Definition longParticipationState : state.BeaconState :=
  stateAt 10 9 [honestValidator] [32000000000] [0] [0; 2] [0].

(** A state at the genesis epoch, and the constants of the main network
    with a sync-committee period of one epoch. *)
Definition genesisState : state.BeaconState :=
  stateAt 0 0 [honestValidator] [32000000000] [0] [7] [7].
Definition periodOfOne : BeaconChainConfig := mainnetWith 1 1.

(** [increment * factor / floorSqrt(64000000000)] and
    [bias * quotient] for the constants of [mainnet]. *)
Definition multiplierOfTwoActive : Z := 252982.
Definition mainnetInactivityDenominator : Z := 201326592.
End examples.

(** ** Example inputs for the further properties *)

Module scenarios.
Import precompute.

(** A validator of 32 units that cast every vote of the previous epoch. *)
Definition fullVoter : Validator :=
  {| IsSlashed := false; IsWithdrawableCurrentEpoch := false;
     IsActiveCurrentEpoch := true; IsActivePrevEpoch := true;
     IsCurrentEpochTargetAttester := true; IsPrevEpochAttester := true;
     IsPrevEpochTargetAttester := true; IsPrevEpochHeadAttester := true;
     CurrentEpochEffectiveBalance := 32000000000; InactivityScore := 40;
     BeforeEpochTransitionBalance := 0; AfterEpochTransitionBalance := 0 |}.

(** The records InitializeEpochValidators builds for
    [examples.slashingState]: a slashed validator that has left the active
    set, and one active in both epochs. *)
Definition snapshot : list Validator :=
  [ {| IsSlashed := true; IsWithdrawableCurrentEpoch := false;
       IsActiveCurrentEpoch := false; IsActivePrevEpoch := true;
       IsCurrentEpochTargetAttester := false; IsPrevEpochAttester := false;
       IsPrevEpochTargetAttester := false; IsPrevEpochHeadAttester := false;
       CurrentEpochEffectiveBalance := 32000000000; InactivityScore := 0;
       BeforeEpochTransitionBalance := 0; AfterEpochTransitionBalance := 0 |};
    {| IsSlashed := false; IsWithdrawableCurrentEpoch := false;
       IsActiveCurrentEpoch := true; IsActivePrevEpoch := true;
       IsCurrentEpochTargetAttester := false; IsPrevEpochAttester := false;
       IsPrevEpochTargetAttester := false; IsPrevEpochHeadAttester := false;
       CurrentEpochEffectiveBalance := 32000000000; InactivityScore := 0;
       BeforeEpochTransitionBalance := 0; AfterEpochTransitionBalance := 0 |} ].

(** The accumulator that goes with [snapshot]. *)
Definition snapshotBalance : Balance :=
  {| ActiveCurrentEpoch := 32000000000; ActivePrevEpoch := 64000000000;
     PrevEpochAttested := 0; PrevEpochTargetAttested := 0;
     PrevEpochHeadAttested := 0 |}.

(** [snapshot] after the participation bytes [0; 7] of both epochs: the
    second validator has every attester flag. *)
Definition resolvedSnapshot : list Validator :=
  [ {| IsSlashed := true; IsWithdrawableCurrentEpoch := false;
       IsActiveCurrentEpoch := false; IsActivePrevEpoch := true;
       IsCurrentEpochTargetAttester := false; IsPrevEpochAttester := false;
       IsPrevEpochTargetAttester := false; IsPrevEpochHeadAttester := false;
       CurrentEpochEffectiveBalance := 32000000000; InactivityScore := 0;
       BeforeEpochTransitionBalance := 0; AfterEpochTransitionBalance := 0 |};
    {| IsSlashed := false; IsWithdrawableCurrentEpoch := false;
       IsActiveCurrentEpoch := true; IsActivePrevEpoch := true;
       IsCurrentEpochTargetAttester := true; IsPrevEpochAttester := true;
       IsPrevEpochTargetAttester := true; IsPrevEpochHeadAttester := true;
       CurrentEpochEffectiveBalance := 32000000000; InactivityScore := 0;
       BeforeEpochTransitionBalance := 0; AfterEpochTransitionBalance := 0 |} ].
End scenarios.

(** ** Closed forms the further properties are stated with *)

Module expected.
Import precompute.

(** The reward of one vote category: [baseReward * W * (attested /
    increment) / (activeIncrement * D)], products of uint64. *)
Definition categoryReward (cfg : BeaconChainConfig) (bal : Balance)
    (baseReward weight attested : Z) : Z :=
  uint64.mul (uint64.mul baseReward weight) (attested / EffectiveBalanceIncrement cfg)
  / uint64.mul (ActiveCurrentEpoch bal / EffectiveBalanceIncrement cfg)
               (WeightDenominator cfg).

(** The reward attestationDelta returns: nothing for a validator that is
    not eligible, during a leak, or for a slashed validator; otherwise the
    category rewards of the votes cast, summed in uint64. *)
Definition attestationReward (cfg : BeaconChainConfig) (bal : Balance)
    (v : Validator) (baseRewardMultiplier : Z) (leak : bool) : Z :=
  if negb (IsActivePrevEpoch v || (IsSlashed v && negb (IsWithdrawableCurrentEpoch v)))
     || (ActiveCurrentEpoch bal =? 0)
  then 0
  else if leak || IsSlashed v then 0
  else
    let baseReward :=
      uint64.mul (CurrentEpochEffectiveBalance v / EffectiveBalanceIncrement cfg)
                 baseRewardMultiplier in
    let source :=
      if IsPrevEpochAttester v
      then uint64.add 0 (categoryReward cfg bal baseReward (TimelySourceWeight cfg)
                           (PrevEpochAttested bal))
      else 0 in
    let target :=
      if IsPrevEpochTargetAttester v
      then uint64.add source (categoryReward cfg bal baseReward (TimelyTargetWeight cfg)
                                (PrevEpochTargetAttested bal))
      else source in
    if IsPrevEpochHeadAttester v
    then uint64.add target (categoryReward cfg bal baseReward (TimelyHeadWeight cfg)
                              (PrevEpochHeadAttested bal))
    else target.

(** The record InitializeEpochValidators builds for a validator of the
    registry and its persisted inactivity score. *)
Definition precomputed (currentEpoch prevEpoch : Z) (val : ethpb.Validator)
    (score : Z) : Validator :=
  {| IsSlashed := ethpb.Slashed val;
     IsWithdrawableCurrentEpoch := currentEpoch >=? ethpb.WithdrawableEpoch val;
     IsActiveCurrentEpoch := helpers.IsActiveValidatorUsingTrie val currentEpoch;
     IsActivePrevEpoch := helpers.IsActiveValidatorUsingTrie val prevEpoch;
     IsCurrentEpochTargetAttester := false; IsPrevEpochAttester := false;
     IsPrevEpochTargetAttester := false; IsPrevEpochHeadAttester := false;
     CurrentEpochEffectiveBalance := ethpb.EffectiveBalance val;
     InactivityScore := score;
     BeforeEpochTransitionBalance := 0; AfterEpochTransitionBalance := 0 |}.

(** The uint64 sum, on top of [start], of the effective balances of the
    validators active in [epoch]. *)
Definition activeBalanceFrom (start epoch : Z) (validators : list ethpb.Validator) : Z :=
  foldl (fun acc val =>
           if helpers.IsActiveValidatorUsingTrie val epoch
           then uint64.add acc (ethpb.EffectiveBalance val) else acc)
        start validators.

Definition activeBalance (epoch : Z) (validators : list ethpb.Validator) : Z :=
  activeBalanceFrom 0 epoch validators.

(** What one statement
    [if HasValidatorFlag(b, flagIdx) && active(v) { v.F = true }]
    does to a record. *)
Definition marked (flagIdx : Z) (active : Validator -> bool)
    (setF : Validator -> bool -> Validator) (b : Z) (v : Validator) : Validator :=
  if altair.HasValidatorFlag b flagIdx && active v then setF v true else v.

(** What the first loop of ProcessEpochParticipation does to the record
    of a validator whose current-epoch participation byte is [b]. *)
Definition resolveCurrent (cfg : BeaconChainConfig) (b : Z) (v : Validator) : Validator :=
  marked (TimelyTargetFlagIndex cfg) IsActiveCurrentEpoch
         set_IsCurrentEpochTargetAttester b v.

(** What the second loop does with the previous-epoch participation byte:
    source, then target, then head. *)
Definition resolvePrevious (cfg : BeaconChainConfig) (b : Z) (v : Validator) : Validator :=
  marked (TimelyHeadFlagIndex cfg) IsActivePrevEpoch set_IsPrevEpochHeadAttester b
    (marked (TimelyTargetFlagIndex cfg) IsActivePrevEpoch set_IsPrevEpochTargetAttester b
       (marked (TimelySourceFlagIndex cfg) IsActivePrevEpoch set_IsPrevEpochAttester b v)).

(** The byte carries one of the three flags the second loop tests. *)
Definition flagged (cfg : BeaconChainConfig) (b : Z) : bool :=
  altair.HasValidatorFlag b (TimelySourceFlagIndex cfg)
  || altair.HasValidatorFlag b (TimelyTargetFlagIndex cfg)
  || altair.HasValidatorFlag b (TimelyHeadFlagIndex cfg).

(** The records after a loop over the participation bytes: the record at
    the index of a byte is transformed with that byte, the records past
    the last byte are kept. *)
Fixpoint markEach (g : Z -> Validator -> Validator) (bytes : list Z)
    (vals : list Validator) : list Validator :=
  match bytes, vals with
  | b :: bytes', v :: vals' => g b v :: markEach g bytes' vals'
  | _, _ => vals
  end.

(** How a record after the participation-flag resolution relates to the
    record before it: every field but the four attester flags is kept,
    an attester flag that was set stays set, and an attester flag is set
    anew only for a validator active in the epoch the flag is about. *)
Definition resolvedFrom (v v' : Validator) : Prop :=
  IsSlashed v' = IsSlashed v /\
  IsWithdrawableCurrentEpoch v' = IsWithdrawableCurrentEpoch v /\
  IsActiveCurrentEpoch v' = IsActiveCurrentEpoch v /\
  IsActivePrevEpoch v' = IsActivePrevEpoch v /\
  CurrentEpochEffectiveBalance v' = CurrentEpochEffectiveBalance v /\
  InactivityScore v' = InactivityScore v /\
  BeforeEpochTransitionBalance v' = BeforeEpochTransitionBalance v /\
  AfterEpochTransitionBalance v' = AfterEpochTransitionBalance v /\
  (IsCurrentEpochTargetAttester v = true -> IsCurrentEpochTargetAttester v' = true) /\
  (IsPrevEpochAttester v = true -> IsPrevEpochAttester v' = true) /\
  (IsPrevEpochTargetAttester v = true -> IsPrevEpochTargetAttester v' = true) /\
  (IsPrevEpochHeadAttester v = true -> IsPrevEpochHeadAttester v' = true) /\
  (IsCurrentEpochTargetAttester v' = true ->
   IsCurrentEpochTargetAttester v = true \/ IsActiveCurrentEpoch v = true) /\
  (IsPrevEpochAttester v' = true ->
   IsPrevEpochAttester v = true \/ IsActivePrevEpoch v = true) /\
  (IsPrevEpochTargetAttester v' = true ->
   IsPrevEpochTargetAttester v = true \/ IsActivePrevEpoch v = true) /\
  (IsPrevEpochHeadAttester v' = true ->
   IsPrevEpochHeadAttester v = true \/ IsActivePrevEpoch v = true).

(** The balance after the reward/penalty step: increased by the reward,
    then decreased by the penalty. *)
Definition newBalance (balance : Z) (delta : Z * Z) : Z :=
  helpers.DecreaseBalanceWithVal (helpers.IncreaseBalanceWithVal balance delta.1) delta.2.

Definition newBalances (balances rewards penalties : list Z) : list Z :=
  zip_with newBalance balances (zip rewards penalties).

(** The records with the balances before and after the step written in. *)
Definition stamped (vals : list Validator) (before after : list Z) : list Validator :=
  zip_with (fun v (b : Z * Z) =>
              set_AfterEpochTransitionBalance
                (set_BeforeEpochTransitionBalance v b.1) b.2)
           vals (zip before after).
End expected.

(** ** helpers.UpdateGenesisEth1Data *)

(** The function closes the file of the slashing applicator. Hashing, the
    sparse Merkle trie and the state container are external
    collaborators: they are the parameters of the section. *)
Module genesis.
Section WithCollaborators.
Variable DepositData : Type.          (* ethpb.Deposit_Data *)
Variable Trie : Type.                 (* trieutil.SparseMerkleTrie *)
Variable State : Type.                (* state.BeaconState *)
Variable Failure : Type.              (* the errors of the collaborators *)

(** ethpb.Deposit; a nil [Data] is [None]. *)
Record Deposit : Type := {
  Proof : list (list Z);
  Data : option DepositData
}.

(** ethpb.Eth1Data. *)
Record Eth1Data : Type := {
  DepositRoot : list Z;
  DepositCount : Z;
  BlockHash : list Z
}.

Inductive failure : Type :=
| NoEth1Data                             (* "no eth1data provided for genesis state" *)
| NilDeposit (deposit : option Deposit)  (* "nil deposit or deposit with nil data cannot be processed: %v" *)
| Collaborator (e : Failure).

Inductive outcome (A : Type) : Type :=
| Done (a : A)
| Failed (f : failure).
Arguments Done {A} a.
Arguments Failed {A} f.

Variable HashTreeRoot : DepositData -> Failure + list Z.
Variable GenerateTrieFromItems : list (list Z) -> Z -> Failure + Trie.
Variable NewTrie : Z -> Failure + Trie.
Variable TrieHashTreeRoot : Trie -> list Z.
Variable SetEth1Data : State -> Eth1Data -> Failure + State.
Variable DepositContractTreeDepth : Z.

(** The loop over the deposits: [leaves] grows by the hash of each
    deposit's data, and the first nil deposit, deposit with nil data, or
    failing hash ends the call. *)
Fixpoint collectLeaves (deposits : list (option Deposit)) (leaves : list (list Z))
    : outcome (list (list Z)) :=
  match deposits with
  | [] => Done leaves
  | deposit :: deposits' =>
      match deposit with
      | None => Failed (NilDeposit deposit)
      | Some d =>
          match Data d with
          | None => Failed (NilDeposit deposit)
          | Some data =>
              match HashTreeRoot data with
              | inl e => Failed (Collaborator e)
              | inr hash => collectLeaves deposits' (leaves ++ [hash])
              end
          end
      end
  end.

(** UpdateGenesisEth1Data. The Go function writes the deposit root into
    the Eth1Data its caller passed; the model hands the updated Eth1Data
    back next to the state. *)
Definition UpdateGenesisEth1Data (st : State) (deposits : list (option Deposit))
    (eth1Data : option Eth1Data) : outcome (State * Eth1Data) :=
  match eth1Data with
  | None => Failed NoEth1Data
  | Some eth1Data =>
      match collectLeaves deposits [] with
      | Failed f => Failed f
      | Done leaves =>
          let trie :=
            if decide (0 < length leaves)%nat
            then GenerateTrieFromItems leaves DepositContractTreeDepth
            else NewTrie DepositContractTreeDepth in
          match trie with
          | inl e => Failed (Collaborator e)
          | inr trie =>
              let depositRoot := TrieHashTreeRoot trie in
              let eth1Data :=
                {| DepositRoot := depositRoot;
                   DepositCount := DepositCount eth1Data;
                   BlockHash := BlockHash eth1Data |} in
              match SetEth1Data st eth1Data with
              | inl e => Failed (Collaborator e)
              | inr st' => Done (st', eth1Data)
              end
          end
      end
  end.

(** A deposit that is there, with data that is there and hashes to
    [hash]. *)
Definition hashesTo (deposit : option Deposit) (hash : list Z) : Prop :=
  exists d data, deposit = Some d /\ Data d = Some data /\ HashTreeRoot data = inr hash.

End WithCollaborators.

Arguments Done {DepositData Failure A} a.
Arguments Failed {DepositData Failure A} f.
Arguments NoEth1Data {DepositData Failure}.
Arguments NilDeposit {DepositData Failure} deposit.
Arguments Collaborator {DepositData Failure} e.

(** Collaborators for the examples: a deposit's data is a number and
    hashes to the one-byte string of that number, a trie is the list of its
    leaves and its root their concatenation, the state holds the last
    Eth1Data written. *)
Definition toyHash (data : Z) : unit + list Z := inr [data].
Definition toyTrie (leaves : list (list Z)) (depth : Z) : unit + list (list Z) :=
  inr leaves.
Definition toyEmptyTrie (depth : Z) : unit + list (list Z) := inr [].
Definition toyRoot (trie : list (list Z)) : list Z := concat trie.
Definition toySet (st : option Eth1Data) (e : Eth1Data) : unit + option Eth1Data :=
  inr (Some e).
Definition toyEth1 : Eth1Data :=
  {| DepositRoot := []; DepositCount := 2; BlockHash := [66; 66] |}.
Definition toyDeposit (data : Z) : option (Deposit Z) :=
  Some {| Proof := []; Data := Some data |}.
End genesis.

(** * Properties *)

Import precompute altair.

(** ** uint64 arithmetic and the result monad *)

Lemma uint64_div_nonzero (a b : Z) : b <> 0 -> uint64.div a b = Ok (a / b).
Proof.
  intros Hb. unfold uint64.div.
  destruct (Z.eqb_spec b 0) as [->|_]; [contradiction|reflexivity].
Qed.

Lemma uint64_wrap_inRange (z : Z) : uint64.inRange (uint64.wrap z).
Proof. unfold uint64.inRange, uint64.wrap. apply Z.mod_pos_bound. reflexivity. Qed.

Lemma uint64_wrap_small (z : Z) : uint64.inRange z -> uint64.wrap z = z.
Proof. unfold uint64.inRange, uint64.wrap. intros H. apply Z.mod_small. exact H. Qed.

(** Runs a computation whose divisors are known not to be zero: every
    division in head position is replaced by its quotient, and the
    conditionals met on the way are split. *)
Ltac run_divisions :=
  repeat first
    [ rewrite uint64_div_nonzero by assumption
    | progress cbn [mbind result_bind]
    | case_match ].

(** ** attestationDelta *)

(** The penalty attestationDelta computes, whenever it computes one, is
    the one of [spec.attestationPenalty]; the head flag and the leak flag
    play no part in it. *)
Lemma attestationDelta_penalty cfg bal v brm idn leak r p :
  attestationDelta cfg bal v brm idn leak = Ok (r, p) ->
  p = spec.attestationPenalty cfg bal v brm idn.
Proof.
  unfold attestationDelta, spec.attestationPenalty, uint64.div, mbind, result_bind.
  intros H.
  repeat (case_match; simplify_eq/=; try reflexivity; try congruence).
Qed.

(** With divisors that are not zero attestationDelta returns. *)
Lemma attestationDelta_returns cfg bal v brm idn leak :
  spec.deltaDivisorsNonZero cfg bal idn ->
  exists r p, attestationDelta cfg bal v brm idn leak = Ok (r, p).
Proof.
  intros (Hinc & Hwd & Hidn & Hact).
  unfold attestationDelta. cbv zeta.
  destruct (negb _ || _); [eauto|].
  run_divisions; eauto.
Qed.

Lemma attestationPenalty_head_flag cfg bal v brm idn h :
  spec.attestationPenalty cfg bal (set_IsPrevEpochHeadAttester v h) brm idn
  = spec.attestationPenalty cfg bal v brm idn.
Proof. reflexivity. Qed.

(** AttestationsDelta divides by the integer square root of the active
    balance before it looks at any validator: with no active balance the
    call stops in a division by zero. *)
Lemma AttestationsDelta_no_active_balance cfg s bal vals :
  ActiveCurrentEpoch bal = 0 ->
  AttestationsDelta cfg s bal vals = Panic DivideByZero.
Proof. intros H. unfold AttestationsDelta. rewrite H. reflexivity. Qed.

(** C1 (as amended). For every validator that is not eligible, where
    eligibility is isActivePrevEpoch OR (isSlashed AND NOT
    isWithdrawableCurrentEpoch), and for every validator when the
    accumulator's activeCurrentEpoch is 0, attestationDelta returns
    reward = 0 and penalty = 0. *)
Theorem attestationDelta_zero_when_ineligible cfg bal v brm idn leak :
  IsActivePrevEpoch v || (IsSlashed v && negb (IsWithdrawableCurrentEpoch v)) = false
  \/ ActiveCurrentEpoch bal = 0 ->
  attestationDelta cfg bal v brm idn leak = Ok (0, 0).
Proof.
  intros [H|H]; unfold attestationDelta; rewrite H; [reflexivity|].
  rewrite orb_true_r. reflexivity.
Qed.

Lemma attestationDelta_zero_when_ineligible_witness :
  attestationDelta examples.mainnet examples.twoActive examples.exitedValidator
    examples.multiplierOfTwoActive examples.mainnetInactivityDenominator false
  = Ok (0, 0).
Proof.
  apply (attestationDelta_zero_when_ineligible examples.mainnet examples.twoActive
           examples.exitedValidator).
  left. reflexivity.
Defined.

(** C1 as the specification words it fails on both counts. A validator
    that was active in the previous epoch and cast no source vote is not
    eligible in the specification's sense (isPrevEpochAttester OR ...), the
    active balance is not 0, and attestationDelta charges it a penalty. And
    with an active balance of 0 the reward/penalty step as a whole stops
    in the division by the integer square root of that balance. *)
Lemma attestationDelta_spec_eligibility_counterexample :
  (spec.eligibleForDelta examples.idleValidator = false /\
   ActiveCurrentEpoch examples.twoActive <> 0 /\
   attestationDelta examples.mainnet examples.twoActive examples.idleValidator
     examples.multiplierOfTwoActive examples.mainnetInactivityDenominator false
   = Ok (0, 5059640)) /\
  (ActiveCurrentEpoch examples.noneActive = 0 /\
   ProcessRewardsAndPenaltiesPrecompute examples.mainnet examples.slashingState
     examples.noneActive [examples.idleValidator; examples.idleValidator]
   = Panic DivideByZero).
Proof. repeat split. cbn. discriminate. Qed.

(** C9. For every validator record with isSlashed true the reward of
    attestationDelta is 0, whatever the attester flags, the activity flags
    and the leak flag are: whenever the function returns, the reward is 0,
    and it does return as soon as the three divisors a slashed validator
    meets are not zero. *)
Theorem attestationDelta_slashed_no_reward cfg bal v brm idn leak :
  IsSlashed v = true ->
  (forall r p, attestationDelta cfg bal v brm idn leak = Ok (r, p) -> r = 0) /\
  (EffectiveBalanceIncrement cfg <> 0 -> WeightDenominator cfg <> 0 -> idn <> 0 ->
   exists p, attestationDelta cfg bal v brm idn leak = Ok (0, p)).
Proof.
  intros Hs. unfold attestationDelta. rewrite Hs. cbn [negb andb].
  rewrite !andb_false_r. split.
  - intros r p. unfold uint64.div, mbind, result_bind.
    repeat (case_match; simplify_eq/=; try reflexivity; try congruence).
  - intros Hinc Hwd Hidn.
    cbv zeta. destruct (negb _ || _); [eauto|].
    rewrite orb_true_r. run_divisions; eauto.
Qed.

Lemma attestationDelta_slashed_no_reward_witness :
  exists p,
    attestationDelta examples.mainnet examples.twoActive examples.slashedVoter
      examples.multiplierOfTwoActive examples.mainnetInactivityDenominator false
    = Ok (0, p).
Proof.
  apply (attestationDelta_slashed_no_reward examples.mainnet examples.twoActive
           examples.slashedVoter examples.multiplierOfTwoActive
           examples.mainnetInactivityDenominator false);
    [reflexivity | cbn; lia | cbn; lia | unfold examples.mainnetInactivityDenominator; lia].
Defined.

(** C6. A missed head vote is never penalized. The penalty of
    attestationDelta is the sum of the source term, the target term and the
    inactivity term of [spec.attestationPenalty], which reads neither the
    head flag nor the leak flag; two records that differ only in
    isPrevEpochHeadAttester receive the same penalty, and with divisors
    that are not zero both calls return. *)
Theorem attestationDelta_head_vote_not_penalized cfg bal v brm idn leak h1 h2 :
  (forall r1 p1 r2 p2,
     attestationDelta cfg bal (set_IsPrevEpochHeadAttester v h1) brm idn leak = Ok (r1, p1) ->
     attestationDelta cfg bal (set_IsPrevEpochHeadAttester v h2) brm idn leak = Ok (r2, p2) ->
     p1 = p2 /\ p1 = spec.attestationPenalty cfg bal v brm idn) /\
  (spec.deltaDivisorsNonZero cfg bal idn ->
   exists r1 r2 p,
     attestationDelta cfg bal (set_IsPrevEpochHeadAttester v h1) brm idn leak = Ok (r1, p) /\
     attestationDelta cfg bal (set_IsPrevEpochHeadAttester v h2) brm idn leak = Ok (r2, p)).
Proof.
  split.
  - intros r1 p1 r2 p2 H1 H2.
    apply attestationDelta_penalty in H1, H2.
    rewrite attestationPenalty_head_flag in H1, H2. split; congruence.
  - intros Hd.
    destruct (attestationDelta_returns cfg bal (set_IsPrevEpochHeadAttester v h1)
                brm idn leak Hd) as (r1 & p1 & H1).
    destruct (attestationDelta_returns cfg bal (set_IsPrevEpochHeadAttester v h2)
                brm idn leak Hd) as (r2 & p2 & H2).
    exists r1, r2, p1. split; [exact H1|].
    rewrite H2. f_equal. f_equal.
    apply attestationDelta_penalty in H1, H2.
    rewrite attestationPenalty_head_flag in H1, H2. congruence.
Qed.

Lemma attestationDelta_head_vote_not_penalized_witness :
  exists r1 r2 p,
    attestationDelta examples.mainnet examples.twoActive
      (set_IsPrevEpochHeadAttester examples.idleValidator true)
      examples.multiplierOfTwoActive examples.mainnetInactivityDenominator false
    = Ok (r1, p) /\
    attestationDelta examples.mainnet examples.twoActive
      (set_IsPrevEpochHeadAttester examples.idleValidator false)
      examples.multiplierOfTwoActive examples.mainnetInactivityDenominator false
    = Ok (r2, p).
Proof.
  apply (attestationDelta_head_vote_not_penalized examples.mainnet examples.twoActive
           examples.idleValidator examples.multiplierOfTwoActive
           examples.mainnetInactivityDenominator false true false).
  repeat split; vm_compute; discriminate.
Defined.

(** ** The state container *)

Lemma SetBalances_same s : state.SetBalances s (state.Balances s) = s.
Proof. destruct s; reflexivity. Qed.

Lemma SetBalances_twice s b b' :
  state.SetBalances (state.SetBalances s b) b' = state.SetBalances s b'.
Proof. reflexivity. Qed.

(** ** Epoch-boundary rotation *)

(** C8. The participation-flag rotation sets previousParticipation to the
    old currentParticipation and currentParticipation to a zeroed array
    whose length is the validator count, and leaves the rest of the state
    alone; a second rotation with no write in between leaves
    previousParticipation equal to the zeroed array of validator-count
    length. *)
Theorem ProcessParticipationFlagUpdates_rotation (s : state.BeaconState) :
  exists s1 s2,
    ProcessParticipationFlagUpdates s = Ok s1 /\
    state.PreviousEpochParticipation s1 = state.CurrentEpochParticipation s /\
    state.CurrentEpochParticipation s1 = replicate (state.NumValidators s) 0 /\
    state.Validators s1 = state.Validators s /\
    state.Balances s1 = state.Balances s /\
    ProcessParticipationFlagUpdates s1 = Ok s2 /\
    state.PreviousEpochParticipation s2 = replicate (state.NumValidators s) 0 /\
    state.CurrentEpochParticipation s2 = replicate (state.NumValidators s) 0.
Proof.
  eexists _, _. split; [reflexivity|].
  repeat split; reflexivity.
Qed.

(** C3 (as amended). At the genesis epoch the reward/penalty application
    step returns the state and the records as they are, and the
    sync-committee update step returns the state as it is whenever the
    sync-committee period is longer than one epoch: that step has no test
    for genesis, it rotates exactly when currentEpoch + 1 is a multiple of
    the period. *)
Theorem genesis_epoch_no_op cfg elect cache s bal vals :
  core.CurrentEpoch s = GenesisEpoch ->
  ProcessRewardsAndPenaltiesPrecompute cfg s bal vals = Ok (s, vals) /\
  (1 < EpochsPerSyncCommitteePeriod cfg ->
   ProcessSyncCommitteeUpdates cfg elect cache s = Ok s).
Proof.
  intros Hg. split.
  - unfold ProcessRewardsAndPenaltiesPrecompute. rewrite Hg. reflexivity.
  - intros Hp. unfold ProcessSyncCommitteeUpdates, core.NextEpoch. rewrite Hg.
    change (uint64.add GenesisEpoch 1) with 1.
    unfold uint64.rem.
    destruct (Z.eqb_spec (EpochsPerSyncCommitteePeriod cfg) 0) as [E|_]; [lia|].
    cbn [mbind result_bind].
    rewrite Z.mod_small by lia. reflexivity.
Qed.

Lemma genesis_epoch_no_op_witness :
  ProcessRewardsAndPenaltiesPrecompute examples.mainnet examples.genesisState
    examples.twoActive [examples.idleValidator]
  = Ok (examples.genesisState, [examples.idleValidator]) /\
  ProcessSyncCommitteeUpdates examples.mainnet examples.electC examples.cacheOk
    examples.genesisState
  = Ok examples.genesisState.
Proof.
  pose proof (genesis_epoch_no_op examples.mainnet examples.electC examples.cacheOk
                examples.genesisState examples.twoActive [examples.idleValidator]
                eq_refl) as [H1 H2].
  split; [exact H1|]. apply H2. cbn. lia.
Defined.

(** C3 as the specification words it fails: with a sync-committee period
    of one epoch the update step run at the genesis epoch promotes the
    next committee and elects a new one. *)
Lemma ProcessSyncCommitteeUpdates_genesis_counterexample :
  core.CurrentEpoch examples.genesisState = GenesisEpoch /\
  exists s',
    ProcessSyncCommitteeUpdates examples.periodOfOne examples.electC examples.cacheOk
      examples.genesisState = Ok s' /\
    state.CurrentSyncCommittee examples.genesisState = examples.committeeA /\
    state.CurrentSyncCommittee s' = examples.committeeB /\
    state.NextSyncCommittee s' = examples.committeeC /\
    state.CurrentSyncCommittee s' <> state.CurrentSyncCommittee examples.genesisState.
Proof.
  split; [reflexivity|]. eexists. split; [reflexivity|].
  repeat split. discriminate.
Qed.

(** ** The slashing-penalty applicator *)

Section Slashings.
Variables (epochToWithdraw minSlashing increment : Z) (pBal : Balance).

Let penaltyOf (val : ethpb.Validator) : Z :=
  uint64.mul
    (uint64.mul (ethpb.EffectiveBalance val / increment) minSlashing
     / ActiveCurrentEpoch pBal)
    increment.

Let charged (val : ethpb.Validator) (balance : Z) : Z :=
  if spec.slashedAt epochToWithdraw val
  then helpers.DecreaseBalanceWithVal balance (penaltyOf val)
  else balance.

Let step := state.applyToValidator
              (validatorFunc epochToWithdraw minSlashing increment pBal).

(** The pre-scan finds a slashing exactly when some validator of the
    registry is slashed with the matching withdrawable epoch. *)
Lemma findSlashing_scan (l : list ethpb.Validator) (i : nat) (acc : bool) :
  forRange (findSlashing epochToWithdraw) i l acc
  = Ok (acc || existsb (spec.slashedAt epochToWithdraw) l).
Proof.
  revert i acc. induction l as [|val l IH]; intros i acc; cbn [forRange existsb].
  - rewrite orb_false_r. reflexivity.
  - assert (Hstep : findSlashing epochToWithdraw i val acc
                    = Ok (acc || spec.slashedAt epochToWithdraw val)).
    { unfold findSlashing, spec.slashedAt.
      destruct (ethpb.Slashed val && _); [rewrite orb_true_r|rewrite orb_false_r];
        reflexivity. }
    rewrite Hstep. cbn [mbind result_bind]. rewrite IH, orb_assoc. reflexivity.
Qed.

(** A validator that does not match is passed over. *)
Lemma step_skip idx val st :
  spec.slashedAt epochToWithdraw val = false -> step idx val st = Ok st.
Proof.
  intros H. unfold step, state.applyToValidator, validatorFunc.
  fold (spec.slashedAt epochToWithdraw val). rewrite H. reflexivity.
Qed.

(** A validator that matches is charged: its balance is decreased by
    the penalty, and the registry keeps the validator it already held. *)
Lemma step_charge idx val st b :
  increment <> 0 -> ActiveCurrentEpoch pBal <> 0 ->
  spec.slashedAt epochToWithdraw val = true ->
  state.Validators st !! idx = Some val ->
  state.Balances st !! idx = Some b ->
  step idx val st
  = Ok (state.SetBalances st
          (<[idx:=helpers.DecreaseBalanceWithVal b (penaltyOf val)]> (state.Balances st))).
Proof.
  intros Hinc Hact Hm Hval Hb.
  unfold step, state.applyToValidator, validatorFunc.
  fold (spec.slashedAt epochToWithdraw val). rewrite Hm.
  rewrite (uint64_div_nonzero _ _ Hinc). cbn [mbind result_bind].
  rewrite (uint64_div_nonzero _ _ Hact). cbn [mbind result_bind].
  unfold helpers.DecreaseBalance, state.BalanceAtIndex. rewrite Hb.
  cbn [mbind result_bind]. unfold state.UpdateBalancesAtIndex.
  apply lookup_lt_Some in Hb as Hlt.
  destruct (decide (idx < length (state.Balances st))%nat); [|lia].
  cbn [mbind result_bind state.SetBalances state.Validators].
  rewrite (list_insert_id _ _ _ Hval).
  destruct st; reflexivity.
Qed.

(** With no active balance, a validator that matches stops the call in
    the division by the active balance. *)
Lemma step_zero_divisor idx val st :
  increment <> 0 -> ActiveCurrentEpoch pBal = 0 ->
  spec.slashedAt epochToWithdraw val = true ->
  step idx val st = Panic DivideByZero.
Proof.
  intros Hinc Hact Hm. unfold step, state.applyToValidator, validatorFunc.
  fold (spec.slashedAt epochToWithdraw val). rewrite Hm.
  rewrite (uint64_div_nonzero _ _ Hinc). cbn [mbind result_bind].
  rewrite Hact. reflexivity.
Qed.

(** With divisors that are not zero a step comes back, with a state or
    with the container's error. *)
Lemma step_returns idx val st :
  increment <> 0 -> ActiveCurrentEpoch pBal <> 0 ->
  (exists st', step idx val st = Ok st') \/ (exists e, step idx val st = Err e).
Proof.
  intros Hinc Hact. unfold step, state.applyToValidator, validatorFunc.
  destruct (ethpb.Slashed val && _); [|eauto].
  rewrite (uint64_div_nonzero _ _ Hinc). cbn [mbind result_bind].
  rewrite (uint64_div_nonzero _ _ Hact). cbn [mbind result_bind].
  unfold helpers.DecreaseBalance, state.BalanceAtIndex, state.UpdateBalancesAtIndex.
  destruct (state.Balances st !! idx); cbn [mbind result_bind]; [|eauto].
  destruct (decide _); cbn [mbind result_bind]; eauto.
Qed.

(** The loop over the registry, from any index on: the balances of the
    validators still to visit are replaced by their charged balances. *)
Lemma apply_loop (l : list ethpb.Validator) :
  increment <> 0 -> ActiveCurrentEpoch pBal <> 0 ->
  forall (pre : list ethpb.Validator) (done rest : list Z) (st : state.BeaconState),
    state.Validators st = pre ++ l ->
    state.Balances st = done ++ rest ->
    length pre = length done ->
    length l = length rest ->
    forRange step (length done) l st
    = Ok (state.SetBalances st (done ++ zip_with charged l rest)).
Proof.
  intros Hinc Hact. induction l as [|val l IH]; intros pre done rest st Hv Hb Hpre Hlen.
  - destruct rest; [|discriminate]. cbn [forRange zip_with].
    rewrite <- Hb, SetBalances_same. reflexivity.
  - destruct rest as [|b rest]; [discriminate|]. cbn [forRange zip_with].
    assert (Hvi : state.Validators st !! length done = Some val).
    { rewrite Hv, <- Hpre. apply list_lookup_middle. reflexivity. }
    assert (Hbi : state.Balances st !! length done = Some b).
    { rewrite Hb. apply list_lookup_middle. reflexivity. }
    assert (Hstep : step (length done) val st
                    = Ok (state.SetBalances st (done ++ charged val b :: rest))).
    { unfold charged at 1.
      destruct (spec.slashedAt epochToWithdraw val) eqn:Hm.
      - rewrite (step_charge _ _ _ b Hinc Hact Hm Hvi Hbi). rewrite Hb.
        rewrite insert_app_r_alt by lia. rewrite Nat.sub_diag. reflexivity.
      - rewrite (step_skip _ _ _ Hm). rewrite <- Hb, SetBalances_same. reflexivity. }
    rewrite Hstep. cbn [mbind result_bind].
    replace (S (length done)) with (length (done ++ [charged val b]))
      by (rewrite length_app; cbn; lia).
    rewrite (IH (pre ++ [val]) (done ++ [charged val b]) rest).
    + rewrite SetBalances_twice, <- app_assoc. reflexivity.
    + cbn. rewrite Hv, <- app_assoc. reflexivity.
    + cbn. rewrite <- app_assoc. reflexivity.
    + rewrite !length_app. cbn. lia.
    + cbn in Hlen. lia.
Qed.

(** With no active balance the loop stops in a division by zero as soon
    as the registry holds a validator that matches. *)
Lemma apply_loop_zero_divisor (l : list ethpb.Validator) :
  increment <> 0 -> ActiveCurrentEpoch pBal = 0 ->
  existsb (spec.slashedAt epochToWithdraw) l = true ->
  forall i st, forRange step i l st = Panic DivideByZero.
Proof.
  intros Hinc Hact. induction l as [|val l IH]; intros Hex i st; [discriminate|].
  cbn [forRange]. cbn [existsb] in Hex.
  destruct (spec.slashedAt epochToWithdraw val) eqn:Hm.
  - rewrite (step_zero_divisor _ _ _ Hinc Hact Hm). reflexivity.
  - rewrite (step_skip _ _ _ Hm). cbn [mbind result_bind]. apply IH. exact Hex.
Qed.

(** With divisors that are not zero the loop comes back. *)
Lemma apply_loop_returns (l : list ethpb.Validator) :
  increment <> 0 -> ActiveCurrentEpoch pBal <> 0 ->
  forall i st, returns (forRange step i l st).
Proof.
  intros Hinc Hact. induction l as [|val l IH]; intros i st; cbn [forRange]; [exact I|].
  destruct (step_returns i val st Hinc Hact) as [[st' ->]|[e ->]];
    cbn [mbind result_bind]; [apply IH|exact I].
Qed.

(** A loop that charges nobody leaves the balances alone. *)
Lemma charged_nobody (l : list ethpb.Validator) (bs : list Z) :
  existsb (spec.slashedAt epochToWithdraw) l = false ->
  length l = length bs ->
  zip_with charged l bs = bs.
Proof.
  revert bs. induction l as [|val l IH]; intros [|b bs] Hex Hlen;
    try discriminate; [reflexivity|].
  cbn [existsb] in Hex. apply orb_false_elim in Hex as [Hm Hex].
  cbn [zip_with]. unfold charged at 1. rewrite Hm. f_equal.
  apply IH; [exact Hex|]. cbn in Hlen. lia.
Qed.
End Slashings.

Lemma Min_is_min (a b : Z) : mathutil.Min a b = Z.min a b.
Proof. unfold mathutil.Min. destruct (Z.ltb_spec a b); lia. Qed.

(** The applicator, unfolded up to its two passes over the registry. *)
Lemma ProcessSlashingsPrecompute_unfold cfg s pBal :
  ProcessSlashingsPrecompute cfg s pBal
  = if existsb (spec.slashedAt (spec.epochToWithdraw cfg s)) (state.Validators s)
    then forRange
           (state.applyToValidator
              (validatorFunc (spec.epochToWithdraw cfg s)
                 (spec.minSlashing (ProportionalSlashingMultiplier cfg)
                    (spec.totalSlashings s) (ActiveCurrentEpoch pBal))
                 (EffectiveBalanceIncrement cfg) pBal))
           0%nat (state.Validators s) s
    else Ok s.
Proof.
  unfold ProcessSlashingsPrecompute, state.ReadFromEveryValidator,
    state.ApplyToEveryValidator. cbv zeta.
  rewrite findSlashing_scan, Min_is_min. cbn [mbind result_bind orb].
  destruct (existsb _ _); reflexivity.
Qed.

Lemma slashedAt_true (epoch : Z) (val : ethpb.Validator) :
  spec.slashedAt epoch val = true <->
  ethpb.Slashed val = true /\ ethpb.WithdrawableEpoch val = epoch.
Proof.
  unfold spec.slashedAt. rewrite andb_true_iff, Z.eqb_eq. intuition congruence.
Qed.

Lemma existsb_slashedAt (epoch : Z) (l : list ethpb.Validator) :
  existsb (spec.slashedAt epoch) l = true <->
  exists val, val ∈ l /\ ethpb.Slashed val = true /\ ethpb.WithdrawableEpoch val = epoch.
Proof.
  rewrite existsb_exists. split; intros (val & Hin & H); exists val.
  - apply list_elem_of_In in Hin. apply slashedAt_true in H. auto.
  - rewrite <- list_elem_of_In, slashedAt_true. auto.
Qed.

(** C7. In a state where no validator is both slashed and has
    withdrawableEpoch == currentEpoch + epochsPerSlashingsVector/2 the
    slashing-penalty applicator returns without error and hands back the
    state as it was: the balance list and every other field. *)
Theorem ProcessSlashingsPrecompute_no_op cfg s pBal :
  (forall val, val ∈ state.Validators s ->
     ~ (ethpb.Slashed val = true /\
        ethpb.WithdrawableEpoch val
        = uint64.add (core.CurrentEpoch s) (EpochsPerSlashingsVector cfg / 2))) ->
  ProcessSlashingsPrecompute cfg s pBal = Ok s.
Proof.
  intros Hnone. rewrite ProcessSlashingsPrecompute_unfold.
  destruct (existsb _ _) eqn:Hex; [|reflexivity].
  apply existsb_slashedAt in Hex as (val & Hin & Hs & Hw).
  exfalso. apply (Hnone val Hin). split; [exact Hs|exact Hw].
Qed.

Lemma ProcessSlashingsPrecompute_no_op_witness :
  ProcessSlashingsPrecompute examples.mainnet examples.quietState examples.noneActive
  = Ok examples.quietState.
Proof.
  apply (ProcessSlashingsPrecompute_no_op examples.mainnet examples.quietState
           examples.noneActive).
  intros val Hin [Hs Hw].
  apply list_elem_of_In in Hin. cbn in Hin.
  destruct Hin as [<-|[<-|[]]]; [vm_compute in Hw|cbn in Hs]; discriminate.
Defined.

(** C5. The slashing-penalty applicator charges every validator that is
    slashed with withdrawableEpoch == epochToWithdraw, where
    epochToWithdraw = currentEpoch + epochsPerSlashingsVector/2, the
    penalty (effectiveBalance / increment * minSlashing)
    / activeCurrentEpoch * increment, with
    minSlashing = min(totalSlashings * proportionalSlashingMultiplier,
    activeCurrentEpoch), floor divisions in that order, as a saturating
    decrease of its balance, and leaves every other balance alone. For
    totalSlashings = 3*increment, multiplier = 3,
    activeCurrentEpoch = 100*increment and
    effectiveBalance = 32*increment, minSlashing is 9*increment and the
    penalty is 2*increment. *)
Theorem ProcessSlashingsPrecompute_penalty cfg s pBal :
  (EffectiveBalanceIncrement cfg <> 0 -> ActiveCurrentEpoch pBal <> 0 ->
   length (state.Validators s) = length (state.Balances s) ->
   ProcessSlashingsPrecompute cfg s pBal
   = Ok (state.SetBalances s
           (zip_with (spec.slashedBalance cfg s pBal)
                     (state.Validators s) (state.Balances s)))) /\
  (forall increment, 0 < increment -> 288 * increment < uint64.modulus ->
     spec.minSlashing 3 (3 * increment) (100 * increment) = 9 * increment /\
     spec.slashingPenalty increment 3 (3 * increment) (100 * increment) (32 * increment)
     = 2 * increment).
Proof.
  split.
  - intros Hinc Hact Hlen. rewrite ProcessSlashingsPrecompute_unfold.
    destruct (existsb _ _) eqn:Hex.
    + exact (apply_loop _ _ _ _ (state.Validators s) Hinc Hact [] [] (state.Balances s) s
               eq_refl eq_refl eq_refl Hlen).
    + rewrite <- (SetBalances_same s) at 1. do 2 f_equal. symmetry.
      exact (charged_nobody (spec.epochToWithdraw cfg s)
               (spec.minSlashing (ProportionalSlashingMultiplier cfg)
                  (spec.totalSlashings s) (ActiveCurrentEpoch pBal))
               (EffectiveBalanceIncrement cfg) pBal _ _ Hex Hlen).
  - intros inc Hpos Hsmall.
    assert (Hmin : spec.minSlashing 3 (3 * inc) (100 * inc) = 9 * inc).
    { unfold spec.minSlashing, uint64.mul. rewrite uint64_wrap_small.
      - lia.
      - unfold uint64.inRange. lia. }
    split; [exact Hmin|].
    unfold spec.slashingPenalty. rewrite Hmin.
    replace (32 * inc / inc) with 32 by (rewrite Z.div_mul; lia).
    unfold uint64.mul.
    rewrite (uint64_wrap_small (32 * (9 * inc))) by (unfold uint64.inRange; lia).
    replace (32 * (9 * inc) / (100 * inc)) with 2.
    + rewrite uint64_wrap_small; [reflexivity|unfold uint64.inRange; lia].
    + apply (Z.div_unique _ _ 2 (88 * inc)); lia.
Qed.

Lemma ProcessSlashingsPrecompute_penalty_witness :
  ProcessSlashingsPrecompute examples.tripleSlashing examples.slashingState
    examples.hundredActive
  = Ok (state.SetBalances examples.slashingState [30000000000; 32000000000]) /\
  spec.slashingPenalty 1000000000 3 3000000000 100000000000 32000000000 = 2000000000.
Proof.
  split.
  - refine (eq_trans
              (proj1 (ProcessSlashingsPrecompute_penalty examples.tripleSlashing
                        examples.slashingState examples.hundredActive) _ _ _) _).
    + cbn. lia.
    + cbn. lia.
    + reflexivity.
    + vm_compute. reflexivity.
  - apply (proj2 (ProcessSlashingsPrecompute_penalty examples.tripleSlashing
                    examples.slashingState examples.hundredActive) 1000000000).
    + lia.
    + vm_compute. reflexivity.
Defined.

(** C10. The division by the accumulator's activeCurrentEpoch has no
    zero-divisor guard and is reached exactly when some validator is
    slashed with withdrawableEpoch == currentEpoch +
    epochsPerSlashingsVector/2: with an active balance of 0 the applicator
    stops in a division by zero if and only if such a validator exists.
    When the active balance is positive whenever such a validator exists,
    the applicator comes back to its caller. The protocol's increment, the
    other divisor of the penalty, is taken not to be zero. *)
Theorem ProcessSlashingsPrecompute_division cfg s pBal :
  EffectiveBalanceIncrement cfg <> 0 ->
  (ActiveCurrentEpoch pBal = 0 ->
   (ProcessSlashingsPrecompute cfg s pBal = Panic DivideByZero <->
    exists val, val ∈ state.Validators s /\ ethpb.Slashed val = true /\
                ethpb.WithdrawableEpoch val = spec.epochToWithdraw cfg s)) /\
  (((exists val, val ∈ state.Validators s /\ ethpb.Slashed val = true /\
                 ethpb.WithdrawableEpoch val = spec.epochToWithdraw cfg s) ->
    0 < ActiveCurrentEpoch pBal) ->
   returns (ProcessSlashingsPrecompute cfg s pBal)).
Proof.
  intros Hinc. rewrite <- existsb_slashedAt, ProcessSlashingsPrecompute_unfold.
  split.
  - intros Hzero. destruct (existsb _ _) eqn:Hex.
    + split; [reflexivity|intros _].
      apply apply_loop_zero_divisor; assumption.
    + split; discriminate.
  - intros Hpos. destruct (existsb _ _) eqn:Hex; [|exact I].
    apply apply_loop_returns; [exact Hinc|].
    specialize (Hpos eq_refl). lia.
Qed.

Lemma ProcessSlashingsPrecompute_division_witness :
  ProcessSlashingsPrecompute examples.mainnet examples.slashingState examples.noneActive
  = Panic DivideByZero /\
  returns (ProcessSlashingsPrecompute examples.mainnet examples.slashingState
             examples.hundredActive).
Proof.
  assert (Hinc : EffectiveBalanceIncrement examples.mainnet <> 0) by (cbn; lia).
  split.
  - apply (proj1 (ProcessSlashingsPrecompute_division examples.mainnet
                    examples.slashingState examples.noneActive Hinc) eq_refl).
    exists (examples.slashedValidator 4106).
    split; [left|split; reflexivity].
  - apply (proj2 (ProcessSlashingsPrecompute_division examples.mainnet
                    examples.slashingState examples.hundredActive Hinc)).
    intros _. cbn. lia.
Defined.

(** ** The inactivity-score update *)

Lemma set_InactivityScore_same (v : Validator) :
  set_InactivityScore v (InactivityScore v) = v.
Proof. destruct v; reflexivity. Qed.

(** On a score a uint64 can hold, lines 99-115 of ProcessInactivityScores
    compute the score of the specification. *)
Lemma updateInactivityScore_spec (bias recoveryRate : Z) (leak : bool) (v : Validator) :
  uint64.inRange (InactivityScore v) -> 0 <= recoveryRate ->
  updateInactivityScore bias recoveryRate leak v
  = set_InactivityScore v (spec.inactivityScore bias recoveryRate leak v).
Proof.
  intros Hr Hrr. unfold updateInactivityScore, spec.inactivityScore.
  assert (Hstep : forall w : Validator,
             uint64.inRange (InactivityScore w) ->
             (if negb leak
              then let score := recoveryRate in
                   let score := if score >? InactivityScore w
                                then InactivityScore w else score in
                   set_InactivityScore w (uint64.sub (InactivityScore w) score)
              else w)
             = set_InactivityScore w
                 (if leak then InactivityScore w
                  else InactivityScore w - Z.min (InactivityScore w) recoveryRate)).
  { intros w Hw. destruct leak; cbn [negb]; [symmetry; apply set_InactivityScore_same|].
    cbv zeta. f_equal. unfold uint64.sub, uint64.inRange in *.
    destruct (Z.gtb_spec recoveryRate (InactivityScore w));
      (rewrite uint64_wrap_small; [lia|unfold uint64.inRange; lia]). }
  destruct (IsPrevEpochTargetAttester v && negb (IsSlashed v)).
  - destruct (Z.gtb_spec (InactivityScore v) 0) as [Hpos|Hzero].
    + rewrite Hstep.
      * destruct v; cbn in *. unfold uint64.sub.
        rewrite (uint64_wrap_small (_ - 1)) by (unfold uint64.inRange in *; lia).
        rewrite Z.max_r by lia. reflexivity.
      * destruct v; cbn in *. apply uint64_wrap_inRange.
    + rewrite Hstep by exact Hr.
      unfold uint64.inRange in Hr.
      replace (Z.max 0 (InactivityScore v - 1)) with (InactivityScore v) by lia.
      reflexivity.
  - rewrite Hstep.
    + destruct v; reflexivity.
    + destruct v; cbn. apply uint64_wrap_inRange.
Qed.

Section InactivityLoop.
Variables (bias recoveryRate : Z) (leak : bool).

Let updated (v : Validator) : Validator :=
  if EligibleForRewards v then updateInactivityScore bias recoveryRate leak v else v.

Let stored (v : Validator) (score : Z) : Z :=
  if EligibleForRewards v
  then InactivityScore (updateInactivityScore bias recoveryRate leak v)
  else score.

(** The loop of ProcessInactivityScores, from any index on: the records
    still to visit are replaced by their updated records, and the scores
    at their indices by their updated scores. *)
Lemma inactivity_loop (l : list Validator) :
  forall (pre : list Validator) (sdone srest : list Z),
    length pre = length sdone ->
    (length l <= length srest)%nat ->
    forRange (inactivityScoresBody bias recoveryRate leak) (length sdone) l
             (pre ++ l, sdone ++ srest)
    = Ok (pre ++ map updated l,
          sdone ++ zip_with stored l srest ++ drop (length l) srest).
Proof.
  induction l as [|v l IH]; intros pre sdone srest Hpre Hlen.
  - reflexivity.
  - destruct srest as [|sc srest]; [cbn in Hlen; lia|].
    cbn [forRange map zip_with length drop].
    assert (Hbody : inactivityScoresBody bias recoveryRate leak (length sdone) v
                      (pre ++ v :: l, sdone ++ sc :: srest)
                    = Ok ((pre ++ [updated v]) ++ l, (sdone ++ [stored v sc]) ++ srest)).
    { unfold inactivityScoresBody, updated, stored.
      destruct (EligibleForRewards v); cbn [negb].
      - unfold store. rewrite length_app. cbn [length].
        destruct (decide _) as [_|Hn]; [|lia].
        cbn [mbind result_bind].
        rewrite <- Hpre at 1.
        rewrite !insert_app_r_alt by lia. rewrite !Nat.sub_diag.
        cbn [insert list_insert]. rewrite <- !app_assoc. reflexivity.
      - rewrite <- !app_assoc. reflexivity. }
    rewrite Hbody. cbn [mbind result_bind].
    replace (S (length sdone)) with (length (sdone ++ [stored v sc]))
      by (rewrite length_app; cbn; lia).
    rewrite IH.
    + rewrite <- !app_assoc. reflexivity.
    + rewrite !length_app. cbn. lia.
    + cbn in Hlen. lia.
Qed.
End InactivityLoop.

Lemma map_ext_Forall {A B} (P : A -> Prop) (f g : A -> B) (l : list A) :
  Forall P l -> (forall x, P x -> f x = g x) -> map f l = map g l.
Proof.
  intros Hl Hfg. induction Hl as [|x l Hx _ IH]; [reflexivity|].
  cbn. rewrite (Hfg x Hx), IH. reflexivity.
Qed.

Lemma zip_with_ext_Forall {A B C} (P : A -> Prop) (f g : A -> B -> C)
    (l : list A) (k : list B) :
  Forall P l -> (forall x y, P x -> f x y = g x y) -> zip_with f l k = zip_with g l k.
Proof.
  intros Hl Hfg. revert k. induction Hl as [|x l Hx _ IH]; intros [|y k];
    try reflexivity.
  cbn. rewrite (Hfg x y Hx), IH. reflexivity.
Qed.

(** C4. Outside the genesis epoch ProcessInactivityScores gives every
    eligible validator the score of [spec.inactivityScore]: with a correct
    target vote and no slashing the score decreases by 1 but never below
    0, otherwise it increases by the bias; then, only when the chain is
    not in an inactivity leak, it decreases by min(score, recoveryRate).
    The new score is written to the record and to the persisted list; a
    validator that is not eligible keeps its record and its persisted
    score. Consequently, during a leak the score of a validator without a
    correct target vote increases by exactly the bias, with nothing taken
    off. *)
Theorem ProcessInactivityScores_update cfg s vals :
  core.CurrentEpoch s <> GenesisEpoch ->
  (length vals <= length (state.InactivityScores s))%nat ->
  0 <= InactivityScoreRecoveryRate cfg ->
  Forall (fun v => uint64.inRange (InactivityScore v)) vals ->
  let bias := InactivityScoreBias cfg in
  let recoveryRate := InactivityScoreRecoveryRate cfg in
  let leak := helpers.IsInInactivityLeak cfg (core.PrevEpoch s)
                (state.FinalizedCheckpointEpoch s) in
  ProcessInactivityScores cfg s vals
  = Ok (state.SetInactivityScores s
          (zip_with (fun v score =>
                       if EligibleForRewards v
                       then spec.inactivityScore bias recoveryRate leak v
                       else score)
                    vals (state.InactivityScores s)
           ++ drop (length vals) (state.InactivityScores s)),
        map (fun v =>
               if EligibleForRewards v
               then set_InactivityScore v (spec.inactivityScore bias recoveryRate leak v)
               else v)
            vals) /\
  (leak = true ->
   forall v, IsPrevEpochTargetAttester v = false ->
             0 <= bias -> 0 <= InactivityScore v ->
             InactivityScore v + bias < uint64.modulus ->
             spec.inactivityScore bias recoveryRate leak v = InactivityScore v + bias).
Proof.
  intros Hg Hlen Hrr Hrange bias recoveryRate leak. split.
  - unfold ProcessInactivityScores.
    destruct (Z.eqb_spec (core.CurrentEpoch s) GenesisEpoch) as [E|_]; [contradiction|].
    cbv zeta. subst bias recoveryRate leak.
    pose proof (inactivity_loop (InactivityScoreBias cfg) (InactivityScoreRecoveryRate cfg)
                  (helpers.IsInInactivityLeak cfg (core.PrevEpoch s)
                     (state.FinalizedCheckpointEpoch s))
                  vals [] [] (state.InactivityScores s) eq_refl Hlen) as Hloop.
    cbn [app length] in Hloop. rewrite Hloop.
    cbn [mbind result_bind app]. do 2 f_equal.
    + f_equal. f_equal.
      apply (zip_with_ext_Forall _ _ _ _ _ Hrange). intros v sc Hv.
      destruct (EligibleForRewards v); [|reflexivity].
      rewrite (updateInactivityScore_spec _ _ _ _ Hv Hrr). destruct v; reflexivity.
    + apply (map_ext_Forall _ _ _ _ Hrange). intros v Hv.
      destruct (EligibleForRewards v); [|reflexivity].
      apply (updateInactivityScore_spec _ _ _ _ Hv Hrr).
  - intros Hleak v Htgt Hbias Hscore Hsum. rewrite Hleak.
    unfold spec.inactivityScore. rewrite Htgt. cbn [andb].
    unfold uint64.add. apply uint64_wrap_small. unfold uint64.inRange. lia.
Qed.

Lemma ProcessInactivityScores_update_witness :
  ProcessInactivityScores examples.mainnet examples.leakState
    [examples.idleScored; examples.exitedValidator]
  = Ok (state.SetInactivityScores examples.leakState [12; 0],
        [set_InactivityScore examples.idleScored 12; examples.exitedValidator]) /\
  spec.inactivityScore 4 16 true examples.idleScored = 8 + 4.
Proof.
  pose proof (ProcessInactivityScores_update examples.mainnet examples.leakState
                [examples.idleScored; examples.exitedValidator]) as H.
  cbv zeta in H.
  destruct H as [H1 H2].
  - vm_compute. discriminate.
  - cbn. lia.
  - cbn. lia.
  - repeat constructor; vm_compute; discriminate.
  - split.
    + exact H1.
    + apply (H2 eq_refl examples.idleScored eq_refl).
      * cbn. lia.
      * cbn. lia.
      * vm_compute. reflexivity.
Defined.

(** ** Length guards and slice accesses *)

Lemma index_lt {A} (l : list A) (i : nat) :
  (i < length l)%nat -> exists x, index l i = Ok x.
Proof.
  intros H. unfold index. destruct (lookup_lt_is_Some_2 l i H) as [x ->]. eauto.
Qed.

Lemma store_lt {A} (l : list A) (i : nat) (x : A) :
  (i < length l)%nat -> store l i x = Ok (<[i:=x]> l).
Proof. intros H. unfold store. destruct (decide _); [reflexivity|lia]. Qed.

(** Reads and writes inside the bounds go through. *)
Ltac run_accesses :=
  repeat first
    [ rewrite store_lt by (rewrite ?length_insert; lia)
    | progress cbn [mbind result_bind]
    | match goal with
      | |- context [index ?l ?i] =>
          let x := fresh "x" in
          let Hx := fresh "Hx" in
          destruct (index_lt l i) as [x Hx];
          [rewrite ?length_insert; lia | rewrite Hx; clear Hx]
      end ].

(** The loop of InitializeEpochValidators, from any index on, with
    enough scores and enough room in [pValidators]. *)
Lemma initialize_loop currentEpoch prevEpoch (scores : list Z) (l : list ethpb.Validator) :
  forall (i : nat) (pValidators : list Validator) (bal : Balance),
    (i + length l <= length scores)%nat ->
    (i + length l <= length pValidators)%nat ->
    exists r, forRange (initializeValidator currentEpoch prevEpoch scores) i l
                       (pValidators, bal) = Ok r.
Proof.
  induction l as [|val l IH]; intros i pv bal Hs Hp; cbn [forRange]; [eauto|].
  cbn [length] in Hs, Hp.
  assert (Hstep : exists pv' bal',
             initializeValidator currentEpoch prevEpoch scores i val (pv, bal)
             = Ok (pv', bal') /\ length pv' = length pv).
  { unfold initializeValidator.
    destruct (index_lt scores i) as [sc Hsc]; [lia|]. rewrite Hsc.
    cbn [mbind result_bind].
    repeat (destruct (helpers.IsActiveValidatorUsingTrie _ _));
      rewrite store_lt by lia; cbn [mbind result_bind];
      eexists _, _; (split; [reflexivity|apply length_insert]). }
  destruct Hstep as (pv' & bal' & -> & Hlen). cbn [mbind result_bind].
  apply IH; lia.
Qed.

(** attestationDelta reads no slice and returns no error: it returns a
    pair or stops in a division by zero. *)
Lemma attestationDelta_outcome cfg bal v brm idn leak :
  (exists d, attestationDelta cfg bal v brm idn leak = Ok d) \/
  attestationDelta cfg bal v brm idn leak = Panic DivideByZero.
Proof.
  unfold attestationDelta, uint64.div, mbind, result_bind.
  repeat (case_match; simplify_eq/=); eauto.
Qed.

(** The loop of AttestationsDelta with room for every validator in
    [rewards] and [penalties]. *)
Lemma AttestationsDelta_loop cfg bal brm idn leak (l : list Validator) :
  forall (i : nat) (rewards penalties : list Z),
    (i + length l <= length rewards)%nat ->
    (i + length l <= length penalties)%nat ->
    let loop :=
      forRange
        (fun i v '(rewards, penalties) =>
           '(r, p) ← attestationDelta cfg bal v brm idn leak;
           rewards' ← store rewards i r;
           penalties' ← store penalties i p;
           Ok (rewards', penalties'))
        i l (rewards, penalties) in
    (exists rewards' penalties',
        loop = Ok (rewards', penalties') /\
        length rewards' = length rewards /\ length penalties' = length penalties) \/
    loop = Panic DivideByZero.
Proof.
  induction l as [|v l IH]; intros i rw pn Hr Hp; cbn [forRange]; [left; eauto|].
  cbn [length] in Hr, Hp.
  destruct (attestationDelta_outcome cfg bal v brm idn leak) as [[[r p] ->]| ->];
    cbn [mbind result_bind]; [|right; reflexivity].
  rewrite !store_lt by lia. cbn [mbind result_bind].
  destruct (IH (S i) (<[i:=r]> rw) (<[i:=p]> pn)) as [(rw' & pn' & -> & Hrw & Hpn)| ->];
    rewrite ?length_insert; try lia; [left|right; reflexivity].
  rewrite !length_insert in Hrw, Hpn. eauto.
Qed.

(** The balance loop of ProcessRewardsAndPenaltiesPrecompute with every
    index inside the four slices. *)
Lemma applyDelta_loop (attsRewards attsPenalties : list Z) (n : nat) :
  forall (lo : nat) (vals : list Validator) (balances : list Z),
    (lo + n <= length vals)%nat -> (lo + n <= length balances)%nat ->
    (lo + n <= length attsRewards)%nat -> (lo + n <= length attsPenalties)%nat ->
    exists r, forLoop (applyDelta attsRewards attsPenalties) lo n (vals, balances) = Ok r.
Proof.
  induction n as [|n IH]; intros lo vals balances Hv Hb Hr Hp; cbn [forLoop]; [eauto|].
  assert (Hstep : exists vals' balances',
             applyDelta attsRewards attsPenalties lo (vals, balances)
             = Ok (vals', balances') /\
             length vals' = length vals /\ length balances' = length balances).
  { unfold applyDelta. run_accesses.
    eexists _, _. split; [reflexivity|]. rewrite !length_insert. auto. }
  destruct Hstep as (vals' & balances' & -> & Hv' & Hb'). cbn [mbind result_bind].
  apply IH; lia.
Qed.

(** ProcessEpochParticipation reads [vals] at the index of a participation
    byte without a test of the lengths: in a state with more current-epoch
    participation bytes than validators, the records InitializeEpochValidators
    built are read past their end. *)
Lemma ProcessEpochParticipation_index_out_of_range :
  exists vals bal,
    InitializeEpochValidators examples.longParticipationState = Ok (vals, bal) /\
    ProcessEpochParticipation examples.mainnet examples.longParticipationState bal vals
    = Panic IndexOutOfRange.
Proof. eexists _, _. split; reflexivity. Qed.

(** C2 (as amended). InitializeEpochValidators fails with a consistency
    error when the inactivity-score list is shorter than the validator
    registry. ProcessRewardsAndPenaltiesPrecompute, outside the genesis
    epoch, fails with a consistency error when the precompute-list length
    differs from the validator count or from the balance-list length; at
    the genesis epoch it returns before it compares the lengths. Neither of
    the two steps ever reads or writes a slice past its end. *)
Theorem registry_length_guards cfg s bal vals :
  ((length (state.InactivityScores s) < state.NumValidators s)%nat ->
   InitializeEpochValidators s = Err ErrInactivityScoresLength) /\
  (core.CurrentEpoch s <> GenesisEpoch ->
   length vals <> state.NumValidators s \/ length vals <> state.BalancesLength s ->
   ProcessRewardsAndPenaltiesPrecompute cfg s bal vals = Err ErrRegistryLength) /\
  InitializeEpochValidators s <> Panic IndexOutOfRange /\
  ProcessRewardsAndPenaltiesPrecompute cfg s bal vals <> Panic IndexOutOfRange.
Proof.
  split; [|split; [|split]].
  - intros Hshort. unfold InitializeEpochValidators.
    destruct (decide _); [reflexivity|contradiction].
  - intros Hg Hlen. unfold ProcessRewardsAndPenaltiesPrecompute.
    destruct (Z.eqb_spec (core.CurrentEpoch s) 0) as [E|_]; [contradiction|].
    destruct (decide _); [reflexivity|contradiction].
  - unfold InitializeEpochValidators, state.ReadFromEveryValidator.
    destruct (decide _) as [|Hge]; [discriminate|].
    destruct (initialize_loop (core.CurrentEpoch s) (core.PrevEpoch s)
                (state.InactivityScores s) (state.Validators s) 0
                (replicate (state.NumValidators s) zeroValidator) zeroBalance)
      as [r Hr].
    + unfold state.NumValidators in Hge. lia.
    + rewrite length_replicate. unfold state.NumValidators. lia.
    + cbv zeta. rewrite Hr. discriminate.
  - unfold ProcessRewardsAndPenaltiesPrecompute.
    destruct (core.CurrentEpoch s =? 0); [discriminate|].
    destruct (decide _) as [|Hlen]; [discriminate|].
    assert (Hv : length vals = state.NumValidators s) by (apply dec_stable; tauto).
    assert (Hb : length vals = state.BalancesLength s) by (apply dec_stable; tauto).
    unfold AttestationsDelta.
    destruct (uint64.div _ _) as [brm| |p] eqn:Hdiv; cbn [mbind result_bind];
      [|discriminate|].
    + cbv zeta.
      match goal with
      | |- context [forRange ?f ?i ?l ?acc] =>
          destruct (AttestationsDelta_loop cfg bal brm
                      (uint64.mul (InactivityScoreBias cfg)
                         (InactivityPenaltyQuotientAltair cfg))
                      (helpers.IsInInactivityLeak cfg (core.PrevEpoch s)
                         (state.FinalizedCheckpointEpoch s))
                      vals 0
                      (replicate (state.NumValidators s) 0)
                      (replicate (state.NumValidators s) 0))
            as [(rw & pn & Hloop & Hrw & Hpn)|Hloop]
      end.
      * rewrite length_replicate. lia.
      * rewrite length_replicate. lia.
      * cbv zeta in Hloop. rewrite Hloop. cbn [mbind result_bind].
        rewrite length_replicate in Hrw, Hpn.
        destruct (applyDelta_loop rw pn (state.NumValidators s) 0 vals (state.Balances s))
          as [[vals' balances'] Hr]; unfold state.BalancesLength in Hb; try lia.
        rewrite Hr. discriminate.
      * cbv zeta in Hloop. rewrite Hloop. discriminate.
    + unfold uint64.div in Hdiv. destruct (_ =? 0); congruence.
Qed.

Lemma registry_length_guards_witness :
  InitializeEpochValidators examples.shortScoresState = Err ErrInactivityScoresLength /\
  ProcessRewardsAndPenaltiesPrecompute examples.mainnet examples.slashingState
    examples.twoActive [] = Err ErrRegistryLength.
Proof.
  split.
  - apply (registry_length_guards examples.mainnet examples.shortScoresState
             examples.twoActive []).
    cbn. lia.
  - apply (registry_length_guards examples.mainnet examples.slashingState
             examples.twoActive []).
    + cbn. discriminate.
    + left. cbn. lia.
Defined.

(** C2 as the specification words it fails on both counts. At the genesis
    epoch ProcessRewardsAndPenaltiesPrecompute returns without an error
    although the precompute list is shorter than the registry; and in a
    state with more current-epoch participation bytes than validators the
    participation-flag resolution reads the precompute list past its end. *)
Lemma length_mismatch_counterexample :
  (length (@nil Validator) <> state.NumValidators examples.genesisState /\
   ProcessRewardsAndPenaltiesPrecompute examples.mainnet examples.genesisState
     examples.twoActive [] = Ok (examples.genesisState, [])) /\
  (length (state.CurrentEpochParticipation examples.longParticipationState)
   <> state.NumValidators examples.longParticipationState /\
   exists vals bal,
     InitializeEpochValidators examples.longParticipationState = Ok (vals, bal) /\
     ProcessEpochParticipation examples.mainnet examples.longParticipationState bal vals
     = Panic IndexOutOfRange).
Proof.
  split; split; try (cbn; discriminate).
  - reflexivity.
  - eexists _, _. split; reflexivity.
Qed.

(** * Further properties of the code *)

(** ** attestationDelta: leak and full attendance *)

(** X1. While the chain is in an inactivity leak attestationDelta grants no
    reward to anybody: every reward branch is under [!inactivityLeak].
    Whenever the call returns the reward is 0, and it returns as soon as
    the increment, the weight denominator and the inactivity denominator
    are not zero. *)
Theorem attestationDelta_leak_no_reward cfg bal v brm idn :
  (forall r p, attestationDelta cfg bal v brm idn true = Ok (r, p) -> r = 0) /\
  (EffectiveBalanceIncrement cfg <> 0 -> WeightDenominator cfg <> 0 -> idn <> 0 ->
   exists p, attestationDelta cfg bal v brm idn true = Ok (0, p)).
Proof.
  split.
  - intros r p. unfold attestationDelta, uint64.div, mbind, result_bind.
    cbn [negb].
    repeat (case_match; simplify_eq/=; try reflexivity; try congruence).
  - intros Hinc Hwd Hidn. unfold attestationDelta. cbv zeta. cbn [negb].
    destruct (negb _ || _); [eauto|].
    run_divisions; eauto.
Qed.

Lemma attestationDelta_leak_no_reward_witness :
  exists p,
    attestationDelta examples.mainnet examples.twoActive scenarios.fullVoter
      examples.multiplierOfTwoActive examples.mainnetInactivityDenominator true
    = Ok (0, p).
Proof.
  apply (attestationDelta_leak_no_reward examples.mainnet examples.twoActive
           scenarios.fullVoter examples.multiplierOfTwoActive
           examples.mainnetInactivityDenominator);
    [cbn; lia | cbn; lia | unfold examples.mainnetInactivityDenominator; lia].
Defined.

(** X2. A validator that is not slashed and cast a correct source vote and
    a correct target vote is charged nothing, in a leak or out of it,
    with or without a head vote, whatever its inactivity score is. *)
Theorem attestationDelta_full_attendance_no_penalty cfg bal v brm idn leak :
  IsSlashed v = false ->
  IsPrevEpochAttester v = true ->
  IsPrevEpochTargetAttester v = true ->
  (forall r p, attestationDelta cfg bal v brm idn leak = Ok (r, p) -> p = 0) /\
  (spec.deltaDivisorsNonZero cfg bal idn ->
   exists r, attestationDelta cfg bal v brm idn leak = Ok (r, 0)).
Proof.
  intros Hs Ha Ht.
  assert (Hp : spec.attestationPenalty cfg bal v brm idn = 0).
  { unfold spec.attestationPenalty. rewrite Hs, Ha, Ht. cbn [negb andb orb].
    destruct (negb _ || _); reflexivity. }
  split.
  - intros r p H. apply attestationDelta_penalty in H. congruence.
  - intros Hd.
    destruct (attestationDelta_returns cfg bal v brm idn leak Hd) as (r & p & H).
    exists r. rewrite H. apply attestationDelta_penalty in H. congruence.
Qed.

Lemma attestationDelta_full_attendance_no_penalty_witness :
  exists r,
    attestationDelta examples.mainnet examples.twoActive scenarios.fullVoter
      examples.multiplierOfTwoActive examples.mainnetInactivityDenominator false
    = Ok (r, 0).
Proof.
  apply (attestationDelta_full_attendance_no_penalty examples.mainnet
           examples.twoActive scenarios.fullVoter examples.multiplierOfTwoActive
           examples.mainnetInactivityDenominator false);
    [reflexivity | reflexivity | reflexivity |].
  repeat split; vm_compute; discriminate.
Defined.

(** The reward attestationDelta computes, whenever it computes one, is
    the one of [expected.attestationReward]. *)
Lemma attestationDelta_reward cfg bal v brm idn leak r p :
  attestationDelta cfg bal v brm idn leak = Ok (r, p) ->
  r = expected.attestationReward cfg bal v brm leak.
Proof.
  unfold attestationDelta, expected.attestationReward, expected.categoryReward,
    uint64.div, mbind, result_bind.
  intros H.
  destruct leak, (IsSlashed v); cbn [negb andb orb] in *;
    rewrite ?andb_false_r, ?andb_true_r, ?orb_false_r in *;
    repeat (case_match; simplify_eq/=; try reflexivity; try congruence).
Qed.

Lemma uint64_add_small (a b : Z) :
  0 <= a -> 0 <= b -> a + b < uint64.modulus -> uint64.add a b = a + b.
Proof.
  intros Ha Hb Hs. unfold uint64.add. apply uint64_wrap_small.
  unfold uint64.inRange. lia.
Qed.

Lemma uint64_mul_small (a b : Z) :
  0 <= a -> 0 <= b -> a * b < uint64.modulus -> uint64.mul a b = a * b.
Proof.
  intros Ha Hb Hs. unfold uint64.mul. apply uint64_wrap_small.
  unfold uint64.inRange. nia.
Qed.

(** One category reward is at most its share [W / D] of the base reward,
    in the form [D * A * reward <= baseReward * W * A]. *)
Lemma categoryReward_bound cfg bal (B W att : Z) :
  0 < EffectiveBalanceIncrement cfg -> 0 < WeightDenominator cfg ->
  0 <= W <= WeightDenominator cfg -> 0 <= B ->
  0 <= att <= ActiveCurrentEpoch bal ->
  ActiveCurrentEpoch bal / EffectiveBalanceIncrement cfg * WeightDenominator cfg
  < uint64.modulus ->
  B * WeightDenominator cfg * (ActiveCurrentEpoch bal / EffectiveBalanceIncrement cfg)
  < uint64.modulus ->
  0 <= expected.categoryReward cfg bal B W att /\
  (ActiveCurrentEpoch bal / EffectiveBalanceIncrement cfg = 0 ->
   expected.categoryReward cfg bal B W att = 0) /\
  ActiveCurrentEpoch bal / EffectiveBalanceIncrement cfg * WeightDenominator cfg
  * expected.categoryReward cfg bal B W att
  <= B * W * (ActiveCurrentEpoch bal / EffectiveBalanceIncrement cfg).
Proof.
  unfold expected.categoryReward.
  set (inc := EffectiveBalanceIncrement cfg). set (wd := WeightDenominator cfg).
  set (A := ActiveCurrentEpoch bal / inc).
  intros Hinc Hwd HW HB Hatt HD HN.
  assert (HA : 0 <= A) by (apply Z.div_pos; lia).
  assert (Ha : 0 <= att / inc <= A).
  { split; [apply Z.div_pos; lia|apply Z.div_le_mono; lia]. }
  rewrite (uint64_mul_small A wd) by nia.
  destruct (Z.eq_dec A 0) as [E|NE].
  - rewrite E. cbn [Z.mul]. rewrite Z.div_0_r. repeat split; try lia.
  - assert (HBW : B * W <= B * wd) by nia.
    assert (HBwd : B * wd <= B * wd * A) by nia.
    rewrite (uint64_mul_small B W) by nia.
    assert (HN' : B * W * (att / inc) <= B * W * A) by nia.
    rewrite (uint64_mul_small (B * W) (att / inc)) by nia.
    split; [apply Z.div_pos; nia|]. split; [contradiction|].
    pose proof (Z.mul_div_le (B * W * (att / inc)) (A * wd)). nia.
Qed.

(** X3. The reward of attestationDelta never exceeds the validator's base
    reward [effectiveBalance / increment * baseRewardMultiplier], provided
    the three weights add up to at most the weight denominator, no attested
    balance exceeds the active balance, and the products of the formula fit
    in 64 bits. *)
Theorem attestationDelta_reward_bound cfg bal v brm idn leak r p :
  let inc := EffectiveBalanceIncrement cfg in
  let wd := WeightDenominator cfg in
  let A := ActiveCurrentEpoch bal / inc in
  let B := CurrentEpochEffectiveBalance v / inc * brm in
  0 < inc -> 0 < wd ->
  0 <= TimelySourceWeight cfg -> 0 <= TimelyTargetWeight cfg ->
  0 <= TimelyHeadWeight cfg ->
  TimelySourceWeight cfg + TimelyTargetWeight cfg + TimelyHeadWeight cfg <= wd ->
  0 <= PrevEpochAttested bal <= ActiveCurrentEpoch bal ->
  0 <= PrevEpochTargetAttested bal <= ActiveCurrentEpoch bal ->
  0 <= PrevEpochHeadAttested bal <= ActiveCurrentEpoch bal ->
  0 <= CurrentEpochEffectiveBalance v -> 0 <= brm ->
  B < uint64.modulus -> A * wd < uint64.modulus -> B * wd * A < uint64.modulus ->
  attestationDelta cfg bal v brm idn leak = Ok (r, p) ->
  0 <= r <= B.
Proof.
  intros inc wd A B Hinc Hwd Hs Ht Hh Hsum Has Hat Hah Heff Hbrm HB HD HN H.
  apply attestationDelta_reward in H. subst r.
  assert (HB0 : 0 <= B) by (apply Z.mul_nonneg_nonneg; [apply Z.div_pos; lia|lia]).
  assert (HA0 : 0 <= A) by (apply Z.div_pos; lia).
  pose proof (categoryReward_bound cfg bal B (TimelySourceWeight cfg)
                (PrevEpochAttested bal) Hinc Hwd ltac:(fold wd; lia) HB0 Has HD HN)
    as (Hs0 & Hsz & Hsb).
  pose proof (categoryReward_bound cfg bal B (TimelyTargetWeight cfg)
                (PrevEpochTargetAttested bal) Hinc Hwd ltac:(fold wd; lia) HB0 Hat HD HN)
    as (Ht0 & Htz & Htb).
  pose proof (categoryReward_bound cfg bal B (TimelyHeadWeight cfg)
                (PrevEpochHeadAttested bal) Hinc Hwd ltac:(fold wd; lia) HB0 Hah HD HN)
    as (Hh0 & Hhz & Hhb).
  fold inc wd in Hsz, Htz, Hhz, Hsb, Htb, Hhb.
  fold A in Hsz, Htz, Hhz, Hsb, Htb, Hhb.
  unfold expected.attestationReward. fold inc.
  destruct (negb _ || _); [lia|]. destruct (leak || IsSlashed v); [lia|].
  cbv zeta.
  rewrite (uint64_mul_small _ brm) by (fold B; try lia; apply Z.div_pos; lia).
  fold B.
  set (rs := expected.categoryReward cfg bal B (TimelySourceWeight cfg)
               (PrevEpochAttested bal)) in *.
  set (rt := expected.categoryReward cfg bal B (TimelyTargetWeight cfg)
               (PrevEpochTargetAttested bal)) in *.
  set (rh := expected.categoryReward cfg bal B (TimelyHeadWeight cfg)
               (PrevEpochHeadAttested bal)) in *.
  assert (Hall : rs + rt + rh <= B).
  { destruct (Z.eq_dec A 0) as [E|NE]; [rewrite Hsz, Htz, Hhz by exact E; lia|].
    assert (0 < A * wd) by nia.
    apply (Z.mul_le_mono_pos_l _ _ (A * wd)); [lia|]. nia. }
  destruct (IsPrevEpochAttester v), (IsPrevEpochTargetAttester v),
    (IsPrevEpochHeadAttester v);
    rewrite ?uint64_add_small; rewrite ?uint64_add_small; rewrite ?uint64_add_small;
    lia.
Qed.

Lemma attestationDelta_reward_bound_witness :
  0 <= 3415257 <= 32000000000 / 1000000000 * examples.multiplierOfTwoActive.
Proof.
  apply (attestationDelta_reward_bound examples.mainnet examples.twoActive
           scenarios.fullVoter examples.multiplierOfTwoActive
           examples.mainnetInactivityDenominator false 3415257 0);
    repeat split; vm_compute; try reflexivity; discriminate.
Defined.

(** ** The inactivity score over several epochs, and out of range *)

Lemma spec_inactivityScore_set (bias recoveryRate : Z) (leak : bool)
    (v : Validator) (x : Z) :
  spec.inactivityScore bias recoveryRate leak (set_InactivityScore v x)
  = (let score :=
       if IsPrevEpochTargetAttester v && negb (IsSlashed v)
       then Z.max 0 (x - 1) else uint64.add x bias in
     if leak then score else score - Z.min score recoveryRate).
Proof. reflexivity. Qed.

(** [n] consecutive updates of a record whose score is [x] at the start,
    when every update gives the score [next]. *)
Lemma updateInactivityScore_iter (bias recoveryRate : Z) (leak : bool)
    (v : Validator) (f : nat -> Z) (n : nat) :
  0 <= recoveryRate ->
  f 0%nat = InactivityScore v ->
  (forall k, (k < n)%nat ->
     uint64.inRange (f k) /\
     spec.inactivityScore bias recoveryRate leak (set_InactivityScore v (f k)) = f (S k)) ->
  Nat.iter n (updateInactivityScore bias recoveryRate leak) v
  = set_InactivityScore v (f n).
Proof.
  intros Hrr H0 Hstep. induction n as [|n IH].
  - cbn. rewrite H0. symmetry. apply set_InactivityScore_same.
  - rewrite Nat.iter_succ. rewrite IH by (intros k Hk; apply Hstep; lia).
    destruct (Hstep n) as [Hr Hn]; [lia|].
    rewrite updateInactivityScore_spec by (try exact Hrr; destruct v; exact Hr).
    rewrite Hn. destruct v; reflexivity.
Qed.

(** X4. A validator that is not slashed and casts a correct target vote in
    each of [n] consecutive updates of its inactivity score ends with the
    score max(0, score - n * d), where d is 1 during a leak and
    1 + recoveryRate outside: the score falls to 0 and stays there, and no
    decrement ever wraps around. *)
Theorem updateInactivityScore_recovers (bias recoveryRate : Z) (leak : bool)
    (v : Validator) (n : nat) :
  IsPrevEpochTargetAttester v = true -> IsSlashed v = false ->
  uint64.inRange (InactivityScore v) -> 0 <= recoveryRate ->
  InactivityScore (Nat.iter n (updateInactivityScore bias recoveryRate leak) v)
  = Z.max 0 (InactivityScore v
             - Z.of_nat n * (1 + (if leak then 0 else recoveryRate))).
Proof.
  intros Ht Hs Hr Hrr.
  rewrite (updateInactivityScore_iter bias recoveryRate leak v
             (fun k => Z.max 0 (InactivityScore v
                                - Z.of_nat k * (1 + (if leak then 0 else recoveryRate))))
             n Hrr).
  - destruct v; reflexivity.
  - unfold uint64.inRange in Hr. cbn. lia.
  - intros k _. unfold uint64.inRange in *. split.
    + destruct leak; nia.
    + rewrite spec_inactivityScore_set, Ht, Hs. cbn [andb negb]. cbv zeta.
      destruct leak; nia.
Qed.

Lemma updateInactivityScore_recovers_witness :
  InactivityScore (Nat.iter 3 (updateInactivityScore 4 16 false) scenarios.fullVoter)
  = Z.max 0 (40 - Z.of_nat 3 * (1 + 16)).
Proof.
  apply (updateInactivityScore_recovers 4 16 false scenarios.fullVoter 3);
    [reflexivity | reflexivity | | lia].
  split; vm_compute; [discriminate|reflexivity].
Defined.

(** X5. During a leak a validator without a correct target vote, or a
    slashed one, gains the bias in each of [n] consecutive updates: its
    score is score + n * bias, as long as that fits in 64 bits. *)
Theorem updateInactivityScore_leak_grows (bias recoveryRate : Z)
    (v : Validator) (n : nat) :
  IsPrevEpochTargetAttester v && negb (IsSlashed v) = false ->
  0 <= bias -> 0 <= recoveryRate -> 0 <= InactivityScore v ->
  InactivityScore v + Z.of_nat n * bias < uint64.modulus ->
  InactivityScore (Nat.iter n (updateInactivityScore bias recoveryRate true) v)
  = InactivityScore v + Z.of_nat n * bias.
Proof.
  intros Hmiss Hb Hrr H0 Hfit.
  rewrite (updateInactivityScore_iter bias recoveryRate true v
             (fun k => InactivityScore v + Z.of_nat k * bias) n Hrr).
  - destruct v; reflexivity.
  - cbn. lia.
  - intros k Hk. unfold uint64.inRange. split; [nia|].
    rewrite spec_inactivityScore_set, Hmiss. cbv zeta.
    rewrite uint64_add_small by nia. lia.
Qed.

Lemma updateInactivityScore_leak_grows_witness :
  InactivityScore (Nat.iter 5 (updateInactivityScore 4 16 true) examples.idleScored)
  = 8 + Z.of_nat 5 * 4.
Proof.
  apply (updateInactivityScore_leak_grows 4 16 examples.idleScored 5);
    [reflexivity | lia | lia | cbn; lia | vm_compute; reflexivity].
Defined.

(** The loop of ProcessInactivityScores keeps the length of the score
    list, and stops with an index out of range at an eligible record
    whose index the score list does not have. *)
Lemma inactivity_loop_out_of_range (bias recoveryRate : Z) (leak : bool)
    (l : list Validator) :
  forall (i k : nat) (v : Validator) (vals : list Validator) (scores : list Z),
    l !! k = Some v -> EligibleForRewards v = true ->
    (length scores <= i + k)%nat ->
    forRange (inactivityScoresBody bias recoveryRate leak) i l (vals, scores)
    = Panic IndexOutOfRange.
Proof.
  induction l as [|w l IH]; intros i k v vals scores Hk He Hlen; [discriminate|].
  cbn [forRange]. destruct k as [|k].
  - cbn in Hk. injection Hk as ->.
    unfold inactivityScoresBody. rewrite He. cbn [negb]. unfold store.
    destruct (decide _); [lia|]. reflexivity.
  - cbn in Hk.
    assert (Hstep :
              (exists vals' scores',
                  inactivityScoresBody bias recoveryRate leak i w (vals, scores)
                  = Ok (vals', scores') /\ length scores' = length scores) \/
              inactivityScoresBody bias recoveryRate leak i w (vals, scores)
              = Panic IndexOutOfRange).
    { unfold inactivityScoresBody.
      destruct (negb (EligibleForRewards w)); [left; eauto|].
      unfold store. destruct (decide _); cbn [mbind result_bind];
        [left; eexists _, _; split; [reflexivity|apply length_insert]
        |right; reflexivity]. }
    destruct Hstep as [(vals' & scores' & -> & Hl)| ->]; cbn [mbind result_bind];
      [|reflexivity].
    apply (IH (S i) k v); [exact Hk|exact He|lia].
Qed.

(** X6. ProcessInactivityScores does not compare the length of the records
    with the length of the score list: outside the genesis epoch, an
    eligible record at an index the persisted score list does not have
    stops the call with an index out of range. *)
Theorem ProcessInactivityScores_index_out_of_range cfg s vals (k : nat) (v : Validator) :
  core.CurrentEpoch s <> GenesisEpoch ->
  vals !! k = Some v -> EligibleForRewards v = true ->
  (length (state.InactivityScores s) <= k)%nat ->
  ProcessInactivityScores cfg s vals = Panic IndexOutOfRange.
Proof.
  intros Hg Hk He Hlen. unfold ProcessInactivityScores.
  destruct (Z.eqb_spec (core.CurrentEpoch s) GenesisEpoch) as [E|_]; [contradiction|].
  cbv zeta.
  rewrite (inactivity_loop_out_of_range _ _ _ vals 0 k v); [reflexivity| | |];
    assumption.
Qed.

Lemma ProcessInactivityScores_index_out_of_range_witness :
  ProcessInactivityScores examples.mainnet examples.shortScoresState
    [examples.idleScored] = Panic IndexOutOfRange.
Proof.
  apply (ProcessInactivityScores_index_out_of_range examples.mainnet
           examples.shortScoresState [examples.idleScored] 0 examples.idleScored);
    [cbn; discriminate | reflexivity | reflexivity | cbn; lia].
Defined.

(** ** The snapshot of InitializeEpochValidators *)

(** The loop of InitializeEpochValidators, from any index on: the slots
    of [pValidators] still to fill receive the records of the validators
    still to visit, and the two totals grow by their effective balances. *)
Lemma initialize_loop_records (currentEpoch prevEpoch : Z) (l : list ethpb.Validator) :
  forall (filled slots : list Validator) (sdone srest : list Z) (bal : Balance),
    length filled = length sdone ->
    length slots = length l ->
    (length l <= length srest)%nat ->
    forRange (initializeValidator currentEpoch prevEpoch (sdone ++ srest))
             (length filled) l (filled ++ slots, bal)
    = Ok (filled ++ zip_with (expected.precomputed currentEpoch prevEpoch) l srest,
          {| ActiveCurrentEpoch :=
               expected.activeBalanceFrom (ActiveCurrentEpoch bal) currentEpoch l;
             ActivePrevEpoch :=
               expected.activeBalanceFrom (ActivePrevEpoch bal) prevEpoch l;
             PrevEpochAttested := PrevEpochAttested bal;
             PrevEpochTargetAttested := PrevEpochTargetAttested bal;
             PrevEpochHeadAttested := PrevEpochHeadAttested bal |}).
Proof.
  induction l as [|val l IH]; intros filled slots sdone srest bal Hf Hs Hl.
  - destruct slots; [|discriminate]. destruct bal; reflexivity.
  - destruct slots as [|slot slots]; [discriminate|].
    destruct srest as [|sc srest]; [cbn in Hl; lia|].
    cbn [forRange zip_with].
    assert (Hstep : exists bal',
               initializeValidator currentEpoch prevEpoch (sdone ++ sc :: srest)
                 (length filled) val (filled ++ slot :: slots, bal)
               = Ok ((filled ++ [expected.precomputed currentEpoch prevEpoch val sc])
                       ++ slots, bal') /\
               ActiveCurrentEpoch bal'
               = expected.activeBalanceFrom (ActiveCurrentEpoch bal) currentEpoch [val] /\
               ActivePrevEpoch bal'
               = expected.activeBalanceFrom (ActivePrevEpoch bal) prevEpoch [val] /\
               PrevEpochAttested bal' = PrevEpochAttested bal /\
               PrevEpochTargetAttested bal' = PrevEpochTargetAttested bal /\
               PrevEpochHeadAttested bal' = PrevEpochHeadAttested bal).
    { assert (Hsc : (sdone ++ sc :: srest) !! length filled = Some sc)
        by (rewrite Hf; apply list_lookup_middle; reflexivity).
      unfold initializeValidator, index. rewrite Hsc.
      cbn [mbind result_bind]. unfold expected.precomputed, expected.activeBalanceFrom.
      cbn [foldl].
      destruct (helpers.IsActiveValidatorUsingTrie val currentEpoch),
        (helpers.IsActiveValidatorUsingTrie val prevEpoch);
        (rewrite store_lt by (rewrite length_app; cbn; lia));
        cbn [mbind result_bind];
        rewrite insert_app_r_alt by lia; rewrite Nat.sub_diag;
        cbn [insert list_insert]; rewrite <- app_assoc;
        eexists; (split; [reflexivity|]); repeat split. }
    destruct Hstep as (bal' & -> & Hc & Hp & Ha & Ht & Hh).
    cbn [mbind result_bind].
    replace (S (length filled))
      with (length (filled ++ [expected.precomputed currentEpoch prevEpoch val sc]))
      by (rewrite length_app; cbn; lia).
    replace (sdone ++ sc :: srest) with ((sdone ++ [sc]) ++ srest)
      by (rewrite <- app_assoc; reflexivity).
    rewrite IH.
    + rewrite <- app_assoc. cbn [app]. rewrite Hc, Hp, Ha, Ht, Hh. reflexivity.
    + rewrite !length_app. cbn. lia.
    + cbn in Hs. lia.
    + cbn in Hl. lia.
Qed.

(** X7. When the persisted inactivity-score list is at least as long as
    the registry, InitializeEpochValidators returns one record per
    validator, in registry order: slashed flag and effective balance
    copied, withdrawable as currentEpoch >= withdrawableEpoch, the two
    activity flags from the activation/exit bracket at the current and the
    previous epoch, the persisted score, and no attester flag set. The
    accumulator holds the uint64 sums of the effective balances of the
    validators active in the current and in the previous epoch, and zero
    attested balances. *)
Theorem InitializeEpochValidators_snapshot (st : state.BeaconState) :
  (state.NumValidators st <= length (state.InactivityScores st))%nat ->
  InitializeEpochValidators st
  = Ok (zip_with (expected.precomputed (core.CurrentEpoch st) (core.PrevEpoch st))
                 (state.Validators st) (state.InactivityScores st),
        {| ActiveCurrentEpoch :=
             expected.activeBalance (core.CurrentEpoch st) (state.Validators st);
           ActivePrevEpoch :=
             expected.activeBalance (core.PrevEpoch st) (state.Validators st);
           PrevEpochAttested := 0; PrevEpochTargetAttested := 0;
           PrevEpochHeadAttested := 0 |}).
Proof.
  intros Hlen. unfold InitializeEpochValidators, state.ReadFromEveryValidator.
  destruct (decide _) as [Hlt|_]; [lia|]. cbv zeta.
  exact (initialize_loop_records (core.CurrentEpoch st) (core.PrevEpoch st)
           (state.Validators st) []
           (replicate (state.NumValidators st) zeroValidator) []
           (state.InactivityScores st) zeroBalance eq_refl
           (length_replicate _ _) Hlen).
Qed.

Lemma InitializeEpochValidators_snapshot_witness :
  InitializeEpochValidators examples.slashingState
  = Ok ([expected.precomputed 10 9 (examples.slashedValidator 4106) 0;
         expected.precomputed 10 9 examples.honestValidator 0],
        {| ActiveCurrentEpoch := 32000000000; ActivePrevEpoch := 64000000000;
           PrevEpochAttested := 0; PrevEpochTargetAttested := 0;
           PrevEpochHeadAttested := 0 |}).
Proof.
  refine (eq_trans (InitializeEpochValidators_snapshot examples.slashingState _) _).
  - cbn. lia.
  - vm_compute. reflexivity.
Defined.

(** ** Participation-flag resolution *)

Section MarkLoop.
Variable relevant : Z -> bool.
Variable g : Z -> Validator -> Validator.
Variable body : nat -> Z -> list Validator -> result (list Validator).

(** The body reads and rewrites the record at its index when the byte is
    relevant, and does nothing otherwise. *)
Hypothesis body_normal : forall i b vals,
  body i b vals
  = if relevant b
    then match vals !! i with
         | Some v => Ok (<[i:=g b v]> vals)
         | None => Panic IndexOutOfRange
         end
    else Ok vals.
Hypothesis g_irrelevant : forall b v, relevant b = false -> g b v = v.

Lemma mark_loop_irrelevant (bytes : list Z) :
  (forall k b, bytes !! k = Some b -> relevant b = false) ->
  forall i vals, forRange body i bytes vals = Ok vals.
Proof.
  induction bytes as [|b bytes IH]; intros Hirr i vals; [reflexivity|].
  cbn [forRange]. rewrite body_normal, (Hirr 0%nat b eq_refl).
  cbn [mbind result_bind]. apply IH. intros k b' Hk. exact (Hirr (S k) b' Hk).
Qed.

(** A loop whose relevant bytes all have a record. *)
Lemma mark_loop (bytes : list Z) :
  forall (pre rest : list Validator),
    (forall k b, bytes !! k = Some b -> relevant b = true -> (k < length rest)%nat) ->
    forRange body (length pre) bytes (pre ++ rest)
    = Ok (pre ++ expected.markEach g bytes rest).
Proof.
  induction bytes as [|b bytes IH]; intros pre rest Hin; [reflexivity|].
  destruct rest as [|v rest].
  - cbn [expected.markEach]. apply mark_loop_irrelevant.
    intros k b' Hk. destruct (relevant b') eqn:Hr; [|reflexivity].
    specialize (Hin k b' Hk Hr). cbn in Hin. lia.
  - cbn [forRange expected.markEach].
    assert (Hstep : body (length pre) b (pre ++ v :: rest)
                    = Ok ((pre ++ [g b v]) ++ rest)).
    { rewrite body_normal. rewrite list_lookup_middle by reflexivity.
      rewrite <- app_assoc. cbn [app].
      destruct (relevant b) eqn:Hr.
      - rewrite insert_app_r_alt by lia. rewrite Nat.sub_diag. reflexivity.
      - rewrite (g_irrelevant _ _ Hr). reflexivity. }
    rewrite Hstep. cbn [mbind result_bind].
    replace (S (length pre)) with (length (pre ++ [g b v]))
      by (rewrite length_app; cbn; lia).
    rewrite IH.
    + rewrite <- app_assoc. reflexivity.
    + intros k b' Hk Hr. specialize (Hin (S k) b' Hk Hr). cbn in Hin. lia.
Qed.

(** A loop with a relevant byte at an index that has no record. *)
Lemma mark_loop_out_of_range (bytes : list Z) :
  forall (i k : nat) (b : Z) (vals : list Validator),
    bytes !! k = Some b -> relevant b = true ->
    (length vals <= i + k)%nat ->
    forRange body i bytes vals = Panic IndexOutOfRange.
Proof.
  induction bytes as [|b' bytes IH]; intros i k b vals Hk Hr Hlen; [discriminate|].
  cbn [forRange]. rewrite body_normal. destruct k as [|k].
  - cbn in Hk. injection Hk as ->. rewrite Hr.
    rewrite lookup_ge_None_2 by lia. reflexivity.
  - cbn in Hk. destruct (relevant b').
    + destruct (vals !! i); cbn [mbind result_bind]; [|reflexivity].
      apply (IH (S i) k b); [exact Hk|exact Hr|rewrite length_insert; lia].
    + cbn [mbind result_bind]. apply (IH (S i) k b); [exact Hk|exact Hr|lia].
Qed.

(** A loop returns records of the same number, or stops with an index
    out of range. *)
Lemma mark_loop_outcome (bytes : list Z) :
  forall (i : nat) (vals : list Validator),
    (exists vals', forRange body i bytes vals = Ok vals' /\
                   length vals' = length vals) \/
    forRange body i bytes vals = Panic IndexOutOfRange.
Proof.
  induction bytes as [|b bytes IH]; intros i vals; cbn [forRange]; [left; eauto|].
  rewrite body_normal. destruct (relevant b).
  - destruct (vals !! i); cbn [mbind result_bind]; [|right; reflexivity].
    destruct (IH (S i) (<[i:=g b v]> vals)) as [(vals' & -> & Hl)| ->];
      [left|right; reflexivity].
    rewrite length_insert in Hl. eauto.
  - cbn [mbind result_bind]. apply IH.
Qed.

Lemma length_markEach (bytes : list Z) (vals : list Validator) :
  length (expected.markEach g bytes vals) = length vals.
Proof.
  revert vals. induction bytes as [|b bytes IH]; intros [|v vals];
    cbn; try reflexivity. rewrite IH. reflexivity.
Qed.
End MarkLoop.

(** One flag statement on a record that exists. *)
Lemma markAttester_some flagIdx active setF (i : nat) (b : Z)
    (vals : list Validator) (v : Validator) :
  vals !! i = Some v ->
  markAttester flagIdx active setF i b vals
  = Ok (<[i:=expected.marked flagIdx active setF b v]> vals).
Proof.
  intros Hv. unfold markAttester, expected.marked, index. rewrite Hv.
  destruct (HasValidatorFlag b flagIdx); cbn [mbind result_bind andb].
  - destruct (active v).
    + apply store_lt. exact (lookup_lt_Some _ _ _ Hv).
    + rewrite (list_insert_id _ _ _ Hv). reflexivity.
  - rewrite (list_insert_id _ _ _ Hv). reflexivity.
Qed.

(** One flag statement at an index without a record. *)
Lemma markAttester_none flagIdx active setF (i : nat) (b : Z) (vals : list Validator) :
  vals !! i = None ->
  markAttester flagIdx active setF i b vals
  = if HasValidatorFlag b flagIdx then Panic IndexOutOfRange else Ok vals.
Proof.
  intros Hv. unfold markAttester, index. rewrite Hv.
  destruct (HasValidatorFlag b flagIdx); reflexivity.
Qed.

Lemma marked_unflagged flagIdx active setF (b : Z) (v : Validator) :
  HasValidatorFlag b flagIdx = false -> expected.marked flagIdx active setF b v = v.
Proof. intros H. unfold expected.marked. rewrite H. reflexivity. Qed.

(** The body of the first loop of ProcessEpochParticipation. *)
Lemma current_body_normal cfg (i : nat) (b : Z) (vals : list Validator) :
  markAttester (TimelyTargetFlagIndex cfg) IsActiveCurrentEpoch
    set_IsCurrentEpochTargetAttester i b vals
  = if HasValidatorFlag b (TimelyTargetFlagIndex cfg)
    then match vals !! i with
         | Some v => Ok (<[i:=expected.resolveCurrent cfg b v]> vals)
         | None => Panic IndexOutOfRange
         end
    else Ok vals.
Proof.
  destruct (vals !! i) as [v|] eqn:Hv.
  - rewrite (markAttester_some _ _ _ _ _ _ _ Hv).
    destruct (HasValidatorFlag b (TimelyTargetFlagIndex cfg)) eqn:Hf; [reflexivity|].
    rewrite (marked_unflagged _ _ _ _ _ Hf), (list_insert_id _ _ _ Hv). reflexivity.
  - apply (markAttester_none _ _ _ _ _ _ Hv).
Qed.

(** The body of the second loop: three flag statements in a row. *)
Lemma previous_body_normal cfg (i : nat) (b : Z) (vals : list Validator) :
  (vals ← markAttester (TimelySourceFlagIndex cfg) IsActivePrevEpoch
            set_IsPrevEpochAttester i b vals;
   vals ← markAttester (TimelyTargetFlagIndex cfg) IsActivePrevEpoch
            set_IsPrevEpochTargetAttester i b vals;
   markAttester (TimelyHeadFlagIndex cfg) IsActivePrevEpoch
     set_IsPrevEpochHeadAttester i b vals)
  = if expected.flagged cfg b
    then match vals !! i with
         | Some v => Ok (<[i:=expected.resolvePrevious cfg b v]> vals)
         | None => Panic IndexOutOfRange
         end
    else Ok vals.
Proof.
  destruct (vals !! i) as [v|] eqn:Hv.
  - pose proof (lookup_lt_Some _ _ _ Hv) as Hlt.
    rewrite (markAttester_some _ _ _ _ _ _ _ Hv). cbn [mbind result_bind].
    rewrite (markAttester_some _ _ _ _ _ _ _ (list_lookup_insert_eq _ _ _ Hlt)).
    cbn [mbind result_bind].
    rewrite (markAttester_some _ _ _ i b _ _
               (list_lookup_insert_eq _ _ _ ltac:(rewrite length_insert; exact Hlt))).
    rewrite !list_insert_insert_eq. fold (expected.resolvePrevious cfg b v).
    destruct (expected.flagged cfg b) eqn:Hf; [reflexivity|].
    unfold expected.flagged in Hf.
    apply orb_false_elim in Hf as [Hf Hh]. apply orb_false_elim in Hf as [Hs Ht].
    unfold expected.resolvePrevious.
    rewrite !marked_unflagged by assumption.
    rewrite (list_insert_id _ _ _ Hv). reflexivity.
  - unfold expected.flagged.
    rewrite (markAttester_none _ _ _ _ _ _ Hv).
    destruct (HasValidatorFlag b (TimelySourceFlagIndex cfg)); [reflexivity|].
    cbn [mbind result_bind orb]. rewrite (markAttester_none _ _ _ _ _ _ Hv).
    destruct (HasValidatorFlag b (TimelyTargetFlagIndex cfg)); [reflexivity|].
    cbn [mbind result_bind orb]. apply (markAttester_none _ _ _ _ _ _ Hv).
Qed.

Lemma resolvePrevious_unflagged cfg (b : Z) (v : Validator) :
  expected.flagged cfg b = false -> expected.resolvePrevious cfg b v = v.
Proof.
  unfold expected.flagged. intros Hf.
  apply orb_false_elim in Hf as [Hf Hh]. apply orb_false_elim in Hf as [Hs Ht].
  unfold expected.resolvePrevious. rewrite !marked_unflagged by assumption.
  reflexivity.
Qed.

(** The closed form of ProcessEpochParticipation. *)
Lemma participation_resolved cfg s bal vals :
  (forall i b, state.CurrentEpochParticipation s !! i = Some b ->
               HasValidatorFlag b (TimelyTargetFlagIndex cfg) = true ->
               (i < length vals)%nat) ->
  (forall i b, state.PreviousEpochParticipation s !! i = Some b ->
               expected.flagged cfg b = true -> (i < length vals)%nat) ->
  let vals' :=
    expected.markEach (expected.resolvePrevious cfg) (state.PreviousEpochParticipation s)
      (expected.markEach (expected.resolveCurrent cfg)
         (state.CurrentEpochParticipation s) vals) in
  ProcessEpochParticipation cfg s bal vals = Ok (vals', UpdateBalance vals' bal).
Proof.
  intros Hcp Hpp vals'. unfold ProcessEpochParticipation. cbv zeta.
  pose proof (mark_loop _ _ _ (current_body_normal cfg)
                (fun b v H => marked_unflagged _ _ _ b v H)
                (state.CurrentEpochParticipation s) [] vals Hcp) as H1.
  cbn [app length] in H1. rewrite H1. cbn [mbind result_bind].
  pose proof (mark_loop _ _ _ (previous_body_normal cfg)
                (resolvePrevious_unflagged cfg)
                (state.PreviousEpochParticipation s) []
                (expected.markEach (expected.resolveCurrent cfg)
                   (state.CurrentEpochParticipation s) vals)) as H2.
  cbn [app length] in H2. rewrite H2; [reflexivity|].
  intros k b Hk Hf. rewrite length_markEach. exact (Hpp k b Hk Hf).
Qed.

(** X8. ProcessEpochParticipation, when every participation byte that
    carries a tested flag has a record at its index: the call returns, the
    record at the index of a current-epoch byte has
    isCurrentEpochTargetAttester set when the byte has the target flag and
    the validator is active in the current epoch, the record at the index
    of a previous-epoch byte has the source, target and head attester
    flags set when the byte has the flag and the validator is active in the
    previous epoch, records without a byte are kept, and the accumulator is
    UpdateBalance of the resolved records. *)
Theorem ProcessEpochParticipation_resolved cfg s bal vals :
  (forall i b, state.CurrentEpochParticipation s !! i = Some b ->
               HasValidatorFlag b (TimelyTargetFlagIndex cfg) = true ->
               (i < length vals)%nat) ->
  (forall i b, state.PreviousEpochParticipation s !! i = Some b ->
               expected.flagged cfg b = true -> (i < length vals)%nat) ->
  let vals' :=
    expected.markEach (expected.resolvePrevious cfg) (state.PreviousEpochParticipation s)
      (expected.markEach (expected.resolveCurrent cfg)
         (state.CurrentEpochParticipation s) vals) in
  ProcessEpochParticipation cfg s bal vals = Ok (vals', UpdateBalance vals' bal).
Proof.
  intros Hcp Hpp vals'. unfold ProcessEpochParticipation. cbv zeta.
  pose proof (mark_loop _ _ _ (current_body_normal cfg)
                (fun b v H => marked_unflagged _ _ _ b v H)
                (state.CurrentEpochParticipation s) [] vals Hcp) as H1.
  cbn [app length] in H1. rewrite H1. cbn [mbind result_bind].
  pose proof (mark_loop _ _ _ (previous_body_normal cfg)
                (resolvePrevious_unflagged cfg)
                (state.PreviousEpochParticipation s) []
                (expected.markEach (expected.resolveCurrent cfg)
                   (state.CurrentEpochParticipation s) vals)) as H2.
  cbn [app length] in H2. rewrite H2; [reflexivity|].
  intros k b Hk Hf. rewrite length_markEach. exact (Hpp k b Hk Hf).
Qed.

(** A flagged byte past the last record. *)
Lemma participation_out_of_range cfg s bal vals (i : nat) (b : Z) :
  (length vals <= i)%nat ->
  (state.CurrentEpochParticipation s !! i = Some b /\
   HasValidatorFlag b (TimelyTargetFlagIndex cfg) = true) \/
  (state.PreviousEpochParticipation s !! i = Some b /\
   expected.flagged cfg b = true) ->
  ProcessEpochParticipation cfg s bal vals = Panic IndexOutOfRange.
Proof.
  intros Hlen Hcase. unfold ProcessEpochParticipation. cbv zeta.
  destruct Hcase as [[Hb Hf]|[Hb Hf]].
  - rewrite (mark_loop_out_of_range _ _ _ (current_body_normal cfg)
               (state.CurrentEpochParticipation s) 0 i b vals Hb Hf Hlen).
    reflexivity.
  - destruct (mark_loop_outcome _ _ _ (current_body_normal cfg)
                (state.CurrentEpochParticipation s) 0 vals)
      as [(vals1 & -> & Hl)| ->]; cbn [mbind result_bind]; [|reflexivity].
    rewrite (mark_loop_out_of_range _ _ _ (previous_body_normal cfg)
               (state.PreviousEpochParticipation s) 0 i b vals1 Hb Hf);
      [reflexivity|lia].
Qed.

(** X9. ProcessEpochParticipation has no test of the lengths: a
    current-epoch participation byte with the target flag, or a
    previous-epoch byte with any of the three flags, at an index past the
    last record stops the call with an index out of range. *)
Theorem ProcessEpochParticipation_out_of_range cfg s bal vals (i : nat) (b : Z) :
  (length vals <= i)%nat ->
  (state.CurrentEpochParticipation s !! i = Some b /\
   HasValidatorFlag b (TimelyTargetFlagIndex cfg) = true) \/
  (state.PreviousEpochParticipation s !! i = Some b /\
   expected.flagged cfg b = true) ->
  ProcessEpochParticipation cfg s bal vals = Panic IndexOutOfRange.
Proof.
  intros Hlen Hcase. unfold ProcessEpochParticipation. cbv zeta.
  destruct Hcase as [[Hb Hf]|[Hb Hf]].
  - rewrite (mark_loop_out_of_range _ _ _ (current_body_normal cfg)
               (state.CurrentEpochParticipation s) 0 i b vals Hb Hf Hlen).
    reflexivity.
  - destruct (mark_loop_outcome _ _ _ (current_body_normal cfg)
                (state.CurrentEpochParticipation s) 0 vals)
      as [(vals1 & -> & Hl)| ->]; cbn [mbind result_bind]; [|reflexivity].
    rewrite (mark_loop_out_of_range _ _ _ (previous_body_normal cfg)
               (state.PreviousEpochParticipation s) 0 i b vals1 Hb Hf);
      [reflexivity|lia].
Qed.

Lemma ProcessEpochParticipation_resolved_witness :
  ProcessEpochParticipation examples.mainnet examples.slashingState
    scenarios.snapshotBalance scenarios.snapshot
  = Ok (scenarios.resolvedSnapshot,
        UpdateBalance scenarios.resolvedSnapshot scenarios.snapshotBalance).
Proof.
  refine (eq_trans
            (ProcessEpochParticipation_resolved examples.mainnet examples.slashingState
               scenarios.snapshotBalance scenarios.snapshot _ _) _).
  - intros [|[|i]] b Hb _; cbn; try lia. discriminate Hb.
  - intros [|[|i]] b Hb _; cbn; try lia. discriminate Hb.
  - vm_compute. reflexivity.
Defined.

Lemma ProcessEpochParticipation_out_of_range_witness :
  ProcessEpochParticipation examples.mainnet examples.longParticipationState
    scenarios.snapshotBalance [examples.idleValidator]
  = Panic IndexOutOfRange.
Proof.
  apply (ProcessEpochParticipation_out_of_range examples.mainnet
           examples.longParticipationState scenarios.snapshotBalance
           [examples.idleValidator] 1 2).
  - cbn. lia.
  - left. split; reflexivity.
Defined.

Lemma resolvedFrom_refl (v : Validator) : expected.resolvedFrom v v.
Proof. unfold expected.resolvedFrom. tauto. Qed.

Lemma resolvedFrom_trans (u v w : Validator) :
  expected.resolvedFrom u v -> expected.resolvedFrom v w -> expected.resolvedFrom u w.
Proof.
  unfold expected.resolvedFrom. intros H1 H2.
  destruct H1 as (A1 & A2 & A3 & A4 & A5 & A6 & A7 & A8 & A9 & A10 & A11 & A12
                  & A13 & A14 & A15 & A16).
  destruct H2 as (B1 & B2 & B3 & B4 & B5 & B6 & B7 & B8 & B9 & B10 & B11 & B12
                  & B13 & B14 & B15 & B16).
  rewrite B3, B4 in *.
  repeat split; try congruence; try tauto.
  - intros H. destruct (B13 H) as [H'|H']; [tauto|]. right. congruence.
  - intros H. destruct (B14 H) as [H'|H']; [tauto|]. right. congruence.
  - intros H. destruct (B15 H) as [H'|H']; [tauto|]. right. congruence.
  - intros H. destruct (B16 H) as [H'|H']; [tauto|]. right. congruence.
Qed.

Lemma resolveCurrent_resolvedFrom cfg (b : Z) (v : Validator) :
  expected.resolvedFrom v (expected.resolveCurrent cfg b v).
Proof.
  unfold expected.resolveCurrent, expected.marked.
  destruct (HasValidatorFlag b _); cbn [andb]; [|apply resolvedFrom_refl].
  destruct (IsActiveCurrentEpoch v) eqn:Ha; [|apply resolvedFrom_refl].
  unfold expected.resolvedFrom. destruct v; cbn in *. tauto.
Qed.

Lemma marked_previous_resolvedFrom flagIdx setF (b : Z) (v : Validator) :
  setF = set_IsPrevEpochAttester \/ setF = set_IsPrevEpochTargetAttester \/
  setF = set_IsPrevEpochHeadAttester ->
  expected.resolvedFrom v (expected.marked flagIdx IsActivePrevEpoch setF b v).
Proof.
  intros HsetF. unfold expected.marked.
  destruct (HasValidatorFlag b _); cbn [andb]; [|apply resolvedFrom_refl].
  destruct (IsActivePrevEpoch v) eqn:Ha; [|apply resolvedFrom_refl].
  unfold expected.resolvedFrom.
  destruct HsetF as [->|[->| ->]]; destruct v; cbn in *; tauto.
Qed.

Lemma resolvePrevious_resolvedFrom cfg (b : Z) (v : Validator) :
  expected.resolvedFrom v (expected.resolvePrevious cfg b v).
Proof.
  unfold expected.resolvePrevious.
  eapply resolvedFrom_trans; [|apply marked_previous_resolvedFrom; tauto].
  eapply resolvedFrom_trans; apply marked_previous_resolvedFrom; tauto.
Qed.

Lemma markEach_Forall2 (R : Validator -> Validator -> Prop)
    (g : Z -> Validator -> Validator) (bytes : list Z) (vals : list Validator) :
  (forall v, R v v) -> (forall b v, R v (g b v)) ->
  Forall2 R vals (expected.markEach g bytes vals).
Proof.
  intros Hrefl Hg. revert vals.
  induction bytes as [|b bytes IH]; intros [|v vals]; cbn [expected.markEach];
    try (apply Forall2_same_length_lookup_2; [reflexivity|];
         intros i x y Hx Hy; rewrite Hx in Hy; injection Hy as <-; apply Hrefl).
  constructor; [apply Hg|apply IH].
Qed.

(** X10. Whenever ProcessEpochParticipation returns, it hands back as many
    records as it was given, and each record differs from the one before
    only in its attester flags: no flag is cleared, the current-epoch
    target flag is set anew only for a validator active in the current
    epoch, and the previous-epoch source, target and head flags only for a
    validator active in the previous epoch; a slashed validator is not
    left out. *)
Theorem ProcessEpochParticipation_frame cfg s bal vals vals' bal' :
  ProcessEpochParticipation cfg s bal vals = Ok (vals', bal') ->
  Forall2 expected.resolvedFrom vals vals'.
Proof.
  intros Hok.
  assert (Hcp : forall i b, state.CurrentEpochParticipation s !! i = Some b ->
                  HasValidatorFlag b (TimelyTargetFlagIndex cfg) = true ->
                  (i < length vals)%nat).
  { intros i b Hb Hf. destruct (Nat.lt_ge_cases i (length vals)) as [|Hge]; [assumption|].
    rewrite (participation_out_of_range cfg s bal vals i b Hge) in Hok
      by (left; auto).
    discriminate. }
  assert (Hpp : forall i b, state.PreviousEpochParticipation s !! i = Some b ->
                  expected.flagged cfg b = true -> (i < length vals)%nat).
  { intros i b Hb Hf. destruct (Nat.lt_ge_cases i (length vals)) as [|Hge]; [assumption|].
    rewrite (participation_out_of_range cfg s bal vals i b Hge) in Hok
      by (right; auto).
    discriminate. }
  rewrite (participation_resolved cfg s bal vals Hcp Hpp) in Hok.
  injection Hok as <- <-.
  eapply Forall2_trans.
  - intros u v w. exact (resolvedFrom_trans u v w).
  - apply (markEach_Forall2 _ (expected.resolveCurrent cfg)
             (state.CurrentEpochParticipation s));
      [exact resolvedFrom_refl|exact (resolveCurrent_resolvedFrom cfg)].
  - apply markEach_Forall2;
      [exact resolvedFrom_refl|exact (resolvePrevious_resolvedFrom cfg)].
Qed.

Lemma ProcessEpochParticipation_frame_witness :
  Forall2 expected.resolvedFrom scenarios.snapshot scenarios.resolvedSnapshot.
Proof.
  apply (ProcessEpochParticipation_frame examples.mainnet examples.slashingState
           scenarios.snapshotBalance scenarios.snapshot scenarios.resolvedSnapshot
           (UpdateBalance scenarios.resolvedSnapshot scenarios.snapshotBalance)).
  vm_compute. reflexivity.
Defined.

(** ** AttestationsDelta and the application of the deltas *)

Lemma index_middle {A} (pre rest : list A) (x : A) (i : nat) :
  length pre = i -> index (pre ++ x :: rest) i = Ok x.
Proof.
  intros <-. unfold index. rewrite list_lookup_middle by reflexivity. reflexivity.
Qed.

Lemma store_middle {A} (pre rest : list A) (x y : A) (i : nat) :
  length pre = i -> store (pre ++ x :: rest) i y = Ok (pre ++ y :: rest).
Proof.
  intros <-. rewrite store_lt by (rewrite length_app; cbn; lia).
  rewrite insert_app_r_alt by lia. rewrite Nat.sub_diag. reflexivity.
Qed.

(** The loop of AttestationsDelta when every validator has a delta. *)
Lemma AttestationsDelta_loop_deltas cfg bal brm idn leak (l : list Validator) :
  forall (deltas : list (Z * Z)) (rdone rrest pdone prest : list Z),
    Forall2 (fun v d => attestationDelta cfg bal v brm idn leak = Ok d) l deltas ->
    length pdone = length rdone ->
    (length l <= length rrest)%nat -> (length l <= length prest)%nat ->
    forRange
      (fun i v '(rewards, penalties) =>
         '(r, p) ← attestationDelta cfg bal v brm idn leak;
         rewards' ← store rewards i r;
         penalties' ← store penalties i p;
         Ok (rewards', penalties'))
      (length rdone) l (rdone ++ rrest, pdone ++ prest)
    = Ok (rdone ++ deltas.*1 ++ drop (length l) rrest,
          pdone ++ deltas.*2 ++ drop (length l) prest).
Proof.
  induction l as [|v l IH]; intros deltas rdone rrest pdone prest Hd Hlen Hr Hp.
  - apply Forall2_nil_inv_l in Hd as ->. reflexivity.
  - apply Forall2_cons_inv_l in Hd as ([r p] & deltas' & Hv & Hd & ->).
    destruct rrest as [|r0 rrest]; [cbn in Hr; lia|].
    destruct prest as [|p0 prest]; [cbn in Hp; lia|].
    cbn [forRange]. rewrite Hv. cbn [mbind result_bind].
    rewrite (store_middle rdone rrest r0 r) by reflexivity. cbn [mbind result_bind].
    rewrite (store_middle pdone prest p0 p) by exact Hlen. cbn [mbind result_bind].
    replace (S (length rdone)) with (length (rdone ++ [r]))
      by (rewrite length_app; cbn; lia).
    replace (rdone ++ r :: rrest) with ((rdone ++ [r]) ++ rrest)
      by (rewrite <- app_assoc; reflexivity).
    replace (pdone ++ p :: prest) with ((pdone ++ [p]) ++ prest)
      by (rewrite <- app_assoc; reflexivity).
    rewrite (IH deltas').
    + rewrite <- !app_assoc. reflexivity.
    + exact Hd.
    + rewrite !length_app. cbn. lia.
    + cbn in Hr. lia.
    + cbn in Hp. lia.
Qed.

(** X11. AttestationsDelta returns, per validator index, the reward and
    the penalty of attestationDelta for the record at that index, computed
    with baseRewardMultiplier = increment * factor /
    IntegerSquareRoot(activeCurrentEpoch) and inactivityDenominator =
    bias * quotient; the two slices have the length of the registry, with 0
    at the indices past the last record. *)
Theorem AttestationsDelta_deltas cfg s bal vals (deltas : list (Z * Z)) :
  mathutil.IntegerSquareRoot (ActiveCurrentEpoch bal) <> 0 ->
  (length vals <= state.NumValidators s)%nat ->
  Forall2
    (fun v d =>
       attestationDelta cfg bal v
         (uint64.mul (EffectiveBalanceIncrement cfg) (BaseRewardFactor cfg)
          / mathutil.IntegerSquareRoot (ActiveCurrentEpoch bal))
         (uint64.mul (InactivityScoreBias cfg) (InactivityPenaltyQuotientAltair cfg))
         (helpers.IsInInactivityLeak cfg (core.PrevEpoch s)
            (state.FinalizedCheckpointEpoch s))
       = Ok d)
    vals deltas ->
  AttestationsDelta cfg s bal vals
  = Ok (deltas.*1 ++ replicate (state.NumValidators s - length vals) 0,
        deltas.*2 ++ replicate (state.NumValidators s - length vals) 0).
Proof.
  intros Hsqrt Hlen Hd. unfold AttestationsDelta. cbv zeta.
  rewrite (uint64_div_nonzero _ _ Hsqrt). cbn [mbind result_bind].
  pose proof (AttestationsDelta_loop_deltas cfg bal _ _ _ vals deltas []
                (replicate (state.NumValidators s) 0) []
                (replicate (state.NumValidators s) 0) Hd eq_refl) as Hloop.
  cbn [app length] in Hloop. rewrite Hloop by (rewrite length_replicate; exact Hlen).
  rewrite drop_replicate. reflexivity.
Qed.

Lemma AttestationsDelta_deltas_witness :
  AttestationsDelta examples.mainnet examples.slashingState examples.twoActive
    [examples.idleValidator]
  = Ok ([0] ++ replicate (2 - 1) 0, [5059640] ++ replicate (2 - 1) 0).
Proof.
  apply (AttestationsDelta_deltas examples.mainnet examples.slashingState
           examples.twoActive [examples.idleValidator] [(0, 5059640)]).
  - vm_compute. discriminate.
  - cbn. lia.
  - repeat constructor.
Defined.

(** The slices AttestationsDelta returns have the length of the
    registry. *)
Lemma AttestationsDelta_lengths cfg s bal vals rewards penalties :
  (length vals <= state.NumValidators s)%nat ->
  AttestationsDelta cfg s bal vals = Ok (rewards, penalties) ->
  length rewards = state.NumValidators s /\ length penalties = state.NumValidators s.
Proof.
  intros Hlen. unfold AttestationsDelta.
  destruct (uint64.div _ _) as [brm| |]; cbn [mbind result_bind]; try discriminate.
  cbv zeta.
  match goal with
  | |- context [forRange _ _ _ _] =>
      destruct (AttestationsDelta_loop cfg bal brm
                  (uint64.mul (InactivityScoreBias cfg)
                     (InactivityPenaltyQuotientAltair cfg))
                  (helpers.IsInInactivityLeak cfg (core.PrevEpoch s)
                     (state.FinalizedCheckpointEpoch s))
                  vals 0
                  (replicate (state.NumValidators s) 0)
                  (replicate (state.NumValidators s) 0))
        as [(rw & pn & Hloop & Hrw & Hpn)|Hloop]
  end.
  - rewrite length_replicate. lia.
  - rewrite length_replicate. lia.
  - cbv zeta in Hloop. rewrite Hloop. intros H. injection H as <- <-.
    rewrite length_replicate in Hrw, Hpn. auto.
  - cbv zeta in Hloop. rewrite Hloop. discriminate.
Qed.

(** The balance loop of ProcessRewardsAndPenaltiesPrecompute, from any
    index on. *)
Lemma applyDelta_loop_applied (vrest : list Validator) :
  forall (vdone : list Validator) (bdone brest rdone rrest pdone prest : list Z),
    length bdone = length vdone -> length rdone = length vdone ->
    length pdone = length vdone ->
    length brest = length vrest -> length rrest = length vrest ->
    length prest = length vrest ->
    forLoop (applyDelta (rdone ++ rrest) (pdone ++ prest))
            (length vdone) (length vrest) (vdone ++ vrest, bdone ++ brest)
    = Ok (vdone ++ expected.stamped vrest brest (expected.newBalances brest rrest prest),
          bdone ++ expected.newBalances brest rrest prest).
Proof.
  induction vrest as [|v vrest IH];
    intros vdone bdone brest rdone rrest pdone prest Hb Hr Hp Hbr Hrr Hpr.
  - destruct brest; [|discriminate]. reflexivity.
  - destruct brest as [|b brest]; [discriminate|].
    destruct rrest as [|r rrest]; [discriminate|].
    destruct prest as [|p prest]; [discriminate|].
    cbn [length forLoop].
    assert (Hstep :
              applyDelta (rdone ++ r :: rrest) (pdone ++ p :: prest) (length vdone)
                (vdone ++ v :: vrest, bdone ++ b :: brest)
              = Ok ((vdone ++ [set_AfterEpochTransitionBalance
                                 (set_BeforeEpochTransitionBalance v b)
                                 (expected.newBalance b (r, p))]) ++ vrest,
                    (bdone ++ [expected.newBalance b (r, p)]) ++ brest)).
    { unfold applyDelta.
      repeat first
        [ rewrite index_middle by congruence
        | rewrite store_middle by congruence
        | progress cbn [mbind result_bind] ].
      rewrite <- !app_assoc. reflexivity. }
    rewrite Hstep. cbn [mbind result_bind].
    replace (S (length vdone))
      with (length (vdone ++ [set_AfterEpochTransitionBalance
                                (set_BeforeEpochTransitionBalance v b)
                                (expected.newBalance b (r, p))]))
      by (rewrite length_app; cbn; lia).
    replace (rdone ++ r :: rrest) with ((rdone ++ [r]) ++ rrest)
      by (rewrite <- app_assoc; reflexivity).
    replace (pdone ++ p :: prest) with ((pdone ++ [p]) ++ prest)
      by (rewrite <- app_assoc; reflexivity).
    cbn [length] in Hbr, Hrr, Hpr.
    rewrite IH by (rewrite ?length_app; cbn [length]; lia).
    unfold expected.newBalances, expected.stamped. cbn [zip zip_with fst snd].
    rewrite <- !app_assoc. reflexivity.
Qed.

(** X12. Outside the genesis epoch, with as many records and balances as
    validators and with the deltas AttestationsDelta returns,
    ProcessRewardsAndPenaltiesPrecompute replaces every balance by the
    balance increased by the validator's reward and then decreased, down
    to zero at most, by its penalty, writes the balance before and the
    balance after into the validator's record, and leaves every other
    field of the state and of the records alone. *)
Theorem ProcessRewardsAndPenaltiesPrecompute_applies cfg s bal vals rewards penalties :
  core.CurrentEpoch s <> GenesisEpoch ->
  length vals = state.NumValidators s ->
  length vals = state.BalancesLength s ->
  AttestationsDelta cfg s bal vals = Ok (rewards, penalties) ->
  ProcessRewardsAndPenaltiesPrecompute cfg s bal vals
  = Ok (state.SetBalances s
          (expected.newBalances (state.Balances s) rewards penalties),
        expected.stamped vals (state.Balances s)
          (expected.newBalances (state.Balances s) rewards penalties)).
Proof.
  intros Hg Hv Hb Hdelta.
  destruct (AttestationsDelta_lengths cfg s bal vals rewards penalties
              ltac:(lia) Hdelta) as [Hr Hp].
  unfold ProcessRewardsAndPenaltiesPrecompute.
  destruct (Z.eqb_spec (core.CurrentEpoch s) 0) as [E|_]; [contradiction|].
  destruct (decide _) as [[Hn|Hn]|_]; [contradiction|contradiction|].
  rewrite Hdelta. cbn [mbind result_bind]. cbv zeta.
  pose proof (applyDelta_loop_applied vals [] [] (state.Balances s) [] rewards []
                penalties eq_refl eq_refl eq_refl) as Hloop.
  cbn [app length] in Hloop. rewrite <- Hv, Hloop; [reflexivity| | |].
  - unfold state.BalancesLength in Hb. lia.
  - lia.
  - lia.
Qed.

Lemma ProcessRewardsAndPenaltiesPrecompute_applies_witness :
  ProcessRewardsAndPenaltiesPrecompute examples.mainnet examples.slashingState
    examples.twoActive [examples.idleValidator; scenarios.fullVoter]
  = Ok (state.SetBalances examples.slashingState [31994940360; 32003415257],
        [set_AfterEpochTransitionBalance
           (set_BeforeEpochTransitionBalance examples.idleValidator 32000000000)
           31994940360;
         set_AfterEpochTransitionBalance
           (set_BeforeEpochTransitionBalance scenarios.fullVoter 32000000000)
           32003415257]).
Proof.
  refine (eq_trans
            (ProcessRewardsAndPenaltiesPrecompute_applies examples.mainnet
               examples.slashingState examples.twoActive
               [examples.idleValidator; scenarios.fullVoter]
               [0; 3415257] [5059640; 0] _ _ _ _) _).
  - cbn. discriminate.
  - reflexivity.
  - reflexivity.
  - vm_compute. reflexivity.
  - vm_compute. reflexivity.
Defined.

(** ** The slashing applicator only takes away *)

(** The balances the applicator leaves, for a balance list as long as the
    registry. *)
Lemma slashings_closed_form cfg s pBal :
  EffectiveBalanceIncrement cfg <> 0 -> ActiveCurrentEpoch pBal <> 0 ->
  length (state.Validators s) = length (state.Balances s) ->
  ProcessSlashingsPrecompute cfg s pBal
  = Ok (state.SetBalances s
          (zip_with (spec.slashedBalance cfg s pBal)
                    (state.Validators s) (state.Balances s))).
Proof.
  intros Hinc Hact Hlen. rewrite ProcessSlashingsPrecompute_unfold.
  destruct (existsb _ _) eqn:Hex.
  - exact (apply_loop _ _ _ _ (state.Validators s) Hinc Hact [] [] (state.Balances s) s
             eq_refl eq_refl eq_refl Hlen).
  - rewrite <- (SetBalances_same s) at 1. do 2 f_equal. symmetry.
    exact (charged_nobody (spec.epochToWithdraw cfg s)
             (spec.minSlashing (ProportionalSlashingMultiplier cfg)
                (spec.totalSlashings s) (ActiveCurrentEpoch pBal))
             (EffectiveBalanceIncrement cfg) pBal _ _ Hex Hlen).
Qed.

Lemma DecreaseBalanceWithVal_bounds (b p : Z) :
  uint64.inRange b -> 0 <= p -> 0 <= helpers.DecreaseBalanceWithVal b p <= b.
Proof.
  unfold uint64.inRange, helpers.DecreaseBalanceWithVal. intros Hb Hp.
  destruct (Z.gtb_spec p b); [lia|].
  unfold uint64.sub. rewrite uint64_wrap_small; [lia|unfold uint64.inRange; lia].
Qed.

Lemma slashedBalance_bounds cfg s pBal (val : ethpb.Validator) (b : Z) :
  uint64.inRange b -> 0 <= spec.slashedBalance cfg s pBal val b <= b.
Proof.
  intros Hb. unfold spec.slashedBalance.
  destruct (spec.slashedAt _ _); [|unfold uint64.inRange in Hb; lia].
  apply DecreaseBalanceWithVal_bounds; [exact Hb|].
  unfold spec.slashingPenalty, uint64.mul. apply uint64_wrap_inRange.
Qed.

(** X13. With a balance list as long as the registry, the slashing
    applicator changes nothing but the balance list, never raises a
    balance and never takes one below zero, and leaves alone the balance
    of every validator that is not slashed or whose withdrawable epoch is
    not currentEpoch + epochsPerSlashingsVector/2. *)
Theorem ProcessSlashingsPrecompute_only_decreases cfg s pBal :
  EffectiveBalanceIncrement cfg <> 0 -> ActiveCurrentEpoch pBal <> 0 ->
  length (state.Validators s) = length (state.Balances s) ->
  Forall uint64.inRange (state.Balances s) ->
  exists balances',
    ProcessSlashingsPrecompute cfg s pBal = Ok (state.SetBalances s balances') /\
    Forall2 (fun b b' => 0 <= b' <= b) (state.Balances s) balances' /\
    (forall i val b,
        state.Validators s !! i = Some val -> state.Balances s !! i = Some b ->
        spec.slashedAt (spec.epochToWithdraw cfg s) val = false ->
        balances' !! i = Some b).
Proof.
  intros Hinc Hact Hlen Hrange. eexists. split; [|split].
  - apply slashings_closed_form; assumption.
  - apply Forall2_same_length_lookup_2.
    + rewrite length_zip_with_r_eq; [reflexivity|]. symmetry. exact Hlen.
    + intros i b b' Hb Hb'.
      apply lookup_zip_with_Some in Hb' as (val & b0 & -> & Hval & Hb0).
      rewrite Hb in Hb0. injection Hb0 as <-.
      apply slashedBalance_bounds.
      rewrite Forall_lookup in Hrange. exact (Hrange i b Hb).
  - intros i val b Hval Hb Hm.
    rewrite lookup_zip_with, Hval, Hb. cbn.
    unfold spec.slashedBalance. rewrite Hm. reflexivity.
Qed.

Lemma ProcessSlashingsPrecompute_only_decreases_witness :
  exists balances',
    ProcessSlashingsPrecompute examples.tripleSlashing examples.slashingState
      examples.hundredActive
    = Ok (state.SetBalances examples.slashingState balances') /\
    Forall2 (fun b b' => 0 <= b' <= b) (state.Balances examples.slashingState)
      balances' /\
    (forall i val b,
        state.Validators examples.slashingState !! i = Some val ->
        state.Balances examples.slashingState !! i = Some b ->
        spec.slashedAt (spec.epochToWithdraw examples.tripleSlashing
                          examples.slashingState) val = false ->
        balances' !! i = Some b).
Proof.
  apply (ProcessSlashingsPrecompute_only_decreases examples.tripleSlashing
           examples.slashingState examples.hundredActive).
  - cbn. lia.
  - cbn. lia.
  - reflexivity.
  - repeat constructor; vm_compute; discriminate.
Defined.

(** ** Epoch-boundary rotation, further *)

(** X14. ProcessSyncCommitteeUpdates: with a period of 0 the call stops
    in the remainder by zero. When currentEpoch + 1 is not a multiple of
    the period the state comes back as it is, at any epoch. When it is,
    the current committee becomes the old next committee, the selection
    function is run on the state that already holds the new current
    committee, its result becomes the next committee, the committee cache
    is updated from the final state, and no other field changes. *)
Theorem ProcessSyncCommitteeUpdates_boundary cfg elect cache s :
  (EpochsPerSyncCommitteePeriod cfg = 0 ->
   ProcessSyncCommitteeUpdates cfg elect cache s = Panic DivideByZero) /\
  (EpochsPerSyncCommitteePeriod cfg <> 0 ->
   core.NextEpoch s mod EpochsPerSyncCommitteePeriod cfg <> 0 ->
   ProcessSyncCommitteeUpdates cfg elect cache s = Ok s) /\
  (EpochsPerSyncCommitteePeriod cfg <> 0 ->
   core.NextEpoch s mod EpochsPerSyncCommitteePeriod cfg = 0 ->
   forall c,
     elect (state.SetCurrentSyncCommittee s (state.NextSyncCommittee s)) = Ok c ->
     cache (state.SetNextSyncCommittee
              (state.SetCurrentSyncCommittee s (state.NextSyncCommittee s)) c) = Ok tt ->
     exists s',
       ProcessSyncCommitteeUpdates cfg elect cache s = Ok s' /\
       state.CurrentSyncCommittee s' = state.NextSyncCommittee s /\
       state.NextSyncCommittee s' = c /\
       state.SetNextSyncCommittee
         (state.SetCurrentSyncCommittee s' (state.CurrentSyncCommittee s))
         (state.NextSyncCommittee s) = s).
Proof.
  unfold ProcessSyncCommitteeUpdates, uint64.rem. repeat split.
  - intros ->. reflexivity.
  - intros Hp Hmod.
    destruct (Z.eqb_spec (EpochsPerSyncCommitteePeriod cfg) 0) as [E|_]; [contradiction|].
    cbn [mbind result_bind].
    destruct (Z.eqb_spec (core.NextEpoch s mod EpochsPerSyncCommitteePeriod cfg) 0);
      [contradiction|reflexivity].
  - intros Hp Hmod c Helect Hcache.
    destruct (Z.eqb_spec (EpochsPerSyncCommitteePeriod cfg) 0) as [E|_]; [contradiction|].
    cbn [mbind result_bind]. rewrite Hmod. cbn [Z.eqb].
    rewrite Helect. cbn [mbind result_bind]. rewrite Hcache. cbn [mbind result_bind].
    eexists. split; [reflexivity|]. destruct s; repeat split.
Qed.

Lemma ProcessSyncCommitteeUpdates_boundary_witness :
  exists s',
    ProcessSyncCommitteeUpdates examples.periodOfOne examples.electC examples.cacheOk
      examples.genesisState = Ok s' /\
    state.CurrentSyncCommittee s' = state.NextSyncCommittee examples.genesisState /\
    state.NextSyncCommittee s' = examples.committeeC /\
    state.SetNextSyncCommittee
      (state.SetCurrentSyncCommittee s'
         (state.CurrentSyncCommittee examples.genesisState))
      (state.NextSyncCommittee examples.genesisState) = examples.genesisState.
Proof.
  apply (ProcessSyncCommitteeUpdates_boundary examples.periodOfOne examples.electC
           examples.cacheOk examples.genesisState).
  - cbn. discriminate.
  - reflexivity.
  - reflexivity.
  - reflexivity.
Defined.

(** X15. After two participation-flag rotations with no write in between
    the state is a fixed point of the rotation: every further rotation
    returns it unchanged. One rotation never changes the number of
    validators, so the zeroed array keeps its length. *)
Theorem ProcessParticipationFlagUpdates_settles (s : state.BeaconState) :
  exists s1 s2,
    ProcessParticipationFlagUpdates s = Ok s1 /\
    ProcessParticipationFlagUpdates s1 = Ok s2 /\
    ProcessParticipationFlagUpdates s2 = Ok s2 /\
    state.NumValidators s2 = state.NumValidators s /\
    length (state.CurrentEpochParticipation s2) = state.NumValidators s /\
    length (state.PreviousEpochParticipation s2) = state.NumValidators s.
Proof.
  eexists _, _. split; [reflexivity|]. split; [reflexivity|].
  split; [reflexivity|]. split; [reflexivity|].
  cbn. rewrite length_replicate. split; reflexivity.
Qed.

(** ** The steps in sequence *)

(** Past its two guards ProcessRewardsAndPenaltiesPrecompute returns a
    state, or stops in a division by zero. *)
Lemma rewards_outcome cfg s bal vals :
  core.CurrentEpoch s <> GenesisEpoch ->
  length vals = state.NumValidators s ->
  length vals = state.BalancesLength s ->
  (exists r, ProcessRewardsAndPenaltiesPrecompute cfg s bal vals = Ok r) \/
  ProcessRewardsAndPenaltiesPrecompute cfg s bal vals = Panic DivideByZero.
Proof.
  intros Hg Hv Hb. unfold ProcessRewardsAndPenaltiesPrecompute.
  destruct (Z.eqb_spec (core.CurrentEpoch s) 0) as [E|_]; [contradiction|].
  destruct (decide _) as [[Hn|Hn]|_]; [contradiction|contradiction|].
  destruct (AttestationsDelta cfg s bal vals) as [[rw pn]|e|p] eqn:Hdelta;
    cbn [mbind result_bind].
  - destruct (AttestationsDelta_lengths cfg s bal vals rw pn ltac:(lia) Hdelta)
      as [Hr Hp].
    destruct (applyDelta_loop rw pn (state.NumValidators s) 0 vals (state.Balances s))
      as [[vals' balances'] Hloop]; unfold state.BalancesLength in Hb; try lia.
    cbv zeta. rewrite Hloop. left. eauto.
  - exfalso. revert Hdelta. unfold AttestationsDelta.
    destruct (uint64.div _ _) as [brm| |] eqn:Hdiv; cbn [mbind result_bind];
      [|unfold uint64.div in Hdiv; destruct (_ =? 0); discriminate|discriminate].
    cbv zeta.
    match goal with
    | |- context [forRange _ _ _ _] =>
        destruct (AttestationsDelta_loop cfg bal brm
                    (uint64.mul (InactivityScoreBias cfg)
                       (InactivityPenaltyQuotientAltair cfg))
                    (helpers.IsInInactivityLeak cfg (core.PrevEpoch s)
                       (state.FinalizedCheckpointEpoch s))
                    vals 0
                    (replicate (state.NumValidators s) 0)
                    (replicate (state.NumValidators s) 0))
          as [(rw & pn & Hloop & _)|Hloop]
    end; rewrite ?length_replicate; try lia;
      cbv zeta in Hloop; rewrite Hloop; discriminate.
  - right. f_equal. revert Hdelta. unfold AttestationsDelta.
    destruct (uint64.div _ _) as [brm| |p'] eqn:Hdiv; cbn [mbind result_bind].
    + cbv zeta.
      match goal with
      | |- context [forRange _ _ _ _] =>
          destruct (AttestationsDelta_loop cfg bal brm
                      (uint64.mul (InactivityScoreBias cfg)
                         (InactivityPenaltyQuotientAltair cfg))
                      (helpers.IsInInactivityLeak cfg (core.PrevEpoch s)
                         (state.FinalizedCheckpointEpoch s))
                      vals 0
                      (replicate (state.NumValidators s) 0)
                      (replicate (state.NumValidators s) 0))
            as [(rw & pn & Hloop & _)|Hloop]
      end; rewrite ?length_replicate; try lia;
        cbv zeta in Hloop; rewrite Hloop; congruence.
    + discriminate.
    + unfold uint64.div in Hdiv. destruct (_ =? 0); congruence.
Qed.

(** X16. On a state that keeps the length invariant (as many balances as
    validators, at least as many inactivity scores, no more participation
    bytes than validators), outside the genesis epoch, the steps fit
    together: InitializeEpochValidators returns one record per validator,
    ProcessEpochParticipation resolves them, ProcessInactivityScores
    updates them and the persisted scores and leaves the registry and the
    balances alone, and ProcessRewardsAndPenaltiesPrecompute on the
    outcome passes its length guard: it returns, or stops in a division by
    zero; no step reports a length error or indexes out of range. *)
Theorem epoch_steps_compose cfg s :
  core.CurrentEpoch s <> GenesisEpoch ->
  state.BalancesLength s = state.NumValidators s ->
  (state.NumValidators s <= length (state.InactivityScores s))%nat ->
  (length (state.CurrentEpochParticipation s) <= state.NumValidators s)%nat ->
  (length (state.PreviousEpochParticipation s) <= state.NumValidators s)%nat ->
  exists vals bal vals1 bal1 s1 vals2,
    InitializeEpochValidators s = Ok (vals, bal) /\
    ProcessEpochParticipation cfg s bal vals = Ok (vals1, bal1) /\
    ProcessInactivityScores cfg s vals1 = Ok (s1, vals2) /\
    length vals2 = state.NumValidators s /\
    state.Validators s1 = state.Validators s /\
    state.Balances s1 = state.Balances s /\
    length (state.InactivityScores s1) = length (state.InactivityScores s) /\
    ((exists r, ProcessRewardsAndPenaltiesPrecompute cfg s1 bal1 vals2 = Ok r) \/
     ProcessRewardsAndPenaltiesPrecompute cfg s1 bal1 vals2 = Panic DivideByZero).
Proof.
  intros Hg Hbal Hsc Hcp Hpp.
  pose (vals := zip_with (expected.precomputed (core.CurrentEpoch s) (core.PrevEpoch s))
                  (state.Validators s) (state.InactivityScores s)).
  assert (Hvals : length vals = state.NumValidators s).
  { unfold vals. apply length_zip_with_l. exact Hsc. }
  assert (Hinit : exists bal, InitializeEpochValidators s = Ok (vals, bal)).
  { unfold InitializeEpochValidators, state.ReadFromEveryValidator.
    destruct (decide _) as [Hlt|_]; [lia|]. cbv zeta.
    pose proof (initialize_loop_records (core.CurrentEpoch s) (core.PrevEpoch s)
                  (state.Validators s) []
                  (replicate (state.NumValidators s) zeroValidator) []
                  (state.InactivityScores s) zeroBalance eq_refl
                  (length_replicate _ _) Hsc) as Hloop.
    cbn [app length] in Hloop. rewrite Hloop. eauto. }
  destruct Hinit as [bal Hinit].
  pose (vals1 := expected.markEach (expected.resolvePrevious cfg)
                   (state.PreviousEpochParticipation s)
                   (expected.markEach (expected.resolveCurrent cfg)
                      (state.CurrentEpochParticipation s) vals)).
  assert (Hvals1 : length vals1 = state.NumValidators s).
  { unfold vals1. rewrite !length_markEach. exact Hvals. }
  assert (Hpart : ProcessEpochParticipation cfg s bal vals
                  = Ok (vals1, UpdateBalance vals1 bal)).
  { apply participation_resolved.
    - intros i b Hb _. apply lookup_lt_Some in Hb. lia.
    - intros i b Hb _. apply lookup_lt_Some in Hb. lia. }
  assert (Hscores : exists scores' vals2,
             ProcessInactivityScores cfg s vals1
             = Ok (state.SetInactivityScores s scores', vals2) /\
             length vals2 = length vals1 /\
             length scores' = length (state.InactivityScores s)).
  { unfold ProcessInactivityScores.
    destruct (Z.eqb_spec (core.CurrentEpoch s) GenesisEpoch) as [E|_]; [contradiction|].
    cbv zeta.
    pose proof (inactivity_loop (InactivityScoreBias cfg)
                  (InactivityScoreRecoveryRate cfg)
                  (helpers.IsInInactivityLeak cfg (core.PrevEpoch s)
                     (state.FinalizedCheckpointEpoch s))
                  vals1 [] [] (state.InactivityScores s) eq_refl ltac:(lia)) as Hloop.
    cbn [app length] in Hloop. rewrite Hloop. cbn [mbind result_bind].
    eexists _, _. split; [reflexivity|]. split.
    - apply length_map.
    - rewrite length_app, length_drop, length_zip_with_l by lia. lia. }
  destruct Hscores as (scores' & vals2 & Hsco & Hvals2 & Hlen').
  exists vals, bal, vals1, (UpdateBalance vals1 bal),
    (state.SetInactivityScores s scores'), vals2.
  repeat split; try assumption; try reflexivity; try lia.
  apply rewards_outcome.
  - exact Hg.
  - cbn. unfold state.NumValidators in *. lia.
  - cbn. unfold state.NumValidators, state.BalancesLength in *. lia.
Qed.

Lemma epoch_steps_compose_witness :
  exists vals bal vals1 bal1 s1 vals2,
    InitializeEpochValidators examples.slashingState = Ok (vals, bal) /\
    ProcessEpochParticipation examples.mainnet examples.slashingState bal vals
    = Ok (vals1, bal1) /\
    ProcessInactivityScores examples.mainnet examples.slashingState vals1
    = Ok (s1, vals2) /\
    length vals2 = state.NumValidators examples.slashingState /\
    state.Validators s1 = state.Validators examples.slashingState /\
    state.Balances s1 = state.Balances examples.slashingState /\
    length (state.InactivityScores s1)
    = length (state.InactivityScores examples.slashingState) /\
    ((exists r, ProcessRewardsAndPenaltiesPrecompute examples.mainnet s1 bal1 vals2
                = Ok r) \/
     ProcessRewardsAndPenaltiesPrecompute examples.mainnet s1 bal1 vals2
     = Panic DivideByZero).
Proof.
  apply (epoch_steps_compose examples.mainnet examples.slashingState).
  - cbn. discriminate.
  - reflexivity.
  - cbn. lia.
  - cbn. lia.
  - cbn. lia.
Defined.

(** ** UpdateGenesisEth1Data *)

Section GenesisEth1Data.
Context {DepositData Trie State Failure : Type}.
Variable HashTreeRoot : DepositData -> Failure + list Z.
Variable GenerateTrieFromItems : list (list Z) -> Z -> Failure + Trie.
Variable NewTrie : Z -> Failure + Trie.
Variable TrieHashTreeRoot : Trie -> list Z.
Variable SetEth1Data : State -> genesis.Eth1Data -> Failure + State.
Variable depth : Z.

(** The loop on deposits that all hash. *)
Lemma collectLeaves_hashes (deposits : list (option (genesis.Deposit DepositData)))
    (hashes : list (list Z)) :
  Forall2 (genesis.hashesTo DepositData Failure HashTreeRoot) deposits hashes ->
  forall leaves,
    genesis.collectLeaves DepositData Failure HashTreeRoot deposits leaves
    = genesis.Done (leaves ++ hashes).
Proof.
  induction 1 as [|deposit hash deposits hashes (d & data & -> & Hd & Hh) _ IH];
    intros leaves; cbn [genesis.collectLeaves].
  - rewrite app_nil_r. reflexivity.
  - rewrite Hd, Hh, IH, <- app_assoc. reflexivity.
Qed.


(** X18. When every deposit is there with data that hashes,
    UpdateGenesisEth1Data builds the trie from the hashes in the order
    of the deposits, or the empty trie when there is no deposit, writes
    the trie's root into the Eth1Data as its deposit root, keeping the
    deposit count and the block hash, and stores that Eth1Data in the
    state; an error of the trie or of the container is handed on. *)
Theorem UpdateGenesisEth1Data_root (st : State)
    (deposits : list (option (genesis.Deposit DepositData)))
    (hashes : list (list Z)) (eth1Data : genesis.Eth1Data) :
  Forall2 (genesis.hashesTo DepositData Failure HashTreeRoot) deposits hashes ->
  genesis.UpdateGenesisEth1Data DepositData Trie State Failure HashTreeRoot
    GenerateTrieFromItems NewTrie TrieHashTreeRoot SetEth1Data depth
    st deposits (Some eth1Data)
  = match (match hashes with
           | [] => NewTrie depth
           | _ :: _ => GenerateTrieFromItems hashes depth
           end) with
    | inl e => genesis.Failed (genesis.Collaborator e)
    | inr trie =>
        let updated :=
          {| genesis.DepositRoot := TrieHashTreeRoot trie;
             genesis.DepositCount := genesis.DepositCount eth1Data;
             genesis.BlockHash := genesis.BlockHash eth1Data |} in
        match SetEth1Data st updated with
        | inl e => genesis.Failed (genesis.Collaborator e)
        | inr st' => genesis.Done (st', updated)
        end
    end.
Proof.
  intros Hd. unfold genesis.UpdateGenesisEth1Data.
  rewrite (collectLeaves_hashes deposits hashes Hd []). cbn [app].
  destruct hashes as [|h hashes]; cbn [length].
  - destruct (decide (0 < 0)%nat); [lia|]. reflexivity.
  - destruct (decide (0 < S (length hashes))%nat); [|lia]. reflexivity.
Qed.
End GenesisEth1Data.


Lemma UpdateGenesisEth1Data_root_witness :
  genesis.UpdateGenesisEth1Data Z (list (list Z)) (option genesis.Eth1Data) unit
    genesis.toyHash genesis.toyTrie genesis.toyEmptyTrie genesis.toyRoot
    genesis.toySet 32 None
    [genesis.toyDeposit 7; genesis.toyDeposit 9] (Some genesis.toyEth1)
  = genesis.Done
      (Some {| genesis.DepositRoot := [7; 9]; genesis.DepositCount := 2;
               genesis.BlockHash := [66; 66] |},
       {| genesis.DepositRoot := [7; 9]; genesis.DepositCount := 2;
          genesis.BlockHash := [66; 66] |}).
Proof.
  refine (eq_trans
            (UpdateGenesisEth1Data_root genesis.toyHash genesis.toyTrie
               genesis.toyEmptyTrie genesis.toyRoot genesis.toySet 32 None
               [genesis.toyDeposit 7; genesis.toyDeposit 9] [[7]; [9]]
               genesis.toyEth1 _) _).
  - repeat constructor; eexists _, _; repeat split.
  - reflexivity.
Defined.

(** ** Resolution twice, and AttestationsDelta on too many records *)

Lemma marked_idempotent flagIdx active setF (b : Z) (v : Validator) :
  (forall w, active (setF w true) = active w) ->
  (forall w, setF (setF w true) true = setF w true) ->
  expected.marked flagIdx active setF b (expected.marked flagIdx active setF b v)
  = expected.marked flagIdx active setF b v.
Proof.
  intros Hactive Hset. unfold expected.marked.
  destruct (HasValidatorFlag b flagIdx); cbn [andb]; [|reflexivity].
  destruct (active v) eqn:Ha; [|rewrite Ha; reflexivity].
  rewrite Hactive, Ha. apply Hset.
Qed.

Lemma resolveCurrent_idempotent cfg (b : Z) (v : Validator) :
  expected.resolveCurrent cfg b (expected.resolveCurrent cfg b v)
  = expected.resolveCurrent cfg b v.
Proof.
  apply marked_idempotent; intros w; destruct w; reflexivity.
Qed.

Lemma resolvePrevious_idempotent cfg (b : Z) (v : Validator) :
  expected.resolvePrevious cfg b (expected.resolvePrevious cfg b v)
  = expected.resolvePrevious cfg b v.
Proof.
  unfold expected.resolvePrevious, expected.marked.
  destruct (HasValidatorFlag b (TimelySourceFlagIndex cfg)),
    (HasValidatorFlag b (TimelyTargetFlagIndex cfg)),
    (HasValidatorFlag b (TimelyHeadFlagIndex cfg)), v as [? ? ? []];
    reflexivity.
Qed.

Lemma resolve_commute cfg (c p : Z) (v : Validator) :
  expected.resolveCurrent cfg c (expected.resolvePrevious cfg p v)
  = expected.resolvePrevious cfg p (expected.resolveCurrent cfg c v).
Proof.
  unfold expected.resolveCurrent, expected.resolvePrevious, expected.marked.
  destruct (HasValidatorFlag c (TimelyTargetFlagIndex cfg)),
    (HasValidatorFlag p (TimelySourceFlagIndex cfg)),
    (HasValidatorFlag p (TimelyTargetFlagIndex cfg)),
    (HasValidatorFlag p (TimelyHeadFlagIndex cfg)), v as [? ? [] []];
    reflexivity.
Qed.

Lemma markEach_idempotent (g : Z -> Validator -> Validator) (bytes : list Z)
    (vals : list Validator) :
  (forall b v, g b (g b v) = g b v) ->
  expected.markEach g bytes (expected.markEach g bytes vals)
  = expected.markEach g bytes vals.
Proof.
  intros Hg. revert vals. induction bytes as [|b bytes IH]; intros [|v vals];
    cbn [expected.markEach]; try reflexivity.
  rewrite Hg, IH. reflexivity.
Qed.

Lemma markEach_commute (f g : Z -> Validator -> Validator) (cs ps : list Z)
    (vals : list Validator) :
  (forall c p v, f c (g p v) = g p (f c v)) ->
  expected.markEach f cs (expected.markEach g ps vals)
  = expected.markEach g ps (expected.markEach f cs vals).
Proof.
  intros Hfg. revert cs ps. induction vals as [|v vals IH]; intros [|c cs] [|p ps];
    cbn [expected.markEach]; try reflexivity.
  rewrite Hfg, IH. reflexivity.
Qed.

(** X19. The participation-flag resolution is idempotent on the records:
    ProcessEpochParticipation run again on the records it returned, in the
    same state, returns the same records. *)
Theorem ProcessEpochParticipation_idempotent cfg s bal vals vals' bal' :
  ProcessEpochParticipation cfg s bal vals = Ok (vals', bal') ->
  exists bal'', ProcessEpochParticipation cfg s bal' vals' = Ok (vals', bal'').
Proof.
  intros Hok.
  assert (Hcp : forall i b, state.CurrentEpochParticipation s !! i = Some b ->
                  HasValidatorFlag b (TimelyTargetFlagIndex cfg) = true ->
                  (i < length vals)%nat).
  { intros i b Hb Hf. destruct (Nat.lt_ge_cases i (length vals)) as [|Hge]; [assumption|].
    rewrite (participation_out_of_range cfg s bal vals i b Hge) in Hok
      by (left; auto).
    discriminate. }
  assert (Hpp : forall i b, state.PreviousEpochParticipation s !! i = Some b ->
                  expected.flagged cfg b = true -> (i < length vals)%nat).
  { intros i b Hb Hf. destruct (Nat.lt_ge_cases i (length vals)) as [|Hge]; [assumption|].
    rewrite (participation_out_of_range cfg s bal vals i b Hge) in Hok
      by (right; auto).
    discriminate. }
  rewrite (participation_resolved cfg s bal vals Hcp Hpp) in Hok.
  injection Hok as <- <-.
  set (once := expected.markEach (expected.resolvePrevious cfg)
                 (state.PreviousEpochParticipation s)
                 (expected.markEach (expected.resolveCurrent cfg)
                    (state.CurrentEpochParticipation s) vals)).
  assert (Hlen : length once = length vals)
    by (unfold once; rewrite !length_markEach; reflexivity).
  rewrite (participation_resolved cfg s (UpdateBalance once bal) once)
    by (intros i b Hb Hf; rewrite Hlen; eauto).
  eexists. f_equal. f_equal. unfold once.
  rewrite (markEach_commute (expected.resolveCurrent cfg) (expected.resolvePrevious cfg))
    by (intros c p v; apply resolve_commute).
  rewrite (markEach_idempotent (expected.resolveCurrent cfg))
    by (intros b v; apply resolveCurrent_idempotent).
  apply markEach_idempotent. intros b v. apply resolvePrevious_idempotent.
Qed.

Lemma ProcessEpochParticipation_idempotent_witness :
  exists bal'',
    ProcessEpochParticipation examples.mainnet examples.slashingState
      (UpdateBalance scenarios.resolvedSnapshot scenarios.snapshotBalance)
      scenarios.resolvedSnapshot
    = Ok (scenarios.resolvedSnapshot, bal'').
Proof.
  apply (ProcessEpochParticipation_idempotent examples.mainnet examples.slashingState
           scenarios.snapshotBalance scenarios.snapshot).
  vm_compute. reflexivity.
Defined.

(** The loop of AttestationsDelta on more records than [rewards] has
    room for, when no division fails. *)
Lemma AttestationsDelta_loop_overrun cfg bal brm idn leak (l : list Validator) :
  spec.deltaDivisorsNonZero cfg bal idn ->
  forall (i : nat) (rewards penalties : list Z),
    length rewards = length penalties ->
    (i <= length rewards)%nat ->
    (length rewards < i + length l)%nat ->
    forRange
      (fun i v '(rewards, penalties) =>
         '(r, p) ← attestationDelta cfg bal v brm idn leak;
         rewards' ← store rewards i r;
         penalties' ← store penalties i p;
         Ok (rewards', penalties'))
      i l (rewards, penalties)
    = Panic IndexOutOfRange.
Proof.
  intros Hd. induction l as [|v l IH]; intros i rw pn Hrp Hi0 Hlen; cbn [forRange].
  - cbn in Hlen. lia.
  - destruct (attestationDelta_returns cfg bal v brm idn leak Hd) as (r & p & ->).
    cbn [mbind result_bind].
    destruct (decide (i < length rw)%nat) as [Hi|Hi].
    + rewrite !store_lt by lia. cbn [mbind result_bind].
      apply IH; rewrite !length_insert; [exact Hrp|lia|cbn in Hlen; lia].
    + assert (Hstore : store rw i r = Panic IndexOutOfRange)
        by (unfold store; destruct (decide _); [contradiction|reflexivity]).
      rewrite Hstore. reflexivity.
Qed.

(** X20. AttestationsDelta sizes its two slices by the registry and
    writes them by the index of the records without comparing the lengths
    (the guard is in its caller): called with more records than validators,
    and with divisors that are not zero, it stops with an index out of
    range. *)
Theorem AttestationsDelta_too_many_records cfg s bal vals :
  mathutil.IntegerSquareRoot (ActiveCurrentEpoch bal) <> 0 ->
  spec.deltaDivisorsNonZero cfg bal
    (uint64.mul (InactivityScoreBias cfg) (InactivityPenaltyQuotientAltair cfg)) ->
  (state.NumValidators s < length vals)%nat ->
  AttestationsDelta cfg s bal vals = Panic IndexOutOfRange.
Proof.
  intros Hsqrt Hd Hlen. unfold AttestationsDelta. cbv zeta.
  rewrite (uint64_div_nonzero _ _ Hsqrt). cbn [mbind result_bind].
  apply (AttestationsDelta_loop_overrun cfg bal _ _ _ vals Hd).
  - rewrite !length_replicate. reflexivity.
  - lia.
  - rewrite length_replicate. lia.
Qed.

Lemma AttestationsDelta_too_many_records_witness :
  AttestationsDelta examples.mainnet examples.longParticipationState
    examples.twoActive [examples.idleValidator; scenarios.fullVoter]
  = Panic IndexOutOfRange.
Proof.
  apply (AttestationsDelta_too_many_records examples.mainnet
           examples.longParticipationState examples.twoActive
           [examples.idleValidator; scenarios.fullVoter]).
  - vm_compute. discriminate.
  - repeat split; vm_compute; discriminate.
  - cbn. lia.
Defined.

(** ** A vote never costs *)

(** X21. Casting more correct votes never lowers the reward and never
    raises the penalty of a validator that is not slashed: if a second
    record differs from the first only in that some of the source, target
    and head flags are set in addition, attestationDelta gives it at least
    the reward and at most the penalty of the first. The weights add up to
    at most the weight denominator, no attested balance exceeds the active
    balance, and the products and sums of the formula fit in 64 bits. *)
Theorem attestationDelta_vote_never_costs cfg bal v brm idn leak
    (a' t' h' : bool) r p r' p' :
  let inc := EffectiveBalanceIncrement cfg in
  let wd := WeightDenominator cfg in
  let A := ActiveCurrentEpoch bal / inc in
  let B := CurrentEpochEffectiveBalance v / inc * brm in
  0 < inc -> 0 < wd -> 0 < idn ->
  0 <= TimelySourceWeight cfg -> 0 <= TimelyTargetWeight cfg ->
  0 <= TimelyHeadWeight cfg ->
  TimelySourceWeight cfg + TimelyTargetWeight cfg + TimelyHeadWeight cfg <= wd ->
  0 <= PrevEpochAttested bal <= ActiveCurrentEpoch bal ->
  0 <= PrevEpochTargetAttested bal <= ActiveCurrentEpoch bal ->
  0 <= PrevEpochHeadAttested bal <= ActiveCurrentEpoch bal ->
  0 <= CurrentEpochEffectiveBalance v -> 0 <= brm -> 0 <= InactivityScore v ->
  B * wd < uint64.modulus -> A * wd < uint64.modulus ->
  B * wd * A < uint64.modulus ->
  CurrentEpochEffectiveBalance v * InactivityScore v < uint64.modulus ->
  B * TimelySourceWeight cfg / wd + B * TimelyTargetWeight cfg / wd
  + CurrentEpochEffectiveBalance v * InactivityScore v / idn < uint64.modulus ->
  IsSlashed v = false ->
  (IsPrevEpochAttester v = true -> a' = true) ->
  (IsPrevEpochTargetAttester v = true -> t' = true) ->
  (IsPrevEpochHeadAttester v = true -> h' = true) ->
  attestationDelta cfg bal v brm idn leak = Ok (r, p) ->
  attestationDelta cfg bal
    (set_IsPrevEpochHeadAttester
       (set_IsPrevEpochTargetAttester (set_IsPrevEpochAttester v a') t') h')
    brm idn leak = Ok (r', p') ->
  r <= r' /\ p' <= p.
Proof.
  intros inc wd A B Hinc Hwd Hidn Hs Ht Hh Hsum Has Hat Hah Heff Hbrm Hscore
    HBwd HD HN Hes Hpsum Hslashed Ha' Ht' Hh' H H'.
  apply attestationDelta_reward in H as Hr. apply attestationDelta_penalty in H as Hp.
  apply attestationDelta_reward in H' as Hr'.
  apply attestationDelta_penalty in H' as Hp'.
  clear H H'. subst r p r' p'.
  assert (HB0 : 0 <= B) by (apply Z.mul_nonneg_nonneg; [apply Z.div_pos; lia|lia]).
  assert (HA0 : 0 <= A) by (apply Z.div_pos; lia).
  assert (HB : B < uint64.modulus) by nia.
  pose proof (categoryReward_bound cfg bal B (TimelySourceWeight cfg)
                (PrevEpochAttested bal) Hinc Hwd ltac:(fold wd; lia) HB0 Has HD HN)
    as (Hs0 & Hsz & Hsb).
  pose proof (categoryReward_bound cfg bal B (TimelyTargetWeight cfg)
                (PrevEpochTargetAttested bal) Hinc Hwd ltac:(fold wd; lia) HB0 Hat HD HN)
    as (Ht0 & Htz & Htb).
  pose proof (categoryReward_bound cfg bal B (TimelyHeadWeight cfg)
                (PrevEpochHeadAttested bal) Hinc Hwd ltac:(fold wd; lia) HB0 Hah HD HN)
    as (Hh0 & Hhz & Hhb).
  fold inc wd in Hsz, Htz, Hhz, Hsb, Htb, Hhb.
  fold A in Hsz, Htz, Hhz, Hsb, Htb, Hhb.
  set (rs := expected.categoryReward cfg bal B (TimelySourceWeight cfg)
               (PrevEpochAttested bal)) in *.
  set (rt := expected.categoryReward cfg bal B (TimelyTargetWeight cfg)
               (PrevEpochTargetAttested bal)) in *.
  set (rh := expected.categoryReward cfg bal B (TimelyHeadWeight cfg)
               (PrevEpochHeadAttested bal)) in *.
  assert (Hall : rs + rt + rh <= B).
  { destruct (Z.eq_dec A 0) as [E|NE]; [rewrite Hsz, Htz, Hhz by exact E; lia|].
    assert (0 < A * wd) by nia.
    apply (Z.mul_le_mono_pos_l _ _ (A * wd)); [lia|]. nia. }
  assert (Hps : 0 <= B * TimelySourceWeight cfg / wd)
    by (apply Z.div_pos; [nia|lia]).
  assert (Hpt : 0 <= B * TimelyTargetWeight cfg / wd)
    by (apply Z.div_pos; [nia|lia]).
  assert (Hpi : 0 <= CurrentEpochEffectiveBalance v * InactivityScore v / idn)
    by (apply Z.div_pos; [nia|lia]).
  unfold expected.attestationReward, spec.attestationPenalty.
  destruct v as [sl wi ac ap ct a t h eff score before after].
  cbn [IsSlashed IsWithdrawableCurrentEpoch IsActivePrevEpoch IsPrevEpochAttester
       IsPrevEpochTargetAttester IsPrevEpochHeadAttester
       CurrentEpochEffectiveBalance InactivityScore
       set_IsPrevEpochAttester set_IsPrevEpochTargetAttester
       set_IsPrevEpochHeadAttester] in *.
  subst sl. fold inc wd.
  destruct (negb _ || _); [lia|].
  cbv zeta. rewrite !(uint64_mul_small _ brm) by (fold B; try lia; apply Z.div_pos; lia).
  fold B. fold rs rt rh.
  rewrite !(uint64_mul_small B (TimelySourceWeight cfg)) by nia.
  rewrite !(uint64_mul_small B (TimelyTargetWeight cfg)) by nia.
  rewrite !(uint64_mul_small eff score) by lia.
  set (ps := B * TimelySourceWeight cfg / wd) in *.
  set (pt := B * TimelyTargetWeight cfg / wd) in *.
  set (pi := eff * score / idn) in *.
  cbn [negb andb orb]. rewrite !andb_true_r, !orb_false_r.
  destruct leak, a, a', t, t', h, h';
    try (specialize (Ha' eq_refl)); try (specialize (Ht' eq_refl));
    try (specialize (Hh' eq_refl)); try discriminate;
    cbn [negb andb orb];
    repeat (rewrite uint64_add_small); lia.
Qed.

Lemma attestationDelta_vote_never_costs_witness :
  0 <= 3415257 /\ 0 <= 5059640.
Proof.
  apply (attestationDelta_vote_never_costs examples.mainnet examples.twoActive
           examples.idleValidator examples.multiplierOfTwoActive
           examples.mainnetInactivityDenominator false true true true
           0 5059640 3415257 0);
    try reflexivity; try (intros; reflexivity);
    repeat split; vm_compute; try reflexivity; discriminate.
Defined.
